(* ===== verification/_CoqProject ===== *)
-Q . S2P
Prelude.v
PyRuntime.v
PyText.v
Prompts.v
Catalog.v
Session.v
Fixtures.v
Nodes.v
Consensus.v
Graph.v
Driver.v
Invariants.v
Limits.v
Trainer.v
Machine.v
Research.v
Clients.v
