(* ===== verification/Prelude.v ===== *)
(** * A verification development of the SOP training simulator

    The repository drives a human trainee through the numbered steps of a
    Standard Operating Procedure (SOP).  Its core is
    [src/langchain_referee.py]: a LangGraph [StateGraph] whose five nodes
    share one state dictionary ([StateDict]):

    - [coach_node]: the coach LLM speaks; it clears the last verdicts and
      hands the turn to the trainee;
    - [user_node]: reads the trainee's reply from the console; a reply
      starting with "coach:" (any case) goes back to the coach;
    - [grader_node]: the grader LLM either answers a direct question (a
      reply starting with "Grader:", never graded) or grades the reply
      against the current SOP step, producing a JSON verdict;
    - [referee_node]: the referee LLM audits the grader's verdict;
    - [orchestrator_node]: combines the two verdicts: advance (both agree
      the step was passed), confirmed fail (both agree it was not),
      or a dispute, which counts a retry and raises [RuntimeError] when
      [MAX_GRADER_RETRIES] consecutive disputes are reached.

    Static edges link coach -> user -> grader -> referee -> orchestrator.
    The orchestrator's conditional edges are a dict of predicates, which
    LangGraph coerces to a runnable whose result names no node: every
    invocation ends after the orchestrator, and the [next_node] it
    writes is read by the next invocation's coach (the coach speaks
    only when [next_node] is unset or ["coach"]).  [run_simulation] loads the SOP steps
    into the global [SOP_STEPS] dictionary and invokes the graph until
    [done] holds.  A second, independent simulator
    ([src/training_simulation.py] with the helpers of [src/llm.py])
    plays a customer against the trainee in a [while True] loop judged
    by one trainer LLM, and a two-node research graph
    ([src/agentic_research_ai.py] with [src/tools.py]) summarises the
    results of a vector search with a chat model; its entry point first
    imports [src/drivers.py], which reads the service settings from the
    environment.  [src/neptune_test.py] probes a database's status.

    ** Files, in dependency order

    - [Prelude] (this file): the exception-and-state monad [ESM] shared
      by all components, its notations (scope [sop_scope]), the
      predicates [preserves] and [has_post] with their closure lemmas,
      the hint databases [sop] and [sop_rw], and the tactics [inv_run],
      [solve_preserves] and [solve_post].
    - [PyRuntime]: the Python values the code manipulates ([pyval]: None,
      bools, ints, strings, lists and string-keyed dicts), Python's
      exceptions ([exn]), truthiness, [dict.get], subscripting,
      [str.startswith], [str.lower] and [str.strip].
    - [PyText]: CPython's text functions the prompts go through, on
      UTF-8 byte strings: [repr] and [str] of values, [str.format]
      (the formatter's parse of the template and its rendering, with the
      order in which it raises [KeyError], [IndexError] or
      [ValueError]), and [json.dumps] with [ensure_ascii] (UTF-8
      decoding, [\uXXXX] escapes, surrogate pairs); a reader of JSON
      string literals and the roundtrip theorem [json_quote_roundtrip].
    - [Prompts]: the prompt templates of [langchain_referee.py] and the
      f-string prompts of [llm.py] and [training_simulation.py],
      transcribed byte for byte, with the fields each template names.
    - [Catalog] (Module [Catalog]): [SOP_STEPS] as a Python dict with
      Python's key equality, the loading loop of [run_simulation] and
      [get_sop_step_description]; the roundtrip of loading and lookup;
      [str(SOP_STEPS)] as it enters the prompts.
    - [Session]: [StateDict] as a record, the partial updates a node
      returns (a list of writes, merged last-value-wins as LangGraph's
      channels do), the environment (console input and LLM replies as
      two tapes, and the log of the message lists sent to the LLM) and
      the node monad [M].
    - [Fixtures]: concrete inputs (the six SOP145 steps of [llm.py],
      verdict dicts, LLM replies, session tapes) used by the witnesses.
    - [Nodes]: the four turn nodes, each the whole Python function with
      its skip checks, early returns and exceptions, over a catalog
      given as a Section variable, their exact updates and the exact
      messages they send to the LLMs (the formatted prompts); the
      referee's input shown to carry the trainee's reply under a key
      its prompt does not name ([referee_reads_reply]).
    - [Consensus] (Module [Consensus]): [orchestrator_node] as the pure
      function [orchestrate]; the spec's decision table (section 4.4) as
      an abstract resolver [resolve] on an abstract session [abs s];
      the refinement theorem [orchestrate_refines] and the effect of
      each row on the whole state dict.
    - [Graph]: the edges ([successor]), one graph invocation [invoke]
      ([exec], bounded by LangGraph's recursion limit, which it never
      reaches), and a trainee's turn through the graph: a graded
      attempt with each outcome of the table, a direct question to the
      grader, a dispute, each ending the invocation; passing the last
      step of a short catalog leads to [KeyError] in the next one.
    - [Driver]: the driver loop [run_simulation] with fuel and the
      [__main__] block that loads the sample ([referee_main]), the
      loop's termination, and whole sessions on concrete tapes (the scenario of
      the spec, section 8, among them).
    - [Invariants]: the interface [NodeRespects R] (a type class: every
      node's update relates its input state to its output state by [R])
      and its lifting to [exec], [invoke] and [drive]; two instances:
      the transcript only grows, and [Inv] (step in [1, 6], retries below
      the bound, [done] only on the last step) holds with the step never
      decreasing.
    - [Limits]: a potential ([current_step] plus [done]) grows by one
      unit per invocation at most, and every invocation reads a console
      line, so a completed session has read six answers at least.
    - [Machine]: the same session as an unbounded step relation on
      configurations (node to run, state, environment), with the
      driver's re-invocation as a step; reachability from the initial
      state ([reachable]); an invariant proved by rule induction, and
      with it the [StateDict] annotations ([Session.state_typed]); the
      refinement lemma that every run of [drive] is a path of it; and
      a measure (six per console line left plus the nodes before the
      next [input()]) that every step lowers, so every session halts.
    - [Trainer] (Module [Trainer]): [simulate_customer_interaction],
      [chat_with_llm], [is_reply_chunk],
      [evaluate_customer_response], [get_customer_reply] and the history
      formatting; the behaviour of each kind of round, termination with
      fuel, and the conversation's invariant.
    - [Research] (Module [Research]): the research graph over a [dict]
      state, [get_embedding] over the embedding model as a parameter,
      the vector search and chat model as tapes, and the
      [str.join] of the chunk texts, whose exceptions the entry point
      raises.
    - [Clients]: CPython's [int()] on a string (Module [PyInt]: Unicode
      digits and spaces, underscores, the 4300-digit limit); the module
      body of [drivers.py] over the environment as a [gmap], after
      [load_dotenv] (Module [Drivers]), with the port it hands to the
      Qdrant client, and the research entry point that runs it first; [check_status] of [neptune_test.py] as the
      lines it prints (Module [Neptune]).

    ** What is modelled and how

    Dictionaries whose keys the code fixes ([StateDict]) are records;
    dictionaries that come from JSON (LLM verdicts, SOP steps) are
    [pyval] dicts, so that a missing key or a value of the wrong type
    raises the exception Python raises.  LLM calls and [input()] read
    from two tapes of the environment: an exhausted console raises
    [EOFError]; an exhausted LLM tape stands for a transport failure.
    The LLM's reply is a text together with the result of the JSON
    parser on it ([None] when the parser raises), so every theorem holds
    for whatever the LLMs answer.  Prompts are built as the code builds
    them ([str.format] on the templates, f-strings, [json.dumps] of the
    referee's input), and every LLM call appends the exact list of
    messages it sends to a log in the environment, so the theorems
    state what each LLM is asked.  [print] is not modelled, except for the subscripts and
    concatenations inside printed expressions, which can raise.  The
    orchestrator's conditional edges are modelled as current LangGraph
    releases treat a dict given as the [path] of [add_conditional_edges]
    (coerced to a [RunnableParallel] whose dict result names no node):
    no edge leaves the orchestrator ([Graph.route_orchestrator]).  Older
    releases raise [TypeError] on the dict instead; that behaviour is
    not modelled.

    ** What the theorems show

    The orchestrator refines the spec's table on readable verdicts and
    raises exactly at the retry bound ([Consensus]); each node does what
    its code says on every branch ([Nodes]); every invocation keeps the
    counters in range and the transcript append-only ([Invariants]);
    in every reachable configuration the orchestrator judges only the
    trainee's reply, the state has the types its [TypedDict] declares
    (but for the verdicts, which are whatever the JSON parser returns)
    and the final history printout cannot raise, and every session
    halts whatever the LLMs answer ([Machine]);
    the driver loop and the trainer loop terminate with enough fuel
    ([Driver], [Trainer]).  Where the code departs from the spec the
    theorems state what the code does: a dispute ends the invocation
    instead of re-grading, a confirmed fail is logged twice, a missing
    catalog entry or verdict key raises [KeyError], and the final step is
    the literal 6 ([Graph], [Driver]); each invocation judges one answer,
    so a completed session has read one graded answer per step at least
    ([Limits]).  The trainer lets the customer speak twice after a passed
    round ([Trainer]); the research entry point raises when a retrieved
    payload has no string text, [KeyError] before [TypeError]
    ([Research]).  [drivers.py] hands any integer of up to CPython's
    4300 digits to the Qdrant client as its port, with no range check
    ([Clients]).

    ** Bounds and fuel

    One graph invocation runs at most [recursion_limit] = 25 nodes
    (LangGraph's default); past that it would raise
    [GraphRecursionError].  [exec] is structurally recursive on this
    budget and total; since an invocation runs five nodes at most, the
    budget is never exhausted ([Graph.invoke_limit_irrelevant]).  The two driver loops are modelled with
    fuel; each of their iterations reads at least one console line, so
    fuel [length stdin + 1] always suffices
    ([Driver.run_simulation_fuel_enough],
    [Trainer.simulate_customer_interaction_fuel_enough]).

    ** Not modelled

    The client objects [QdrantClient] and [GraphDatabase.driver] are
    library constructors, represented by their arguments;
    [ResearchTools.search_graph] passes a Cypher query through and is
    never called; the sentence-embedding model is a parameter of the
    research flow (only [get_embedding]'s wrapping and the [[0]] around
    it are code of the repository).  These are I/O without logic of
    their own.  The HTTP exchange of [check_status] is its
    input.  The LLMs themselves (they are
    the tapes), the JSON parser on their replies (its result is part of
    the tape), floating-point JSON numbers, [repr] of strings holding
    non-printable characters outside ASCII (CPython consults the
    Unicode database; the code's literals hold none) and the console
    output are not modelled. *)

From stdpp Require Export base list strings options.
From Stdlib Require Export ZArith Lia.

(** ** Results: a value or an exception *)

Inductive res (E A : Type) : Type :=
| Ok (a : A)
| Err (e : E).
Arguments Ok {E A} a.
Arguments Err {E A} e.

Definition rbind {E A B} (r : res E A) (k : A -> res E B) : res E B :=
  match r with
  | Ok a => k a
  | Err e => Err e
  end.

(** [map] of a fallible function, stopping at the first error. *)
Fixpoint res_map {E A B} (f : A -> res E B) (l : list A) : res E (list B) :=
  match l with
  | [] => Ok []
  | a :: l' =>
      match f a with
      | Ok b => match res_map f l' with Ok bs => Ok (b :: bs) | Err e => Err e end
      | Err e => Err e
      end
  end.

Lemma res_map_snoc {E A B} (f : A -> res E B) l a bs b :
  res_map f l = Ok bs -> f a = Ok b -> res_map f (l ++ [a]) = Ok (bs ++ [b]).
Proof.
  revert bs. induction l as [|x l IH]; intros bs Hl Ha; simpl in *.
  - inversion Hl; subst. by rewrite Ha.
  - destruct (f x) as [y |]; [| discriminate].
    destruct (res_map f l) as [ys |]; [| discriminate].
    inversion Hl; subst. by rewrite (IH ys eq_refl Ha).
Qed.

(** ** The exception-and-state monad *)

(** A computation reads and consumes a state [S] (for the simulator: the
    console and the LLM tapes) and returns a value or raises. *)
Definition ESM (E S A : Type) : Type := S -> res E (A * S).

Definition eret {E S A} (a : A) : ESM E S A := fun s => Ok (a, s).

Definition ebind {E S A B} (c : ESM E S A) (k : A -> ESM E S B) : ESM E S B :=
  fun s => match c s with
           | Ok (a, s') => k a s'
           | Err e => Err e
           end.

Definition eraise {E S A} (e : E) : ESM E S A := fun _ => Err e.

(** Lift a pure computation that may raise. *)
Definition elift {E S A} (r : res E A) : ESM E S A :=
  fun s => match r with
           | Ok a => Ok (a, s)
           | Err e => Err e
           end.

Declare Scope sop_scope.
Delimit Scope sop_scope with sop.

Notation "'let?' x ':=' r 'in' k" := (rbind r (fun x => k))
  (at level 10, x name, r at level 100, k at level 200) : sop_scope.
Notation "'let*' x ':=' c 'in' k" := (ebind c (fun x => k))
  (at level 10, x name, c at level 100, k at level 200) : sop_scope.
Notation "c '>>' k" := (ebind c (fun _ => k))
  (at level 100, right associativity) : sop_scope.

Open Scope sop_scope.

(** ** Computations that relate their input and output states

    [preserves R c]: every successful run of [c] from [s] ends in a state
    [s'] with [R s s'].  With [R] a preorder this is closed under the
    monad's operations, which is how the driver's termination measure is
    carried through the nodes. *)

Definition preserves {E S A} (R : S -> S -> Prop) (c : ESM E S A) : Prop :=
  forall s a s', c s = Ok (a, s') -> R s s'.

(** [has_post c Q]: every value a successful run of [c] returns
    satisfies [Q]. *)
Definition has_post {E S A} (c : ESM E S A) (Q : A -> Prop) : Prop :=
  forall s a s', c s = Ok (a, s') -> Q a.

(** ** Generic lemmas *)

Lemma rbind_Ok {E A B} (a : A) (k : A -> res E B) : rbind (Ok a) k = k a.
Proof. reflexivity. Qed.

Lemma rbind_Err {E A B} (e : E) (k : A -> res E B) : rbind (Err e) k = Err e.
Proof. reflexivity. Qed.

Lemma rbind_inv_Ok {E A B} (r : res E A) (k : A -> res E B) b :
  rbind r k = Ok b -> exists a, r = Ok a /\ k a = Ok b.
Proof. destruct r; simpl; [eauto | discriminate]. Qed.

Lemma ebind_inv_Ok {E S A B} (c : ESM E S A) (k : A -> ESM E S B) s b s'' :
  ebind c k s = Ok (b, s'') ->
  exists a s', c s = Ok (a, s') /\ k a s' = Ok (b, s'').
Proof.
  unfold ebind. destruct (c s) as [[a s']|e]; [eauto | discriminate].
Qed.

Lemma elift_inv_Ok {E S A} (r : res E A) (s : S) a (s' : S) :
  elift r s = Ok (a, s') -> r = Ok a /\ s' = s.
Proof. destruct r; simpl; intros H; [by inversion H | discriminate]. Qed.

Lemma eret_Ok {E S A} (a : A) (s : S) : @eret E S A a s = Ok (a, s).
Proof. reflexivity. Qed.

Lemma eret_inv_Ok {E S A} (a a' : A) (s s' : S) :
  @eret E S A a s = Ok (a', s') -> a' = a /\ s' = s.
Proof. intros H. by inversion H. Qed.

Lemma prefix_of_snoc {A} (l : list A) (x : A) : l `prefix_of` l ++ [x].
Proof. by apply prefix_app_r. Qed.

Section Preserves.
Context {E S : Type} (R : S -> S -> Prop) {HR : PreOrder R}.

Lemma preserves_eret {A} (a : A) : preserves (E:=E) R (eret a).
Proof using HR. intros s x s' H. inversion H; subst. reflexivity. Qed.

Lemma preserves_elift {A} (r : res E A) : preserves R (elift r).
Proof using HR. intros s x s' H. apply elift_inv_Ok in H as [_ ->]. reflexivity. Qed.

Lemma preserves_eraise {A} (e : E) : preserves R (@eraise E S A e).
Proof. intros s x s' H. discriminate. Qed.

Lemma preserves_ebind {A B} (c : ESM E S A) (k : A -> ESM E S B) :
  preserves R c -> (forall a, preserves R (k a)) -> preserves R (ebind c k).
Proof using HR.
  intros Hc Hk s b s'' H. apply ebind_inv_Ok in H as (a & s' & H1 & H2).
  transitivity s'; [exact (Hc _ _ _ H1) | exact (Hk _ _ _ _ H2)].
Qed.
End Preserves.

Lemma has_post_eret {E S A} (a : A) (Q : A -> Prop) :
  Q a -> has_post (E:=E) (S:=S) (eret a) Q.
Proof. intros HQ s x s' H. inversion H; subst. exact HQ. Qed.

Lemma has_post_eraise {E S A} (e : E) (Q : A -> Prop) :
  has_post (S:=S) (eraise e) Q.
Proof. intros s x s' H. discriminate. Qed.

Lemma has_post_elift {E S A} (r : res E A) (Q : A -> Prop) :
  (forall a, r = Ok a -> Q a) -> has_post (S:=S) (elift r) Q.
Proof. intros HQ e a e' H. apply elift_inv_Ok in H as [H _]. auto. Qed.

Lemma has_post_ebind {E S A B} (c : ESM E S A) (k : A -> ESM E S B) Q :
  (forall a, has_post (k a) Q) -> has_post (ebind c k) Q.
Proof.
  intros Hk s b s'' H. apply ebind_inv_Ok in H as (a & s' & _ & H). exact (Hk _ _ _ _ H).
Qed.

Create HintDb sop.
Create Rewrite HintDb sop_rw.
#[export] Hint Resolve prefix_of_snoc : sop.
#[export] Hint Resolve prefix_app_r : sop.
#[export] Hint Extern 2 (_ `prefix_of` _) => etrans : sop.
#[export] Hint Rewrite @rbind_Ok @rbind_Err : sop_rw.

(** Take apart a successful monadic run: every [ebind], [elift] and
    [eret] in a hypothesis [_ = Ok _] becomes its pieces. *)
Ltac inv_run :=
  repeat match goal with
  | H : ebind _ _ _ = Ok _ |- _ =>
      apply ebind_inv_Ok in H; destruct H as (? & ? & ? & H)
  | H : rbind _ _ = Ok _ |- _ =>
      apply rbind_inv_Ok in H; destruct H as (? & ? & H)
  | H : elift _ _ = Ok _ |- _ =>
      apply elift_inv_Ok in H; destruct H as [? ?]; subst
  | H : eret _ _ = Ok _ |- _ =>
      apply eret_inv_Ok in H; destruct H as [? ?]; subst
  | H : eraise _ _ = Ok _ |- _ => discriminate H
  | H : Ok _ = Ok _ |- _ => injection H as H; subst
  | H : Some _ = Some _ |- _ => injection H as H; subst
  | H : None = Some _ |- _ => discriminate H
  | H : Some _ = None |- _ => discriminate H
  | H : Err _ = Ok _ |- _ => discriminate H
  end.

(** Prove [preserves R c] for a program [c] built from the monad's
    operations, splitting its [if]s and [match]es. *)
Ltac solve_preserves :=
  repeat first
    [ refine (preserves_eret _ _)
    | refine (preserves_elift _ _)
    | refine (preserves_eraise _ _)
    | refine (preserves_ebind _ _ _ _ _); [| intros ?]
    | case_match
    | progress eauto with sop ].

(** Reduce [has_post c Q] for a program [c] to the [Q]s of its returned
    values, splitting its [if]s and [match]es. *)
Ltac solve_post :=
  repeat first
    [ apply has_post_eraise
    | apply has_post_eret
    | apply has_post_ebind; intros ?
    | case_match ].
