(* ===== verification/PyRuntime.v ===== *)
(** * Python runtime: the values, operations and exceptions the code uses

    [langchain_referee.py] keeps its verdicts, messages and SOP steps as
    Python dictionaries parsed from JSON and reads them with [d.get(k)],
    [d.get(k, default)] and [d[k]].  This file models those values
    ([pyval]), Python's truthiness, the dictionary and string methods the
    code calls, and the exceptions they raise ([exn]). *)

From S2P Require Import Prelude.
From Stdlib Require Import Ascii.

(** ** Values *)

(** The JSON-shaped values of Python: [None], [bool], [int], [str],
    [list] and [dict] with string keys (the only dicts JSON produces and
    the only literal dicts the code writes).  JSON floats are not
    modelled. *)
#[warnings="-register-all"]
Inductive pyval : Type :=
| PNone
| PBool (b : bool)
| PInt (z : Z)
| PStr (s : string)
| PList (l : list pyval)
| PDict (d : list (string * pyval)).

(** The exceptions the modelled code can raise.  [LLMUnavailable] stands
    for a failed call to the LLM service (an exhausted reply tape);
    [GraphRecursionError] is LangGraph's. *)
Inductive exn : Type :=
| KeyError (key : pyval)
| TypeError
| AttributeError
| RuntimeError (msg : string)
| ValueError
| IndexError
| EOFError
| OutputParserException
| LLMUnavailable
| ServiceUnavailable
| GraphRecursionError.

(** ** Truthiness: [bool(v)] *)

Definition truthy (v : pyval) : bool :=
  match v with
  | PNone => false
  | PBool b => b
  | PInt z => negb (Z.eqb z 0)
  | PStr s => negb (String.eqb s "")
  | PList l => negb (bool_decide (l = []))
  | PDict d => negb (bool_decide (d = []))
  end.

(** ** Dictionaries *)

(** Lookup in a dict literal: the first binding of the key. *)
Fixpoint dict_get (d : list (string * pyval)) (k : string) : option pyval :=
  match d with
  | [] => None
  | (k', v) :: d' => if String.eqb k' k then Some v else dict_get d' k
  end.

(** [v.get(k, dflt)]: only dicts have a [get] method. *)
Definition py_get (v : pyval) (k : string) (dflt : pyval) : res exn pyval :=
  match v with
  | PDict d => Ok (default dflt (dict_get d k))
  | _ => Err AttributeError
  end.

(** [v[k]] with a string key: [KeyError] on a dict without the key,
    [TypeError] on anything else ([None] is not subscriptable, and
    strings and lists need integer indices). *)
Definition py_getitem (v : pyval) (k : string) : res exn pyval :=
  match v with
  | PDict d =>
      match dict_get d k with
      | Some x => Ok x
      | None => Err (KeyError (PStr k))
      end
  | _ => Err TypeError
  end.

(** [d[k] = v] on a dict with string keys: an existing key keeps its
    place, a new key goes at the end; [TypeError] on anything else. *)
Fixpoint dict_set (d : list (string * pyval)) (k : string) (v : pyval)
  : list (string * pyval) :=
  match d with
  | [] => [(k, v)]
  | (k', v') :: d' => if String.eqb k' k then (k', v) :: d' else (k', v') :: dict_set d' k v
  end.

Definition py_setitem (x : pyval) (k : string) (v : pyval) : res exn pyval :=
  match x with
  | PDict d => Ok (PDict (dict_set d k v))
  | _ => Err TypeError
  end.

(** [for x in v]: lists yield their items, dicts their keys, strings
    their characters; anything else raises [TypeError]. *)
Definition py_iter (v : pyval) : res exn (list pyval) :=
  match v with
  | PList l => Ok l
  | PDict d => Ok (map (fun kv => PStr kv.1) d)
  | PStr s => Ok (map (fun c => PStr (String c EmptyString))
                      (String.list_ascii_of_string s))
  | _ => Err TypeError
  end.

(** [v == s] for a string literal [s]. *)
Definition py_eq_str (v : pyval) (s : string) : bool :=
  match v with
  | PStr s' => String.eqb s' s
  | _ => false
  end.

(** A chat message [{"role": role, "content": content}]. *)
Definition msg (role content : string) : pyval :=
  PDict [("role", PStr role); ("content", PStr content)].

(** ** Strings *)

(** [s.startswith(p)]: only strings have the method. *)
Definition py_startswith (v : pyval) (p : string) : res exn bool :=
  match v with
  | PStr s => Ok (String.prefix p s)
  | _ => Err AttributeError
  end.

(** [str.lower] on ASCII letters. *)
Definition ascii_lower (c : ascii) : ascii :=
  let n := nat_of_ascii c in
  if (65 <=? n) && (n <=? 90) then ascii_of_nat (n + 32) else c.

Fixpoint str_lower (s : string) : string :=
  match s with
  | EmptyString => EmptyString
  | String c s' => String (ascii_lower c) (str_lower s')
  end.

(** [str.strip()] with ASCII whitespace (space, \t, \n, \x0b, \x0c, \r). *)
Definition is_space (c : ascii) : bool :=
  let n := nat_of_ascii c in (n =? 32) || ((9 <=? n) && (n <=? 13)).

Fixpoint str_lstrip (s : string) : string :=
  match s with
  | EmptyString => EmptyString
  | String c s' => if is_space c then str_lstrip s' else s
  end.

Definition str_rev (s : string) : string :=
  String.string_of_list_ascii (rev (String.list_ascii_of_string s)).

Definition str_strip (s : string) : string :=
  str_rev (str_lstrip (str_rev (str_lstrip s))).

(** ** Lemmas *)

Lemma dict_get_head k v d : dict_get ((k, v) :: d) k = Some v.
Proof. simpl. by rewrite String.eqb_refl. Qed.

Lemma dict_get_tail k k' v d :
  k' <> k -> dict_get ((k', v) :: d) k = dict_get d k.
Proof. intros Hne. simpl. by destruct (String.eqb_spec k' k). Qed.

Lemma py_getitem_Ok v k x :
  py_getitem v k = Ok x -> exists d, v = PDict d /\ dict_get d k = Some x.
Proof.
  destruct v; simpl; try discriminate.
  destruct (dict_get d k) eqn:E; intros H; inversion H; subst; eauto.
Qed.

(** A dict that has a key is non-empty, hence truthy. *)
Lemma py_getitem_truthy v k x : py_getitem v k = Ok x -> truthy v = true.
Proof.
  intros (d & -> & Hd)%py_getitem_Ok. destruct d as [|[k' y] d]; [discriminate | done].
Qed.

Lemma py_get_dict d k dflt :
  py_get (PDict d) k dflt = Ok (default dflt (dict_get d k)).
Proof. reflexivity. Qed.

Lemma truthy_dict_cons k v d : truthy (PDict ((k, v) :: d)) = true.
Proof. reflexivity. Qed.

Lemma py_eq_str_iff v s : py_eq_str v s = true <-> v = PStr s.
Proof.
  destruct v; simpl; split; intros H; try discriminate; try congruence.
  - by apply String.eqb_eq in H as ->.
  - inversion H; subst. apply String.eqb_refl.
Qed.

Lemma str_lower_append s1 s2 :
  str_lower (s1 +:+ s2) = str_lower s1 +:+ str_lower s2.
Proof. induction s1 as [|c s1 IH]; simpl; [done | by rewrite IH]. Qed.

Lemma prefix_append p s : String.prefix p (p +:+ s) = true.
Proof.
  induction p as [|c p IH]; simpl; [by destruct s |].
  destruct (ascii_dec c c); [exact IH | congruence].
Qed.

Lemma prefix_inv p s : String.prefix p s = true -> exists r, s = p +:+ r.
Proof.
  revert s. induction p as [|c p IH]; intros s H; [by exists s |].
  destruct s as [|c' s]; simpl in H; [discriminate |].
  destruct (ascii_dec c c') as [<- |]; [| discriminate].
  destruct (IH _ H) as [r ->]. by exists r.
Qed.

(** A message addressed to the grader is not one addressed to the coach. *)
Lemma grader_prefix_not_coach q :
  String.prefix "Grader:" q = true -> String.prefix "coach:" (str_lower q) = false.
Proof. intros (r & ->)%prefix_inv. rewrite str_lower_append. reflexivity. Qed.

Lemma dict_get_set d k v : dict_get (dict_set d k v) k = Some v.
Proof.
  induction d as [|[k' v'] d IH]; simpl; [by rewrite String.eqb_refl |].
  destruct (String.eqb_spec k' k) as [-> |]; simpl; [by rewrite String.eqb_refl |].
  rewrite IH. by destruct (String.eqb_spec k' k).
Qed.

Lemma dict_get_set_ne d k k' v :
  k' <> k -> dict_get (dict_set d k v) k' = dict_get d k'.
Proof.
  intros Hne. induction d as [|[k0 v0] d IH]; simpl.
  - destruct (String.eqb_spec k k'); congruence.
  - destruct (String.eqb_spec k0 k) as [-> |]; simpl.
    + destruct (String.eqb_spec k k'); congruence.
    + by rewrite IH.
Qed.

#[export] Hint Resolve dict_get_head prefix_append : sop.
#[export] Hint Rewrite dict_get_head py_get_dict str_lower_append : sop_rw.
