(* ===== verification/PyText.v ===== *)
(** * Python text: [str()], [repr()], [str.format], [json.dumps]

    The nodes do not only read dicts: they build the prompts they send
    to the LLMs.  A prompt is an f-string or a LangChain [PromptTemplate]
    filled with [str()] of the state's values (the step number, a step
    dict, the whole [SOP_STEPS] dict, the history list), and the
    referee's input is [json.dumps] of a dict.  This file models those
    conversions of CPython on the values of [pyval]:

    - [py_repr] and [py_str]: [repr()] and [str()] ([str] of a string is
      the string; of anything else its [repr]), with CPython's choice of
      quote and escapes for strings;
    - [str_capitalize] and [String.concat] for [str.capitalize] and
      [str.join];
    - [str_format]: [string.Formatter.vformat] with keyword arguments
      only, the formatter behind [PromptTemplate.format], scanning the
      template left to right ("{{" and "}}" are literal braces, a field
      is looked up by name and rendered with [str()]);
    - [json_dumps]: [json.dumps] with its defaults ([ensure_ascii]: every
      character outside printable ASCII written as a [\uXXXX] escape,
      a surrogate pair above U+FFFF; separators ", " and ": ").

    A Python [str] is a sequence of code points; here a [string] holds
    its UTF-8 encoding, which is how the prompts' box-drawing characters
    and emoji appear in the literals.  [repr()] keeps non-ASCII
    characters as they are (they are all printable in the code's
    literals), and [json.dumps] decodes the UTF-8 first ([utf8_decode]).
    The theorems: [json.dumps] of a string is read back by a JSON reader
    as the string's code points, and a template whose fields are all
    supplied formats without raising. *)

From S2P Require Import Prelude PyRuntime.
From Stdlib Require Import Ascii DecimalString ZifyN.

(** ** Characters *)

Definition chr (n : nat) : ascii := ascii_of_nat n.

Definition str1 (c : ascii) : string := String c EmptyString.

(** The characters a Rocq literal cannot hold as they are: the double
    quote, and the newline for readability. *)
Definition dq : string := str1 (chr 34).
Definition nl : string := str1 (chr 10).

Definition backslash : ascii := chr 92.

(** [s * n] *)
Fixpoint str_repeat (n : nat) (s : string) : string :=
  match n with
  | O => EmptyString
  | S n' => s +:+ str_repeat n' s
  end.

(** [str(int)]: the decimal digits, with a minus sign. *)
Definition int_str (z : Z) : string := NilZero.string_of_int (Z.to_int z).

(** A lowercase hexadecimal digit. *)
Definition hex_digit (n : N) : ascii :=
  if (n <? 10)%N then ascii_of_N (48 + n) else ascii_of_N (87 + n).

(** [%02x] and [%04x] *)
Definition hex2 (n : N) : string :=
  String (hex_digit (n / 16)) (str1 (hex_digit (n mod 16))).

Definition hex4 (n : N) : string :=
  hex2 (n / 256) +:+ hex2 (n mod 256).

Fixpoint str_concat_map (f : ascii -> string) (s : string) : string :=
  match s with
  | EmptyString => EmptyString
  | String c s' => f c +:+ str_concat_map f s'
  end.

Fixpoint has_char (c : ascii) (s : string) : bool :=
  match s with
  | EmptyString => false
  | String c' s' => Ascii.eqb c c' || has_char c s'
  end.

(** ** [repr()] *)

(** One character of a string's [repr] written between quotes [q]: the
    quote and the backslash escaped, [\t], [\n], [\r], and [\xNN] for
    the other control characters and DEL. *)
Definition repr_char (q c : ascii) : string :=
  let n := N_of_ascii c in
  if Ascii.eqb c q || Ascii.eqb c backslash then String backslash (str1 c)
  else if (n =? 9)%N then "\t"
  else if (n =? 10)%N then "\n"
  else if (n =? 13)%N then "\r"
  else if (n <? 32)%N || (n =? 127)%N then "\x" +:+ hex2 n
  else str1 c.

(** CPython writes a string between single quotes, or between double
    quotes when it holds a single quote and no double quote. *)
Definition repr_quote (s : string) : ascii :=
  if has_char "'" s && negb (has_char (chr 34) s) then chr 34 else "'"%char.

Definition str_repr (s : string) : string :=
  let q := repr_quote s in
  String q (str_concat_map (repr_char q) s +:+ str1 q).

Fixpoint py_repr (v : pyval) : string :=
  match v with
  | PNone => "None"
  | PBool true => "True"
  | PBool false => "False"
  | PInt z => int_str z
  | PStr s => str_repr s
  | PList l => "[" +:+ String.concat ", " (map py_repr l) +:+ "]"
  | PDict d =>
      "{" +:+ String.concat ", "
                (map (fun kv => str_repr kv.1 +:+ ": " +:+ py_repr kv.2) d) +:+ "}"
  end.

#[global] Arguments py_repr : simpl never.

(** [str(v)], also what [format(v, '')] and an f-string field give. *)
Definition py_str (v : pyval) : string :=
  match v with
  | PStr s => s
  | _ => py_repr v
  end.

#[global] Arguments py_str : simpl never.

Lemma py_str_PStr x : py_str (PStr x) = x.
Proof. reflexivity. Qed.

#[export] Hint Rewrite py_str_PStr : sop_rw.

(** [needle in haystack] on strings. *)
Fixpoint str_contains (needle hay : string) : bool :=
  String.prefix needle hay ||
  match hay with
  | EmptyString => false
  | String _ hay' => str_contains needle hay'
  end.

(** ** [str.capitalize] and [str.upper] on ASCII letters *)

Definition ascii_upper (c : ascii) : ascii :=
  let n := nat_of_ascii c in
  if (97 <=? n) && (n <=? 122) then ascii_of_nat (n - 32) else c.

Definition str_capitalize (s : string) : string :=
  match s with
  | EmptyString => EmptyString
  | String c s' => String (ascii_upper c) (str_lower s')
  end.

(** ** [str.format] with keyword arguments *)

(** [Formatter.get_value] and [format_field]: a name made of digits (or
    the empty name) is a positional index, and there are no positional
    arguments; a keyword argument is given here already rendered, as
    [str()] of its value (which cannot raise on a [pyval]). *)
Fixpoint assoc_get (kwargs : list (string * string)) (k : string) : option string :=
  match kwargs with
  | [] => None
  | (k', v) :: kw => if String.eqb k' k then Some v else assoc_get kw k
  end.

Definition is_digit (c : ascii) : bool :=
  let n := nat_of_ascii c in (48 <=? n) && (n <=? 57).

Fixpoint all_digits (s : string) : bool :=
  match s with
  | EmptyString => true
  | String c s' => is_digit c && all_digits s'
  end.

Definition field_value (kwargs : list (string * string)) (name : string)
  : res exn string :=
  if all_digits name then Err IndexError else
  match assoc_get kwargs name with
  | Some v => Ok v
  | None => Err (KeyError (PStr name))
  end.

(** [Formatter.parse]: the pieces of a template, literal characters and
    replacement fields, up to the error that stops the scan, if any.
    [field] is [Some acc] inside a field whose name so far is [rev acc].
    A single brace raises [ValueError], as does a field that is not
    closed.  A field name is taken as a plain name: the templates of the
    code have no conversion, format spec, attribute or index (see
    [Prompts.templates_fields]). *)
Inductive fmt_piece : Type :=
| FLit (c : ascii)
| FField (name : string).

Definition fmt_cons (p : fmt_piece) (r : list fmt_piece * option exn)
  : list fmt_piece * option exn :=
  (p :: r.1, r.2).

Fixpoint fmt_parse (l : list ascii) (field : option (list ascii))
  : list fmt_piece * option exn :=
  match field, l with
  | None, [] => ([], None)
  | None, c :: rest =>
      if Ascii.eqb c "{" then
        match rest with
        | c' :: rest' =>
            if Ascii.eqb c' "{" then fmt_cons (FLit "{") (fmt_parse rest' None)
            else fmt_parse rest (Some [])
        | [] => ([], Some ValueError)
        end
      else if Ascii.eqb c "}" then
        match rest with
        | c' :: rest' =>
            if Ascii.eqb c' "}" then fmt_cons (FLit "}") (fmt_parse rest' None)
            else ([], Some ValueError)
        | [] => ([], Some ValueError)
        end
      else fmt_cons (FLit c) (fmt_parse rest None)
  | Some acc, [] => ([], Some ValueError)
  | Some acc, c :: rest =>
      if Ascii.eqb c "}" then
        fmt_cons (FField (String.string_of_list_ascii (rev acc))) (fmt_parse rest None)
      else if Ascii.eqb c "{" then ([], Some ValueError)
      else fmt_parse rest (Some (c :: acc))
  end.

(** [Formatter.vformat]: the pieces in order, each field looked up when
    the scan reaches it, so a missing field is reported before a later
    syntax error. *)
Fixpoint fmt_render (kwargs : list (string * string)) (ps : list fmt_piece)
  : res exn string :=
  match ps with
  | [] => Ok EmptyString
  | FLit c :: ps' => let? r := fmt_render kwargs ps' in Ok (String c r)
  | FField name :: ps' =>
      let? v := field_value kwargs name in
      let? r := fmt_render kwargs ps' in
      Ok (v +:+ r)
  end.

(** [PromptTemplate.from_template(tpl).format(k1=v1, ...)] *)
Definition str_format (tpl : string) (kwargs : list (string * string)) : res exn string :=
  let '(ps, err) := fmt_parse (String.list_ascii_of_string tpl) None in
  let? r := fmt_render kwargs ps in
  match err with
  | None => Ok r
  | Some e => Err e
  end.

#[global] Arguments str_format : simpl never.

(** The replacement fields of a template, in order, and its syntax
    error, if any. *)
Definition template_fields (tpl : string) : list string * option exn :=
  let '(ps, err) := fmt_parse (String.list_ascii_of_string tpl) None in
  (omap (fun p => match p with FField n => Some n | FLit _ => None end) ps, err).

(** ** [json.dumps] *)

(** The code points of a UTF-8 string.  A byte that does not start a
    well-formed sequence (which a Python [str] never produces) stands
    for the code point of its value, so that every result is a Unicode
    scalar value. *)
Definition cont_byte (c : ascii) : bool :=
  let n := N_of_ascii c in (128 <=? n)%N && (n <? 192)%N.

Definition cont_val (c : ascii) : N := (N_of_ascii c - 128)%N.

Definition is_surrogate (cp : N) : bool := (55296 <=? cp)%N && (cp <? 57344)%N.

Fixpoint utf8_decode (l : list ascii) : list N :=
  match l with
  | [] => []
  | c :: rest =>
      let n := N_of_ascii c in
      if (n <? 128)%N then n :: utf8_decode rest
      else if (192 <=? n)%N && (n <? 224)%N then
        match rest with
        | c1 :: rest1 =>
            let cp := ((n - 192) * 64 + cont_val c1)%N in
            if cont_byte c1 && (128 <=? cp)%N then cp :: utf8_decode rest1
            else n :: utf8_decode rest
        | [] => n :: utf8_decode rest
        end
      else if (224 <=? n)%N && (n <? 240)%N then
        match rest with
        | c1 :: c2 :: rest2 =>
            let cp := (((n - 224) * 64 + cont_val c1) * 64 + cont_val c2)%N in
            if cont_byte c1 && cont_byte c2 && (2048 <=? cp)%N && negb (is_surrogate cp)
            then cp :: utf8_decode rest2
            else n :: utf8_decode rest
        | _ => n :: utf8_decode rest
        end
      else if (240 <=? n)%N && (n <? 248)%N then
        match rest with
        | c1 :: c2 :: c3 :: rest3 =>
            let cp := ((((n - 240) * 64 + cont_val c1) * 64 + cont_val c2) * 64
                       + cont_val c3)%N in
            if cont_byte c1 && cont_byte c2 && cont_byte c3 &&
               (65536 <=? cp)%N && (cp <? 1114112)%N
            then cp :: utf8_decode rest3
            else n :: utf8_decode rest
        | _ => n :: utf8_decode rest
        end
      else n :: utf8_decode rest
  end.

(** [py_encode_basestring_ascii] on one code point: the two-character
    escapes of [ESCAPE_DCT], printable ASCII as it is, [\uXXXX] for
    every other code point of the BMP and a surrogate pair above. *)
Definition json_escape (cp : N) : string :=
  if (cp =? 34)%N then String backslash dq
  else if (cp =? 92)%N then String backslash (str1 backslash)
  else if (cp =? 10)%N then "\n"
  else if (cp =? 13)%N then "\r"
  else if (cp =? 9)%N then "\t"
  else if (cp =? 8)%N then "\b"
  else if (cp =? 12)%N then "\f"
  else if (32 <=? cp)%N && (cp <=? 126)%N then str1 (ascii_of_N cp)
  else if (cp <? 65536)%N then "\u" +:+ hex4 cp
  else let v := (cp - 65536)%N in
       "\u" +:+ hex4 (55296 + v / 1024) +:+ "\u" +:+ hex4 (56320 + v mod 1024).

Definition json_quote (s : string) : string :=
  dq +:+ String.concat "" (map json_escape (utf8_decode (String.list_ascii_of_string s)))
     +:+ dq.

(** [json.dumps(v)] *)
Fixpoint json_dumps (v : pyval) : string :=
  match v with
  | PNone => "null"
  | PBool true => "true"
  | PBool false => "false"
  | PInt z => int_str z
  | PStr s => json_quote s
  | PList l => "[" +:+ String.concat ", " (map json_dumps l) +:+ "]"
  | PDict d =>
      "{" +:+ String.concat ", "
                (map (fun kv => json_quote kv.1 +:+ ": " +:+ json_dumps kv.2) d) +:+ "}"
  end.

(** ** A reader of JSON string literals (RFC 8259, section 7)

    The specification side of the round trip: it reads a string literal
    written in ASCII, as [json.dumps] writes them, and returns its code
    points and the text after the closing quote. *)

Definition hex_val (c : ascii) : option N :=
  let n := N_of_ascii c in
  if (48 <=? n)%N && (n <=? 57)%N then Some (n - 48)%N
  else if (97 <=? n)%N && (n <=? 102)%N then Some (n - 87)%N
  else if (65 <=? n)%N && (n <=? 70)%N then Some (n - 55)%N
  else None.

Definition hex4_val (a b c d : ascii) : option N :=
  match hex_val a, hex_val b, hex_val c, hex_val d with
  | Some x, Some y, Some z, Some w => Some (((x * 16 + y) * 16 + z) * 16 + w)%N
  | _, _, _, _ => None
  end.

Definition simple_escape (e : ascii) : option N :=
  let n := N_of_ascii e in
  if (n =? 34)%N then Some 34%N
  else if (n =? 92)%N then Some 92%N
  else if (n =? 47)%N then Some 47%N
  else if (n =? 98)%N then Some 8%N
  else if (n =? 102)%N then Some 12%N
  else if (n =? 110)%N then Some 10%N
  else if (n =? 114)%N then Some 13%N
  else if (n =? 116)%N then Some 9%N
  else None.

Definition is_high (u : N) : bool := (55296 <=? u)%N && (u <? 56320)%N.
Definition is_low (u : N) : bool := (56320 <=? u)%N && (u <? 57344)%N.

Definition cons_cp (cp : N) (r : option (list N * list ascii)) : option (list N * list ascii) :=
  match r with
  | Some (cps, rest) => Some (cp :: cps, rest)
  | None => None
  end.

Fixpoint json_read_chars (l : list ascii) : option (list N * list ascii) :=
  match l with
  | [] => None
  | c :: rest =>
      let n := N_of_ascii c in
      if (n =? 34)%N then Some ([], rest)
      else if (n =? 92)%N then
        match rest with
        | [] => None
        | e :: rest1 =>
            match simple_escape e with
            | Some cp => cons_cp cp (json_read_chars rest1)
            | None =>
                if Ascii.eqb e "u" then
                  match rest1 with
                  | h1 :: h2 :: h3 :: h4 :: rest2 =>
                      match hex4_val h1 h2 h3 h4 with
                      | None => None
                      | Some u =>
                          if is_high u then
                            match rest2 with
                            | b :: v :: g1 :: g2 :: g3 :: g4 :: rest3 =>
                                match hex4_val g1 g2 g3 g4 with
                                | Some w =>
                                    if Ascii.eqb b backslash && Ascii.eqb v "u" && is_low w
                                    then cons_cp (65536 + (u - 55296) * 1024 + (w - 56320))%N
                                                 (json_read_chars rest3)
                                    else cons_cp u (json_read_chars rest2)
                                | None => cons_cp u (json_read_chars rest2)
                                end
                            | _ => cons_cp u (json_read_chars rest2)
                            end
                          else cons_cp u (json_read_chars rest2)
                      end
                  | _ => None
                  end
                else None
            end
        end
      else if (32 <=? n)%N && (n <=? 126)%N then cons_cp n (json_read_chars rest)
      else None
  end.

Definition json_read_string (l : list ascii) : option (list N * list ascii) :=
  match l with
  | c :: rest => if (N_of_ascii c =? 34)%N then json_read_chars rest else None
  | [] => None
  end.

(** ** Lemmas *)

Lemma list_ascii_app s1 s2 :
  String.list_ascii_of_string (s1 +:+ s2) =
  String.list_ascii_of_string s1 ++ String.list_ascii_of_string s2.
Proof. induction s1 as [|c s1 IH]; simpl; [done | by rewrite IH]. Qed.

Lemma concat_empty_cons x xs :
  String.concat "" (x :: xs) = x +:+ String.concat "" xs.
Proof.
  destruct xs; simpl; [| done].
  induction x as [|c x IH]; [done |]. change (String c x = String c (x +:+ "")). by f_equal.
Qed.

#[export] Hint Rewrite list_ascii_app concat_empty_cons : sop_rw.

Lemma N_of_ascii_lt c : (N_of_ascii c < 256)%N.
Proof. destruct c as [[] [] [] [] [] [] [] []]; vm_compute; reflexivity. Qed.

Lemma hex_val_digit n : (n < 16)%N -> hex_val (hex_digit n) = Some n.
Proof.
  intros Hn. rewrite <- (N2Nat.id n). assert (Hk : (N.to_nat n < 16)%nat) by lia.
  generalize (N.to_nat n) Hk. clear. intros k Hk.
  do 16 (destruct k as [|k]; [reflexivity |]). lia.
Qed.

(** [%04x] is read back by the four-digit [\u] escape. *)
Lemma hex4_spec n : (n < 65536)%N ->
  exists a b c d, String.list_ascii_of_string (hex4 n) = [a; b; c; d] /\
                  hex4_val a b c d = Some n.
Proof.
  intros Hn. unfold hex4, hex2. eexists _, _, _, _. split; [reflexivity |].
  unfold hex4_val. rewrite !hex_val_digit; [| apply N.mod_lt; lia | | apply N.mod_lt; lia |].
  - f_equal. pose proof (N.div_mod (n / 256) 16). pose proof (N.div_mod (n mod 256) 16).
    pose proof (N.div_mod n 256). lia.
  - apply N.Div0.div_lt_upper_bound. pose proof (N.mod_lt n 256). lia.
  - do 2 apply N.Div0.div_lt_upper_bound. lia.
Qed.

(** A Unicode scalar value: below U+110000 and not a surrogate. *)
Definition valid_cp (cp : N) : Prop := (cp < 1114112)%N /\ is_surrogate cp = false.

Lemma cont_val_lt c : cont_byte c = true -> (cont_val c < 64)%N.
Proof.
  unfold cont_byte, cont_val. intros [H1 H2]%andb_prop.
  apply N.leb_le in H1. apply N.ltb_lt in H2. lia.
Qed.

Lemma utf8_decode_valid l : Forall valid_cp (utf8_decode l).
Proof.
  induction l as [l IH] using (induction_ltof1 _ (@length ascii)); unfold ltof in IH.
  destruct l as [|c rest]; [constructor |].
  assert (Hbyte : Forall valid_cp (N_of_ascii c :: utf8_decode rest)).
  { constructor; [| apply IH; simpl; lia].
    pose proof (N_of_ascii_lt c). split; [lia |].
    unfold is_surrogate. apply andb_false_iff. left. apply N.leb_gt. lia. }
  cbn [utf8_decode]. destruct (N.ltb_spec (N_of_ascii c) 128); [exact Hbyte |].
  repeat match goal with
  | |- context [if ?b then _ else _] => destruct b eqn:?
  | |- context [match ?r with _ => _ end] => destruct r as [|? ?] eqn:?
  end; try exact Hbyte; simplify_eq.
  all: repeat match goal with H : _ && _ = true |- _ => apply andb_prop in H as [? ?] end.
  all: constructor; [| apply IH; simpl; lia].
  all: repeat match goal with
       | H : (_ <=? _)%N = true |- _ => apply N.leb_le in H
       | H : (_ <? _)%N = true |- _ => apply N.ltb_lt in H
       | H : cont_byte _ = true |- _ => apply cont_val_lt in H
       end.
  all: pose proof (N_of_ascii_lt c); split; [lia |].
  all: try assumption; try (apply negb_true_iff; assumption).
  all: unfold is_surrogate; match goal with |- (55296 <=? ?x)%N && _ = false =>
         destruct (N.leb_spec 55296 x), (N.ltb_spec x 57344); simpl; auto; lia end.
Qed.

Lemma is_high_bmp cp : is_surrogate cp = false -> is_high cp = false.
Proof.
  unfold is_surrogate, is_high. intros [H | H]%andb_false_iff; apply andb_false_iff;
    [by left | right; apply N.ltb_ge in H; apply N.ltb_ge; lia].
Qed.

(** One escaped code point is read back as itself. *)
Lemma json_escape_read cp l :
  valid_cp cp ->
  json_read_chars (String.list_ascii_of_string (json_escape cp) ++ l) =
  cons_cp cp (json_read_chars l).
Proof.
  intros [Hlt Hs]. unfold json_escape.
  destruct (N.eqb_spec cp 34) as [-> | H34]; [reflexivity |].
  destruct (N.eqb_spec cp 92) as [-> | H92]; [reflexivity |].
  destruct (N.eqb_spec cp 10) as [-> | H10]; [reflexivity |].
  destruct (N.eqb_spec cp 13) as [-> | H13]; [reflexivity |].
  destruct (N.eqb_spec cp 9) as [-> | H9]; [reflexivity |].
  destruct (N.eqb_spec cp 8) as [-> | H8]; [reflexivity |].
  destruct (N.eqb_spec cp 12) as [-> | H12]; [reflexivity |].
  destruct ((32 <=? cp)%N && (cp <=? 126)%N) eqn:Hp.
  - cbn [String.list_ascii_of_string str1 app json_read_chars].
    apply andb_prop in Hp as [Hp1 Hp2]. apply N.leb_le in Hp1, Hp2.
    rewrite Ascii.N_ascii_embedding by lia.
    apply N.eqb_neq in H34, H92. rewrite H34, H92.
    replace ((32 <=? cp)%N && (cp <=? 126)%N) with true; [reflexivity |].
    symmetry. apply andb_true_intro. split; apply N.leb_le; lia.
  - destruct (N.ltb_spec cp 65536) as [Hb | Hb].
    + destruct (hex4_spec cp Hb) as (a & b & c & d & Hh & Hv).
      rewrite list_ascii_app, Hh. cbn - [hex4_val is_high]. by rewrite Hv, is_high_bmp.
    + remember (cp - 65536)%N as v eqn:Ev.
      assert (Hv : (v / 1024 < 1024)%N) by (apply N.Div0.div_lt_upper_bound; lia).
      assert (Hm : (v mod 1024 < 1024)%N) by (apply N.mod_lt; lia).
      destruct (hex4_spec (55296 + v / 1024) ltac:(lia)) as (a & b & c & d & Hh & Hhv).
      destruct (hex4_spec (56320 + v mod 1024) ltac:(lia)) as (a' & b' & c' & d' & Hl & Hlv).
      rewrite !list_ascii_app, Hh, Hl. cbn - [hex4_val is_high is_low]. rewrite Hhv, Hlv.
      assert (Hhi : is_high (55296 + v / 1024) = true).
      { unfold is_high. apply andb_true_intro. split; [apply N.leb_le | apply N.ltb_lt]; lia. }
      assert (Hlo : is_low (56320 + v mod 1024) = true).
      { unfold is_low. apply andb_true_intro. split; [apply N.leb_le | apply N.ltb_lt]; lia. }
      rewrite Hhi, Hlo. cbn. f_equal. pose proof (N.div_mod v 1024). lia.
Qed.

Lemma json_escapes_read cps rest :
  Forall valid_cp cps ->
  json_read_chars (String.list_ascii_of_string (String.concat "" (map json_escape cps))
                   ++ String.list_ascii_of_string dq ++ rest) = Some (cps, rest).
Proof.
  induction 1 as [| cp cps Hcp _ IH]; [reflexivity |].
  rewrite map_cons, concat_empty_cons, list_ascii_app, <- app_assoc.
  by rewrite json_escape_read, IH.
Qed.

(** A template whose fields are all supplied (by name) formats. *)
Lemma fmt_render_ok kwargs ps :
  Forall (fun p => match p with
                   | FField n => all_digits n = false /\ is_Some (assoc_get kwargs n)
                   | FLit _ => True end) ps ->
  exists r, fmt_render kwargs ps = Ok r.
Proof.
  induction 1 as [| [c | n] ps Hp _ [r IH]]; [by eexists |..]; simpl; rewrite IH.
  - by eexists.
  - destruct Hp as [Hd [v Hv]]. unfold field_value. rewrite Hd, Hv. by eexists.
Qed.

Lemma str_format_ok tpl kwargs :
  (template_fields tpl).2 = None ->
  Forall (fun n => all_digits n = false /\ is_Some (assoc_get kwargs n))
         (template_fields tpl).1 ->
  exists r, str_format tpl kwargs = Ok r.
Proof.
  unfold template_fields, str_format. destruct (fmt_parse _ None) as [ps err].
  simpl. intros -> Hf.
  destruct (fmt_render_ok kwargs ps) as [r ->]; [| by eexists].
  induction ps as [| [c | n] ps IH]; [constructor |..]; simpl in Hf.
  - constructor; [done | exact (IH Hf)].
  - inversion Hf; subst. constructor; [done | auto].
Qed.

(** ** The round trip of [json.dumps] on strings *)

(** [json.dumps] of a string is read back by a JSON reader as exactly
    the string's code points, followed by whatever text comes after it,
    whatever quotes, backslashes, control characters or non-ASCII
    characters the string holds. *)
Lemma json_quote_roundtrip s rest :
  json_read_string (String.list_ascii_of_string (json_quote s) ++ rest) =
  Some (utf8_decode (String.list_ascii_of_string s), rest).
Proof.
  unfold json_quote. rewrite !list_ascii_app, <- !app_assoc. cbn [json_read_string].
  exact (json_escapes_read _ rest (utf8_decode_valid _)).
Qed.
