(* ===== verification/Prompts.v ===== *)
(** * The prompts: the text the nodes send to the language models

    Every prompt of the repository, transcribed from the source: the
    three [PromptTemplate] strings of [langchain_referee.py] (filled by
    [str_format], the [str.format] of [PyText]), and the f-strings of
    [coach_node] and of [llm.py] (functions of the strings their
    fields render to).  A double quote of the Python text is spliced in
    as [dq] and a run of twelve or more copies of one character as
    [str_repeat]; every other character, the box-drawing rules, the
    trailing spaces and the line breaks included, is the source's.

    [templates_fields] computes the replacement fields of the three
    templates: each uses only names the code passes, so formatting them
    never raises ([grading_prompt_ok], [interaction_prompt_ok],
    [referee_prompt_ok]).  The referee's template announces a context
    dict with the key ["user_reply"]; [Nodes] shows that the node sends
    ["grader_reply"]. *)

From S2P Require Import Prelude PyRuntime PyText.

(** ** [langchain_referee.py] *)

(** [GRADER_GRADING_PROMPT]: the grader in grading mode. *)
Definition GRADER_GRADING_PROMPT : string :=
"You are the *Grader* LLM grading an user's reply in simulated scenario.
Return ONLY JSON:

{{
  " +:+ dq +:+ "role" +:+ dq +:+ ": " +:+ dq +:+ "grader" +:+ dq +:+ ",
  " +:+ dq +:+ "message" +:+ dq +:+ ": " +:+ dq +:+ "<short constructive feedback to user>" +:+ dq +:+ ",
  " +:+ dq +:+ "current_step" +:+ dq +:+ ": {step},
  " +:+ dq +:+ "step_passed" +:+ dq +:+ ": true | false
}}

Rules:
1. Use the SOP below to decide if the user satisfied step {step}.
2. Be concise (<40 tokens in " +:+ dq +:+ "message" +:+ dq +:+ ").
3. No policy leaks, no profanity, no AI mentions.
4. JSON only, no markdown fences.

──────── SOP Step Details ────────:
{SOP_STEP_DETAILS}

".

(** [GRADER_INTERACTION_PROMPT]: the grader answering a direct question. *)
Definition GRADER_INTERACTION_PROMPT : string :=
"You are the *Grader* LLM grading an user's reply in a simulated scenario for an SOP.
──────── FULL SOP Details ────────:
{SOP}

──────── CURRENT SOP Step Details ────────:
{SOP_STEP_DETAILS}

──────── Conversation History ────────:
Here is the conversation so far.  Please respond to the next question from the user.
{conversation_history}

──────── RULES ────────:
1. Do not tell the user exacly what to say/do without giving them a chance to explore.  Give them a hint if they ask for it, but do not give them the exact answer immediately.
2. After a few back and forths, you can give them the exact answer if they are still struggling.

".

(** [REFEREE_SYSTEM_PROMPT]: the referee. *)
Definition REFEREE_SYSTEM_PROMPT : string :=
"You are the **Referee** LLM.  
Goal: judge whether the *Grader* graded the user's reply **correctly** for SOP step {step}.

──────── Context you will receive (in the USER message) ────────
{{
  " +:+ dq +:+ "user_reply" +:+ dq +:+ ": " +:+ dq +:+ "<text>" +:+ dq +:+ ",
  " +:+ dq +:+ "grader_feedback" +:+ dq +:+ ": {{" +:+ str_repeat 12 " " +:+ "# JSON from the Grader
     " +:+ dq +:+ "step_passed" +:+ dq +:+ ": true|false,
     ...
  }}
}}

──────── How to decide ─────────
1. Determine **user_passed** for step {step}.  
   • Use the literal rubric below.  
2. Compare it to **grader_feedback[" +:+ dq +:+ "step_passed" +:+ dq +:+ "]**.  
3. Set **referee_grade**:  
   • `" +:+ dq +:+ "pass" +:+ dq +:+ "`  → grader correctly assessed the situation(i.e. the grader failed the user when it should have or passed when it should have failed).  
   • `" +:+ dq +:+ "fail" +:+ dq +:+ "`  → grader assessment is wrong.  
4. Set **must_regenerate**: `true` if referee_grade == " +:+ dq +:+ "fail" +:+ dq +:+ ", else `false`.  
5. Write ONE short sentence of feedback to the grader on how well it did or did not evaluate. (≤ 40 tokens, no markdown).

──────── Rubric for step {step} — {step_desc} ────────
{SOP_STEP_DETAILS}

• No profanity or hostility.  
→ If both present → user_passed = true.  
→ Otherwise → user_passed = false.

──────── Special Handling for Grader Fails ────────

If the Grader flagged the step as not passed (step_passed == false)
AND you also believe the user did NOT meet the requirements for this step:

➡️ Then:
  • " +:+ dq +:+ "referee_grade" +:+ dq +:+ ": " +:+ dq +:+ "pass" +:+ dq +:+ "
  • " +:+ dq +:+ "must_regenerate" +:+ dq +:+ ": false

Do not mark the grader as wrong just because of wording or lack of explanation.
Your job is to validate correctness, not critique style.

──────── Output (JSON only, NO markdown) ─────────
{{
  " +:+ dq +:+ "role" +:+ dq +:+ ": " +:+ dq +:+ "referee" +:+ dq +:+ ",
  " +:+ dq +:+ "current_step" +:+ dq +:+ ": {step},
  " +:+ dq +:+ "message" +:+ dq +:+ ": " +:+ dq +:+ "<referee feedback to grader on how the grader did grading, not on whether the user passed>" +:+ dq +:+ ",
  " +:+ dq +:+ "must_regenerate" +:+ dq +:+ ": true | false,
  " +:+ dq +:+ "referee_grade" +:+ dq +:+ ": " +:+ dq +:+ "pass" +:+ dq +:+ " | " +:+ dq +:+ "fail" +:+ dq +:+ "
}}
Be completely deterministic (temperature 0).

".

(** [coach_node]'s prompt on the first turn (an empty dialogue): the f-string with [{SOP_STEPS}], given [str(SOP_STEPS)]. *)
Definition coach_first_prompt (sop_steps : string) : string :=
"
        <LLM INSTRUCTIONS>
        This is a simulation for a training system.  
        A user is being trained to follow a Standard Operating Procedure (SOP) for a specific task.

" +:+ str_repeat 23 "-" +:+ "SOP DETAILS" +:+ str_repeat 24 "-" +:+ "
" +:+ sop_steps +:+ "
" +:+ str_repeat 58 "-" +:+ "

        You are simulating the role of the coach in the SOP training simulation.  You are not a grader or referee.  
        You only represent the coach being played out in the SOP.  Do not include any other roles or perspectives.
        Do not mention AI, LLM, or anything like that.
        You can provide hints to the user if they ask for it, but never give them the exact answer.  Give them a chance to explore and learn.
        If they are really struggling, you can give them the exact answer, but only after a few back and forths.
        You are evaulating the user's input and giving them feedback on how well they are doing.
        You are not grading the user.  You are not a referee.  You are not a grader.  You are just a coach.
        Do not respond as the user.  Do not respond as the grader.  Do not respond as the referee.
        Do not mention the grader or referee.  Do not mention the user.  Do not mention the coach.

        Go ahead and describe the training simulation situation to the user from what they need to know to start the simulation as the user.  What is the situation they are trying to 
        role play?  What is the task they are trying to accomplish?  What is the goal of the simulation?
        </LLM INSTRUCTIONS>
        ".

(** [coach_node]'s prompt on later turns: the f-string with [{dialogue_text}]. *)
Definition coach_dialogue_prompt (dialogue_text : string) : string :=
"
You are a coach in an Standard Operating procedure.

Here is the conversation so far:
" +:+ dialogue_text +:+ "

Respond naturally. Keep it short (1–2 sentences). Be polite but firm. Do not repeat yourself.
Don't respond as the user or the trainee. Only respond as if you are the coach.

        You are simulating the role of the coach in the SOP training simulation.  You are not a grader or referee.  
        You only represent the coach being played out in the SOP.  Do not include any other roles or perspectives.
        Do not mention AI, LLM, or anything like that.
        You can provide hints to the user if they ask for it, but never give them the exact answer.  Give them a chance to explore and learn.
        If they are really struggling, you can give them the exact answer.
        You are evaulating the user's input and giving them feedback on how well they are doing.
        You are not grading the user.  You are not a referee.  You are not a grader.  You are just a coach.
        Do not mention the grader or referee.  Do not mention the user.  Do not mention the coach.

".

(** ** [llm.py] *)

(** [summarize_chunks]'s prompt, around the joined chunk texts. *)
Definition summary_prompt (context : string) : string :=
"
You are an assistant reviewing customer service emails. The following are snippets of good responses to customers.

Please extract the best 3 examples and explain why they are good.

--- BEGIN TEXT ---
" +:+ context +:+ "
--- END TEXT ---
".

(** [is_reply_chunk]'s prompt, around the email chunk. *)
Definition reply_chunk_prompt (text : string) : string :=
"
Is the following email chunk a REPLY to a customer?

Look for signs like 'Re:' in the subject line, reply-style greetings, or references to prior conversations.

--- EMAIL CHUNK ---
" +:+ text +:+ "
" +:+ str_repeat 20 "-" +:+ "

Reply with ONLY 'yes' or 'no'.
".

(** [get_customer_reply]'s prompt, around [format_history_for_llm(history)]. *)
Definition customer_reply_prompt (conversation : string) : string :=
"
You are the customer in this conversation. Respond realistically based on the latest message from the customer service agent.

Here is the full conversation history:

" +:+ conversation +:+ "

Respond with your next message as the customer.
".

(** [evaluate_customer_response]'s prompt, around [format_history_for_llm(history)]. *)
Definition evaluation_prompt (conversation : string) : string :=
"
You are a customer service trainer evaluating the trainee's performance based on SOP145.

SOP145 requires:
- Acknowledge the issue with empathy
- Ask for order details and relevant evidence
- Check refund eligibility
- Set refund timeline expectations
- Provide status updates
- Confirm refund completion

Below is the full conversation so far:

" +:+ conversation +:+ "

Evaluate whether the trainee has addressed ALL required items in SOP145 so far. If not, explain what is missing.

Respond in VALID JSON with:
- " +:+ dq +:+ "step" +:+ dq +:+ ": description of the current SOP step being addressed
- " +:+ dq +:+ "passed" +:+ dq +:+ ": true if the current step is complete, false otherwise
- " +:+ dq +:+ "complete" +:+ dq +:+ ": true if all steps are complete
- " +:+ dq +:+ "feedback" +:+ dq +:+ ": a short explanation of what was good or what’s missing in bulleted list format (easy to digest).  Recommend specific improvements.
- " +:+ dq +:+ "examples" +:+ dq +:+ ": a list of examples from the conversation that demonstrate good or bad practices.
Be specific and provide examples from the conversation to support your evaluation.
Always provide the expected tasks as a numbered list.
- " +:+ dq +:+ "expected_tasks" +:+ dq +:+ ": a numbered list of tasks that should have been completed according to SOP145.
- " +:+ dq +:+ "actual_tasks" +:+ dq +:+ ": a numbered list of tasks that were actually completed by the trainee.

It is critical your response is in JSON format. Do not include any other text or explanations outside of the JSON.
".

(** ** The templates' fields *)

(** The replacement fields of the three templates, in order: each parses
    (every other brace is doubled) and names only keyword arguments the
    nodes pass. *)
Lemma templates_fields :
  template_fields GRADER_GRADING_PROMPT = (["step"; "step"; "SOP_STEP_DETAILS"], None) /\
  template_fields GRADER_INTERACTION_PROMPT =
    (["SOP"; "SOP_STEP_DETAILS"; "conversation_history"], None) /\
  template_fields REFEREE_SYSTEM_PROMPT =
    (["step"; "step"; "step"; "step_desc"; "SOP_STEP_DETAILS"; "step"], None).
Proof. vm_compute. repeat split. Qed.

Ltac solve_format :=
  apply str_format_ok; [vm_compute; reflexivity |];
  vm_compute; repeat constructor; eexists; reflexivity.

Lemma grading_prompt_ok (step step_desc details : string) :
  exists r, str_format GRADER_GRADING_PROMPT
              [("step", step); ("step_desc", step_desc); ("SOP_STEP_DETAILS", details)] = Ok r.
Proof. solve_format. Qed.

Lemma interaction_prompt_ok (sop step details conversation : string) :
  exists r, str_format GRADER_INTERACTION_PROMPT
              [("SOP", sop); ("step", step); ("SOP_STEP_DETAILS", details);
               ("conversation_history", conversation)] = Ok r.
Proof. solve_format. Qed.

Lemma referee_prompt_ok (step step_desc details : string) :
  exists r, str_format REFEREE_SYSTEM_PROMPT
              [("step", step); ("step_desc", step_desc); ("SOP_STEP_DETAILS", details)] = Ok r.
Proof. solve_format. Qed.
