(* ===== verification/Catalog.v ===== *)
(** * The SOP step catalog: [SOP_STEPS] and [get_sop_step_description]

    [SOP_STEPS] is a module-level Python dict, empty at import, filled by
    the first loop of [run_simulation] with the steps of the sample file,
    keyed by each step's ["step_number"] (whatever JSON value it holds).
    The nodes then read it with [SOP_STEPS[current_step]] (which raises
    [KeyError] for a missing step) and through
    [get_sop_step_description] (which falls back to a placeholder).

    The dict is modelled as an association list in insertion order,
    with Python's key equality ([True == 1], [False == 0]) and its
    refusal of unhashable keys; [sop_repr] is [str(SOP_STEPS)], which
    the coach's and grader's prompts embed. *)

From S2P Require Import Prelude PyRuntime PyText.

Module Catalog.

(** ** The dict *)

Definition sop_table : Type := list (pyval * pyval).

(** [SOP_STEPS = {}] *)
Definition SOP_STEPS_init : sop_table := [].

(** Lists and dicts are unhashable. *)
Definition hashable (k : pyval) : bool :=
  match k with
  | PList _ | PDict _ => false
  | _ => true
  end.

(** Python compares [bool] keys as the ints 0 and 1. *)
Definition key_norm (k : pyval) : pyval :=
  match k with
  | PBool b => PInt (if b then 1 else 0)
  | _ => k
  end.

Definition key_eq (k1 k2 : pyval) : bool :=
  match key_norm k1, key_norm k2 with
  | PNone, PNone => true
  | PInt a, PInt b => Z.eqb a b
  | PStr a, PStr b => String.eqb a b
  | _, _ => false
  end.

Fixpoint tbl_find (t : sop_table) (k : pyval) : option pyval :=
  match t with
  | [] => None
  | (k', v) :: t' => if key_eq k' k then Some v else tbl_find t' k
  end.

(** [d[k] = v]: an existing equal key keeps its place and its original
    key object; a new key goes at the end. *)
Fixpoint tbl_set (t : sop_table) (k v : pyval) : sop_table :=
  match t with
  | [] => [(k, v)]
  | (k', v') :: t' =>
      if key_eq k' k then (k', v) :: t' else (k', v') :: tbl_set t' k v
  end.

Definition sop_setitem (t : sop_table) (k v : pyval) : res exn sop_table :=
  if hashable k then Ok (tbl_set t k v) else Err TypeError.

(** [SOP_STEPS[k]] *)
Definition sop_getitem (t : sop_table) (k : pyval) : res exn pyval :=
  if hashable k then
    match tbl_find t k with
    | Some v => Ok v
    | None => Err (KeyError k)
    end
  else Err TypeError.

(** [SOP_STEPS.get(k, dflt)] *)
Definition sop_get (t : sop_table) (k dflt : pyval) : res exn pyval :=
  if hashable k then Ok (default dflt (tbl_find t k)) else Err TypeError.

(** [str(SOP_STEPS)], as the coach's first prompt and the grader's
    interaction prompt show the whole catalog. *)
Definition sop_repr (t : sop_table) : string :=
  "{" +:+ String.concat ", " (map (fun kv => py_repr kv.1 +:+ ": " +:+ py_repr kv.2) t) +:+ "}".

#[global] Arguments sop_repr : simpl never.

(** ** [get_sop_step_description] *)

Definition unknown_rubric : pyval :=
  PDict [("description", PStr "No description"); ("example_message", PStr "")].

Definition unknown_step : pyval :=
  PDict [("step_name", PStr "Unknown step"); ("step_number", PInt 1);
         ("rubric", unknown_rubric)].

(** The chain of three [.get] calls with their defaults; the second and
    third raise [AttributeError] when a step or its rubric is not a dict. *)
Definition get_sop_step_description (t : sop_table) (step_number : pyval)
  : res exn pyval :=
  let? step := sop_get t step_number unknown_step in
  let? rubric := py_get step "rubric" unknown_rubric in
  py_get rubric "description" (PStr "No description").

(** ** Loading the sample file (the first loop of [run_simulation]) *)


(** One iteration: [interaction_number = step.get("step_number")],
    [SOP_STEPS[interaction_number] = step], and the description lookup
    inside the [print]. *)
Fixpoint load_steps_loop (t : sop_table) (steps : list pyval)
  : res exn sop_table :=
  match steps with
  | [] => Ok t
  | step :: rest =>
      let? interaction_number := py_get step "step_number" PNone in
      let? t' := sop_setitem t interaction_number step in
      let? _ := get_sop_step_description t' interaction_number in
      load_steps_loop t' rest
  end.

(** [steps_array = sample.get("steps", {})] and the loop over it. *)
Definition load_steps (t : sop_table) (sample : pyval) : res exn sop_table :=
  let? steps_array := py_get sample "steps" (PDict []) in
  let? steps := py_iter steps_array in
  load_steps_loop t steps.

(** ** Specification of loading *)

(** The key a step is stored under: [step.get("step_number")]. *)
Definition step_key (step : pyval) : pyval :=
  match step with
  | PDict d => default PNone (dict_get d "step_number")
  | _ => PNone
  end.

(** The step the loop leaves under key [k]: the last one carrying it. *)
Fixpoint last_with (k : pyval) (steps : list pyval) : option pyval :=
  match steps with
  | [] => None
  | step :: rest =>
      match last_with k rest with
      | Some s => Some s
      | None => if key_eq (step_key step) k then Some step else None
      end
  end.

(** A step the loop accepts: a dict with a hashable ["step_number"] and a
    ["rubric"], if any, that is a dict. *)
Definition step_ok (step : pyval) : bool :=
  match step with
  | PDict d =>
      hashable (step_key step) &&
      match dict_get d "rubric" with
      | None | Some (PDict _) => true
      | Some _ => false
      end
  | _ => false
  end.

(** Python's [==] on keys as a relation: a partial equivalence (lists
    and dicts are unhashable and equal to nothing as keys). *)
Definition key_equiv (k1 k2 : pyval) : Prop := key_eq k1 k2 = true.

(** ** Key equality is an equivalence on hashable keys *)

Lemma key_eq_refl k : hashable k = true -> key_eq k k = true.
Proof.
  destruct k as [| [] | z | s | l | d]; simpl; try done; intros _.
  - apply Z.eqb_refl.
  - apply String.eqb_refl.
Qed.

Lemma key_eq_sym k1 k2 : key_eq k1 k2 = key_eq k2 k1.
Proof.
  unfold key_eq. destruct (key_norm k1), (key_norm k2); try done.
  - apply Z.eqb_sym.
  - apply String.eqb_sym.
Qed.

Lemma key_eq_trans k1 k2 k3 :
  key_eq k1 k2 = true -> key_eq k1 k3 = key_eq k2 k3.
Proof.
  unfold key_eq. destruct (key_norm k1), (key_norm k2); try done;
    [ intros ->%Z.eqb_eq | intros ->%String.eqb_eq ]; done.
Qed.

Lemma key_eq_hashable k1 k2 : key_eq k1 k2 = true -> hashable k1 = true.
Proof. by destruct k1 as [| [] | | | |], k2 as [| [] | | | |]. Qed.

#[export] Instance key_equiv_PER : RelationClasses.PER key_equiv.
Proof.
  split.
  - intros k1 k2 H. unfold key_equiv in *. by rewrite key_eq_sym.
  - intros k1 k2 k3 H12 H23. unfold key_equiv in *. by rewrite (key_eq_trans _ _ k3 H12).
Qed.

(** Lookups and updates identify keys Python compares equal: a step
    stored under [1] is found under [True]. *)
#[export] Instance tbl_find_proper t : Proper (key_equiv ==> eq) (tbl_find t).
Proof.
  intros k1 k2 H. induction t as [|[k v] t IH]; [reflexivity |]. simpl.
  rewrite IH. unfold key_equiv in H. rewrite (key_eq_sym k k1), (key_eq_sym k k2).
  by rewrite (key_eq_trans _ _ k H).
Qed.

#[export] Instance hashable_proper : Proper (key_equiv ==> eq) hashable.
Proof.
  intros k1 k2 H. rewrite (key_eq_hashable _ _ H).
  symmetry in H. by rewrite (key_eq_hashable _ _ H).
Qed.

#[export] Instance sop_get_proper t : Proper (key_equiv ==> eq ==> eq) (sop_get t).
Proof. intros k1 k2 H d ? <-. unfold sop_get. by rewrite (hashable_proper _ _ H), (tbl_find_proper t _ _ H). Qed.

Lemma tbl_find_set t k v k' :
  hashable k = true ->
  tbl_find (tbl_set t k v) k' = if key_eq k k' then Some v else tbl_find t k'.
Proof.
  intros Hk. induction t as [|[k0 v0] t IH]; simpl.
  - by rewrite key_eq_sym.
  - destruct (key_eq k0 k) eqn:E; simpl.
    + rewrite (key_eq_trans _ _ k' E). by destruct (key_eq k k').
    + rewrite IH. destruct (key_eq k0 k') eqn:E'; [| done].
      destruct (key_eq k k') eqn:E''; [| done].
      rewrite key_eq_sym in E''. pose proof (key_eq_trans _ _ k0 E'') as T.
      rewrite key_eq_sym in E, E'. congruence.
Qed.

Lemma step_ok_key step : step_ok step = true -> hashable (step_key step) = true.
Proof. destruct step; simpl; try done. by intros [-> _]%andb_prop. Qed.

(** The description lookup right after storing a step succeeds. *)
Lemma description_after_set t step :
  step_ok step = true ->
  exists v, get_sop_step_description (tbl_set t (step_key step) step) (step_key step)
            = Ok v.
Proof.
  intros Hok. pose proof (step_ok_key _ Hok) as Hh.
  unfold get_sop_step_description, sop_get. rewrite Hh. simpl.
  rewrite tbl_find_set, key_eq_refl by done. simpl.
  destruct step as [| | | | | d]; try discriminate. simpl in Hok |- *.
  apply andb_prop in Hok as [_ Hr].
  destruct (dict_get d "rubric") as [[] |]; try discriminate; simpl; eauto.
Qed.

(** ** Theorems *)

(** C26: Loading terminates without error on every list of well-formed
    steps (the loop raises only on a non-dict step, an unhashable step
    number or a rubric that is not a dict). *)
Theorem load_steps_loop_ok t steps :
  Forall (fun step => step_ok step = true) steps ->
  exists t', load_steps_loop t steps = Ok t'.
Proof.
  intros Hall. revert t. induction Hall as [|step rest Hok _ IH]; intros t; simpl.
  - eauto.
  - assert (Hget : py_get step "step_number" PNone = Ok (step_key step)).
    { destruct step; try discriminate. reflexivity. }
    rewrite Hget. cbn [rbind]. unfold sop_setitem. rewrite (step_ok_key _ Hok).
    cbn [rbind]. destruct (description_after_set t step Hok) as [v ->]. apply IH.
Qed.

(** C25: Roundtrip of loading and lookup: after the loop, [SOP_STEPS[k]]
    is the last loaded step numbered [k], or what the dict held before
    when no loaded step carries [k]. *)
Theorem load_steps_lookup t steps t' k :
  load_steps_loop t steps = Ok t' -> hashable k = true ->
  sop_getitem t' k =
    match last_with k steps with
    | Some step => Ok step
    | None => sop_getitem t k
    end.
Proof.
  intros Hload Hk. revert t Hload. induction steps as [|step rest IH]; intros t Hload;
    simpl in Hload |- *.
  - by inversion Hload.
  - inv_run. unfold sop_setitem in *. destruct (hashable x) eqn:Hx; [| discriminate].
    inv_run. rewrite (IH _ Hload).
    destruct (last_with k rest); [done |].
    unfold sop_getitem. rewrite Hk, tbl_find_set by done.
    assert (x = step_key step) as ->.
    { destruct step; simpl in *; inversion H; done. }
    by destruct (key_eq (step_key step) k).
Qed.

(** A step missing from the catalog gets the placeholder description
    ["No description"]. *)
Lemma get_sop_step_description_missing t n :
  tbl_find t (PInt n) = None ->
  get_sop_step_description t (PInt n) = Ok (PStr "No description").
Proof. intros H. unfold get_sop_step_description, sop_get. simpl. by rewrite H. Qed.

(** ** Witnesses *)

Lemma load_steps_loop_ok_witness :
  exists t', load_steps_loop []
    [PDict [("step_number", PInt 1); ("rubric", PDict [("description", PStr "Greet")])];
     PDict [("step_number", PInt 2)]] = Ok t'.
Proof. apply load_steps_loop_ok. repeat constructor. Defined.

(** Two steps numbered 1: the second one wins. *)
Lemma load_steps_lookup_witness :
  sop_getitem
    [(PInt 1, PDict [("step_number", PInt 1); ("step_name", PStr "second")])]
    (PInt 1)
  = Ok (PDict [("step_number", PInt 1); ("step_name", PStr "second")]).
Proof.
  rewrite (load_steps_lookup []
             [PDict [("step_number", PInt 1); ("step_name", PStr "first")];
              PDict [("step_number", PInt 1); ("step_name", PStr "second")]]
             [(PInt 1, PDict [("step_number", PInt 1); ("step_name", PStr "second")])]
             (PInt 1) eq_refl eq_refl).
  reflexivity.
Defined.

End Catalog.
