(* ===== verification/Session.v ===== *)
(** * The session state, node updates and the environment

    [StateDict] (langchain_referee.py, the [TypedDict] of the same name)
    is the single state all nodes read.  A node returns a partial dict
    of updates; LangGraph writes each key to its channel, the last value
    winning, and every other key keeps its value.  Here an update is the
    list of writes in the order the code builds its dict, applied left to
    right.  Nodes run in the monad [M]: they may raise a Python
    exception and they consume the console ([input()]) and the LLM
    replies, two tapes of the environment [Env], which also records the
    messages each LLM call was sent. *)

From S2P Require Import Prelude PyRuntime.

(** ** Node names *)

(** The graph's node names, and [END] (LangGraph's ["__end__"]). *)
Inductive node : Type :=
| Coach | User | Grader | Referee | Orchestrator | END.

#[export] Instance node_eq_dec : EqDecision node.
Proof. solve_decision. Defined.

(** ** The state dictionary *)

(** [next_node] is [None] while the key is absent: [run_simulation]'s
    initial dict does not set it. *)
Record StateDict : Type := mkState {
  current_step : Z;
  grader_retries : Z;
  done : bool;
  last_grader : pyval;
  last_referee : pyval;
  history : list pyval;
  input_message : pyval;
  coach_message : pyval;
  dialogue_history : list pyval;
  next_node : option node
}.

(** The dict [run_simulation] starts from. *)
Definition initial_state : StateDict := {|
  current_step := 1; grader_retries := 0; done := false;
  last_grader := PNone; last_referee := PNone; history := [];
  dialogue_history := []; input_message := PNone; coach_message := PNone;
  next_node := None |}.

(** ** The annotations of [StateDict]

    [TypedDict] annotations are not checked at run time.  These are the
    ones on keys whose values the code builds itself:
    [input_message: Optional[Dict[str, str]]],
    [coach_message: Optional[str]], [history: List[Dict[str, Any]]] and
    [dialogue_history: List[Dict[str, str]]].  (The int and bool keys
    are typed by the record.  [last_grader] and [last_referee] hold what
    the JSON parser returns, whatever it is.) *)
Definition is_dict (v : pyval) : bool :=
  match v with PDict _ => true | _ => false end.

Definition is_pystr (v : pyval) : bool :=
  match v with PStr _ => true | _ => false end.

Definition is_str_dict (v : pyval) : bool :=
  match v with PDict d => forallb (fun kv => is_pystr kv.2) d | _ => false end.

Definition optional (p : pyval -> bool) (v : pyval) : bool :=
  match v with PNone => true | _ => p v end.

Definition state_typed (s : StateDict) : bool :=
  optional is_str_dict (input_message s) && optional is_pystr (coach_message s) &&
  forallb is_dict (history s) && forallb is_str_dict (dialogue_history s).

(** ** Updates *)

(** One key of a node's returned dict. *)
Inductive write : Type :=
| Set_current_step (z : Z)
| Set_grader_retries (z : Z)
| Set_done (b : bool)
| Set_last_grader (v : pyval)
| Set_last_referee (v : pyval)
| Set_history (h : list pyval)
| Set_input_message (v : pyval)
| Set_coach_message (v : pyval)
| Set_dialogue_history (h : list pyval)
| Set_next_node (n : node).

Definition update : Type := list write.

Definition apply_write (s : StateDict) (w : write) : StateDict :=
  let '(mkState cs gr dn lg lr h im cm dh nn) := s in
  match w with
  | Set_current_step z => mkState z gr dn lg lr h im cm dh nn
  | Set_grader_retries z => mkState cs z dn lg lr h im cm dh nn
  | Set_done b => mkState cs gr b lg lr h im cm dh nn
  | Set_last_grader v => mkState cs gr dn v lr h im cm dh nn
  | Set_last_referee v => mkState cs gr dn lg v h im cm dh nn
  | Set_history l => mkState cs gr dn lg lr l im cm dh nn
  | Set_input_message v => mkState cs gr dn lg lr h v cm dh nn
  | Set_coach_message v => mkState cs gr dn lg lr h im v dh nn
  | Set_dialogue_history l => mkState cs gr dn lg lr h im cm l nn
  | Set_next_node n => mkState cs gr dn lg lr h im cm dh (Some n)
  end.

(** LangGraph's merge of a node's returned dict into the state. *)
Definition apply_update (u : update) (s : StateDict) : StateDict :=
  fold_left apply_write u s.

(** ** The environment and the node monad *)

(** An LLM reply: its [.content] and what [JsonOutputParser().parse]
    makes of it ([None]: the parser raises). *)
Record llm_reply : Type := mkReply {
  reply_content : string;
  reply_json : option pyval
}.

(** A chat message: LangChain's [SystemMessage] and [HumanMessage]
    (sent with the roles "system" and "user"); Ollama's
    [{"role": "user", "content": c}] is the user message [HumanMessage c]. *)
Inductive chat_message : Type :=
| SystemMessage (content : string)
| HumanMessage (content : string).

(** The console lines still to be read, the LLM replies still to come,
    and the messages of every LLM call made so far, oldest first. *)
Record Env : Type := mkEnv {
  stdin : list string;
  llm : list llm_reply;
  sent : list (list chat_message)
}.

(** The environment of a session started on the console lines [xs]
    with the LLM replies [rs] to come: nothing sent yet. *)
Definition start_env (xs : list string) (rs : list llm_reply) : Env := mkEnv xs rs [].

Definition M (A : Type) : Type := ESM exn Env A.

(** [input()]: the next console line, [EOFError] at the end. *)
Definition input : M string := fun e =>
  match stdin e with
  | [] => Err EOFError
  | l :: rest => Ok (l, mkEnv rest (llm e) (sent e))
  end.

(** A call to one of the chat models ([LLM_coach], [LLM_GRADER],
    [LLM_REFEREE], Ollama's [llama3]) with [messages]: the next reply on
    the tape; the messages join the record. *)
Definition call_llm (messages : list chat_message) : M llm_reply := fun e =>
  match llm e with
  | [] => Err LLMUnavailable
  | r :: rest => Ok (r, mkEnv (stdin e) rest (sent e ++ [messages]))
  end.

(** [JsonOutputParser().parse(response.content)] *)
Definition parse_json (r : llm_reply) : res exn pyval :=
  match reply_json r with
  | Some v => Ok v
  | None => Err OutputParserException
  end.

(** ** Lemmas *)

Lemma apply_update_app u1 u2 s :
  apply_update (u1 ++ u2) s = apply_update u2 (apply_update u1 s).
Proof. apply fold_left_app. Qed.

Lemma input_inv e l e' :
  input e = Ok (l, e') ->
  stdin e = l :: stdin e' /\ llm e' = llm e /\ sent e' = sent e.
Proof.
  unfold input. destruct (stdin e); intros H; inversion H; subst; auto.
Qed.

Lemma input_Ok e x rest :
  stdin e = x :: rest -> input e = Ok (x, mkEnv rest (llm e) (sent e)).
Proof. intros H. unfold input. by rewrite H. Qed.

Lemma call_llm_inv ms e r e' :
  call_llm ms e = Ok (r, e') ->
  stdin e' = stdin e /\ llm e = r :: llm e' /\ sent e' = sent e ++ [ms].
Proof.
  unfold call_llm. destruct (llm e); intros H; inversion H; subst; auto.
Qed.

Lemma call_llm_Ok ms e r rest :
  llm e = r :: rest -> call_llm ms e = Ok (r, mkEnv (stdin e) rest (sent e ++ [ms])).
Proof. intros H. unfold call_llm. by rewrite H. Qed.

#[export] Hint Rewrite apply_update_app : sop_rw.
