(* ===== verification/Fixtures.v ===== *)
(** * Concrete inputs for the witnesses and the scenarios

    A sample file in the shape [run_simulation] reads
    ([{"steps": [{"step_number": n, "rubric": {"description": ...}}]}])
    with the six steps of SOP145 that [llm.py] lists, the catalog it
    loads into, verdict dicts in the shape the prompts ask the grader
    and the referee for, and LLM replies carrying them. *)

From S2P Require Import Prelude PyRuntime Catalog Session.
Import Catalog.
Local Open Scope Z_scope.

Definition sop_step (n : Z) (desc : string) : pyval :=
  PDict [("step_name", PStr desc); ("step_number", PInt n);
         ("rubric", PDict [("description", PStr desc); ("example_message", PStr "")])].

Definition SOP145_steps : list pyval :=
  [sop_step 1 "Acknowledge the issue with empathy";
   sop_step 2 "Ask for order details and relevant evidence";
   sop_step 3 "Check refund eligibility";
   sop_step 4 "Set refund timeline expectations";
   sop_step 5 "Provide status updates";
   sop_step 6 "Confirm refund completion"].

Definition SOP145_sample : pyval := PDict [("steps", PList SOP145_steps)].

(** The catalog the sample loads into. *)
Definition SOP145 : sop_table :=
  match load_steps SOP_STEPS_init SOP145_sample with
  | Ok t => t
  | Err _ => []
  end.

(** A three-step procedure: the orchestrator still counts to 6. *)
Definition short_sample : pyval := PDict [("steps", PList (firstn 3 SOP145_steps))].

Definition short_sop : sop_table :=
  match load_steps SOP_STEPS_init short_sample with
  | Ok t => t
  | Err _ => []
  end.

(** The grader's JSON, as its prompt asks for it. *)
Definition grader_verdict (passed : bool) : pyval :=
  PDict [("role", PStr "grader"); ("message", PStr "ok");
         ("current_step", PInt 1); ("step_passed", PBool passed)].

(** The referee's JSON, as its prompt asks for it. *)
Definition referee_verdict (grade : string) : pyval :=
  PDict [("role", PStr "referee"); ("current_step", PInt 1); ("message", PStr "ok");
         ("must_regenerate", PBool (String.eqb grade "fail"));
         ("referee_grade", PStr grade)].

(** LLM replies: plain text (the coach, an answer to a question) or a
    JSON verdict. *)
Definition text_reply (s : string) : llm_reply := mkReply s None.
Definition json_reply (v : pyval) : llm_reply := mkReply "{...}" (Some v).

Definition grader_says (passed : bool) : llm_reply := json_reply (grader_verdict passed).
Definition referee_says (grade : string) : llm_reply := json_reply (referee_verdict grade).

(** The state the orchestrator sees at step [k] after [r] disputes,
    with the verdicts [lg] and [lr]. *)
Definition judged_state (k r : Z) (lg lr : pyval) : StateDict :=
  mkState k r false lg lr [msg "user" "hello"] (msg "user" "hello") PNone
          [msg "coach" "hi"] (Some Referee).

(** The state right after the coach spoke at step [k]. *)
Definition after_coach (k : Z) : StateDict :=
  mkState k 0 false PNone PNone [msg "coach" "Welcome"] (msg "coach" "Welcome")
          (PStr "Welcome") [msg "coach" "Welcome"] (Some Grader).

(** The state right after the trainee replied [x] at step [k]. *)
Definition after_user (k : Z) (x : string) : StateDict :=
  mkState k 0 false PNone PNone [msg "coach" "Welcome"; msg "user" x] (msg "user" x)
          (PStr "Welcome") [msg "coach" "Welcome"] (Some Grader).

(** The state after a first dispute at step [k]. *)
Definition after_dispute (k : Z) : StateDict :=
  mkState k 1 false (grader_verdict true) (referee_verdict "fail")
          [msg "coach" "Welcome"; msg "user" "Could you share your order number?"]
          (msg "user" "Could you share your order number?") (PStr "Welcome")
          [msg "coach" "Welcome"] (Some Grader).

(** ** Sessions *)

(** The trainee's six good answers. *)
Definition answers : list string :=
  ["I'm sorry your order arrived damaged.";
   "Could you share your order number and a photo of the item?";
   "Your order is eligible for a refund.";
   "The refund will take five to seven business days.";
   "Your refund is being processed.";
   "Your refund has been completed."].

(** For each answer: the coach speaks, the grader passes it, the referee
    agrees. *)
Definition passing_round (x : string) : list llm_reply :=
  [text_reply "Go on."; grader_says true; referee_says "pass"].

Definition passing_env : Env := start_env answers (flat_map passing_round answers).

(** The scenario of the spec, section 8: step 1 passed with agreement;
    step 2 failed with agreement; then two attempts passed by the grader
    and disputed by the referee. *)
Definition section8_env : Env :=
  start_env ["I'm sorry your order arrived damaged."; "Please hold on.";
         "Could you share your order number?"; "May I have your order number?"]
        [text_reply "Welcome."; grader_says true; referee_says "pass";
         text_reply "Good. Next step."; grader_says false; referee_says "pass";
         grader_says true; referee_says "fail";
         grader_says true; referee_says "fail"].

(** A trainee who keeps failing step 1, each failure confirmed. *)
Definition failing_env : Env :=
  start_env (repeat "I don't know." 8)
        (text_reply "Welcome." :: concat (repeat [grader_says false; referee_says "pass"] 8)).

(** Three steps passed, then an answer on the fourth. *)
Definition short_env : Env :=
  start_env (firstn 4 answers) (flat_map passing_round (firstn 4 answers)).

(** Four steps passed, a disputed attempt on step 5, then steps 5 and 6
    passed: seven invocations, one answer each. *)
Definition completing_env : Env :=
  start_env (firstn 4 answers ++ ["Your refund is on its way."] ++ skipn 4 answers)
        (flat_map passing_round (firstn 4 answers) ++
         [text_reply "Go on."; grader_says true; referee_says "fail";
          grader_says true; referee_says "pass";
          text_reply "Go on."; grader_says true; referee_says "pass"]).
