(* ===== verification/Nodes.v ===== *)
(** * The turn nodes: coach, user, grader, referee

    Each definition is the whole Python function of
    [src/langchain_referee.py]: its "skip if not my turn" check, its
    early returns, the evaluations that can raise, the LLM call and the
    dict of updates it returns.  The catalog [SOP_STEPS] is a Section
    variable: the nodes only read it.  The orchestrator, the fifth node,
    is in [Consensus].  The second half of the file gives each node's
    exact update on the inputs a session gives it: the trainee's reply
    and its routing, the grader in grading and in interaction mode, the
    referee's audit and its skip. *)

From S2P Require Import Prelude PyRuntime PyText Prompts Catalog Session Fixtures.

Import Catalog.
Local Open Scope Z_scope.

(** [if state.get("next_node") and state["next_node"] != me]: the skip
    check of [coach_node] and [referee_node]. *)
Definition other_turn (me : node) (s : StateDict) : bool :=
  match next_node s with
  | Some n => bool_decide (n <> me)
  | None => false
  end.

(** The grader's verdict dict
    [{"role": "grader", "message": m, "current_step": k, "step_passed": b}]. *)
Definition grader_dict (message : pyval) (step : Z) (passed : bool) : pyval :=
  PDict [("role", PStr "grader"); ("message", message);
         ("current_step", PInt step); ("step_passed", PBool passed)].

(** The referee's verdict when its inputs are missing. *)
Definition missing_inputs_verdict : pyval :=
  PDict [("referee_grade", PStr "fail"); ("feedback", PStr "Missing inputs.");
         ("must_regenerate", PBool true)].

(** [f"{x['role'].capitalize()}: {x['content']}"]: the role must be a
    string (the method call), the content is rendered with [str()]. *)
Definition dialogue_line (x : pyval) : res exn string :=
  let? role := py_getitem x "role" in
  let? role_text := match role with PStr r => Ok r | _ => Err AttributeError end in
  let? content := py_getitem x "content" in
  Ok (str_capitalize role_text +:+ ": " +:+ py_str content).

(** ["\n".join([... for x in dialogue])]: the list is built first. *)
Definition dialogue_text (dialogue : list pyval) : res exn string :=
  let? lines := res_map dialogue_line dialogue in
  Ok (String.concat nl lines).

Section WithCatalog.

(** The nodes read the module-level dict [SOP_STEPS]. *)
Variable SOP_STEPS : sop_table.

(** ** [coach_node] *)

(** The prompt and the human message: the situation on the first turn
    (with [str(SOP_STEPS)]) and an empty message; the dialogue so far in
    both afterwards. *)
Definition coach_node (s : StateDict) : M update :=
  if other_turn Coach s then eret [] else
  let dialogue := dialogue_history s in
  let* prompt_text :=
    (match dialogue with
     | [] => eret (coach_first_prompt (sop_repr SOP_STEPS), "")
     | _ => let* text := elift (dialogue_text dialogue) in
            eret (coach_dialogue_prompt text, text)
     end) in
  let* result := call_llm [SystemMessage prompt_text.1; HumanMessage prompt_text.2] in
  let grader_reply := str_strip (reply_content result) in
  eret [Set_coach_message (PStr grader_reply);
        Set_input_message (msg "coach" grader_reply);
        Set_last_grader PNone;
        Set_last_referee PNone;
        Set_history (history s ++ [msg "coach" grader_reply]);
        Set_dialogue_history (dialogue ++ [msg "coach" grader_reply]);
        Set_next_node Grader].

(** ** [user_node] *)

(** The description lookup inside the [print] runs before [input()]. *)
Definition user_node (s : StateDict) : M update :=
  elift (get_sop_step_description SOP_STEPS (PInt (current_step s))) >>
  let* input_text := input in
  let reply := msg "user" input_text in
  let next := if String.prefix "coach:" (str_lower input_text)
              then Coach else Grader in
  eret [Set_input_message reply;
        Set_history (history s ++ [reply]);
        Set_next_node next].

(** ** [grader_node] *)

(** [state.get("input_message", {}).get("content")]: the key is always
    present, so the default [{}] is never used, and a [None] message
    raises [AttributeError]. *)
Definition message_content (s : StateDict) : res exn pyval :=
  py_get (input_message s) "content" PNone.

(** The prompts' keyword arguments are evaluated in the order written
    ([SOP_STEPS[...]] can raise [KeyError]) and rendered with [str()];
    the message graded or answered is the reply itself, a string once
    [startswith] has succeeded on it. *)
Definition grader_node (s : StateDict) : M update :=
  let* grader_message_content := elift (message_content s) in
  let* direct_question_to_grader :=
    elift (py_startswith grader_message_content "Grader:") in
  if negb direct_question_to_grader
     && negb (bool_decide (next_node s = Some Grader)) then
    (* return {"next_node": state["next_node"]} *)
    match next_node s with
    | Some n => eret [Set_next_node n]
    | None => eraise (KeyError (PStr "next_node"))
    end
  else if negb (truthy grader_message_content) then
    eret [Set_last_grader
            (grader_dict (PStr "No message to grade.") (current_step s) false)]
  else if direct_question_to_grader then
    let* details := elift (sop_getitem SOP_STEPS (PInt (current_step s))) in
    let* prompt := elift (str_format GRADER_INTERACTION_PROMPT
                     [("SOP", sop_repr SOP_STEPS);
                      ("step", py_str (PInt (current_step s)));
                      ("SOP_STEP_DETAILS", py_str details);
                      ("conversation_history", py_str (PList (history s)))]) in
    let* grader_response :=
      call_llm [SystemMessage prompt; HumanMessage (py_str grader_message_content)] in
    let last_grader :=
      grader_dict (PStr (reply_content grader_response)) (current_step s) false in
    eret [Set_last_grader last_grader;
          Set_next_node User;
          Set_history (history s ++ [last_grader])]
  else
    let* step_desc := elift (get_sop_step_description SOP_STEPS (PInt (current_step s))) in
    let* details := elift (sop_getitem SOP_STEPS (PInt (current_step s))) in
    let* prompt := elift (str_format GRADER_GRADING_PROMPT
                     [("step", py_str (PInt (current_step s)));
                      ("step_desc", py_str step_desc);
                      ("SOP_STEP_DETAILS", py_str details)]) in
    let* grader_response :=
      call_llm [SystemMessage prompt; HumanMessage (py_str grader_message_content)] in
    let* grader_json := elift (parse_json grader_response) in
    eret [Set_last_grader grader_json; Set_next_node Referee].

(** ** [referee_node] *)

(** The referee is sent the system prompt for the current step and,
    as the user message, [json.dumps] of
    [{"grader_reply": <the reply>, "grader_feedback": <the verdict>}]. *)
Definition referee_node (s : StateDict) : M update :=
  if other_turn Referee s then eret [Set_last_referee PNone] else
  let* grader_message_content := elift (message_content s) in
  let grader_feedback := last_grader s in
  if negb (truthy grader_message_content) || negb (truthy grader_feedback) then
    eret [Set_last_referee missing_inputs_verdict]
  else
  let* step_desc := elift (get_sop_step_description SOP_STEPS (PInt (current_step s))) in
  let* details := elift (sop_getitem SOP_STEPS (PInt (current_step s))) in
  let* system_prompt := elift (str_format REFEREE_SYSTEM_PROMPT
                          [("step", py_str (PInt (current_step s)));
                           ("step_desc", py_str step_desc);
                           ("SOP_STEP_DETAILS", py_str details)]) in
  let referee_input := PDict [("grader_reply", grader_message_content);
                              ("grader_feedback", grader_feedback)] in
  let* referee_response :=
    call_llm [SystemMessage system_prompt; HumanMessage (json_dumps referee_input)] in
  let* referee_json := elift (parse_json referee_response) in
  eret [Set_last_referee referee_json].

End WithCatalog.

(** ** Specifications of the nodes

    For each node, on the inputs a real session gives it, the exact
    update it returns, the tapes it leaves and the messages it sends.
    These are the steps the graph-level theorems of [Graph] compose. *)

(** The current step can be described and looked up in the catalog:
    neither [get_sop_step_description] nor [SOP_STEPS[current_step]]
    raises. *)
Definition step_defined (t : sop_table) (k : Z) : bool :=
  match get_sop_step_description t (PInt k), sop_getitem t (PInt k) with
  | Ok _, Ok _ => true
  | _, _ => false
  end.

(** A rendered prompt (the templates always render, see [Prompts]). *)
Definition rendered (r : res exn string) : string :=
  match r with Ok p => p | Err _ => "" end.

(** The keyword arguments of the grading and the referee prompts. *)
Definition step_args (k : Z) (desc details : pyval) : list (string * string) :=
  [("step", py_str (PInt k)); ("step_desc", py_str desc); ("SOP_STEP_DETAILS", py_str details)].

(** What the grader is sent to grade the reply [x] on step [k]. *)
Definition grading_messages (t : sop_table) (k : Z) (x : string) : list chat_message :=
  match get_sop_step_description t (PInt k), sop_getitem t (PInt k) with
  | Ok desc, Ok details =>
      [SystemMessage (rendered (str_format GRADER_GRADING_PROMPT (step_args k desc details)));
       HumanMessage x]
  | _, _ => []
  end.

(** What the referee is sent to audit the verdict [gv] on the reply [x]. *)
Definition referee_messages (t : sop_table) (k : Z) (x : string) (gv : pyval)
  : list chat_message :=
  match get_sop_step_description t (PInt k), sop_getitem t (PInt k) with
  | Ok desc, Ok details =>
      [SystemMessage (rendered (str_format REFEREE_SYSTEM_PROMPT (step_args k desc details)));
       HumanMessage (json_dumps (PDict [("grader_reply", PStr x); ("grader_feedback", gv)]))]
  | _, _ => []
  end.

(** What the grader is sent to answer the question [q] on step [k]. *)
Definition interaction_messages (t : sop_table) (k : Z) (h : list pyval) (q : string)
  : list chat_message :=
  match sop_getitem t (PInt k) with
  | Ok details =>
      [SystemMessage (rendered (str_format GRADER_INTERACTION_PROMPT
         [("SOP", sop_repr t); ("step", py_str (PInt k));
          ("SOP_STEP_DETAILS", py_str details); ("conversation_history", py_str (PList h))]));
       HumanMessage q]
  | Err _ => []
  end.

Lemma step_defined_inv t k :
  step_defined t k = true ->
  (exists d, get_sop_step_description t (PInt k) = Ok d) /\
  (exists st, sop_getitem t (PInt k) = Ok st).
Proof.
  unfold step_defined.
  destruct (get_sop_step_description _ _), (sop_getitem _ _); try discriminate; eauto.
Qed.

Lemma ebind_Ok {E S A B} (c : ESM E S A) (k : A -> ESM E S B) s a s' :
  c s = Ok (a, s') -> ebind c k s = k a s'.
Proof. intros H. unfold ebind. by rewrite H. Qed.

Lemma str_neq_empty x : x <> "" -> String.eqb x "" = false.
Proof. intros Hx. by destruct (String.eqb_spec x ""). Qed.

(** The proofs below rewrite with the prompts' renderings instead of
    computing them. *)
Local Opaque str_format.

(** A template that renders is what [rendered] gives. *)
Lemma rendered_Ok tpl kw p : str_format tpl kw = Ok p -> rendered (str_format tpl kw) = p.
Proof. by intros ->. Qed.

(** ** [user_node] *)

(** The trainee's reply: [user_node] reads one console line [x],
    records [{"role": "user", "content": x}] as the pending message and
    in [history], and routes to the coach exactly when [x], lowercased,
    starts with "coach:", to the grader otherwise. *)
Lemma user_node_Ok SOP_STEPS s e x rest d :
  stdin e = x :: rest ->
  get_sop_step_description SOP_STEPS (PInt (current_step s)) = Ok d ->
  user_node SOP_STEPS s e =
    Ok ([Set_input_message (msg "user" x);
         Set_history (history s ++ [msg "user" x]);
         Set_next_node (if String.prefix "coach:" (str_lower x) then Coach else Grader)],
        mkEnv rest (llm e) (sent e)).
Proof. intros Hin Hd. unfold user_node, ebind, elift, eret, input. by rewrite Hd, Hin. Qed.

Lemma user_node_spec SOP_STEPS s e x rest :
  stdin e = x :: rest ->
  step_defined SOP_STEPS (current_step s) = true ->
  user_node SOP_STEPS s e =
    Ok ([Set_input_message (msg "user" x);
         Set_history (history s ++ [msg "user" x]);
         Set_next_node (if String.prefix "coach:" (str_lower x) then Coach else Grader)],
        mkEnv rest (llm e) (sent e)).
Proof.
  intros Hin Hdef. apply step_defined_inv in Hdef as [[d Hd] _].
  exact (user_node_Ok _ _ _ _ _ _ Hin Hd).
Qed.

(** ** [coach_node] *)

(** A dialogue of role/content messages renders. *)
Lemma dialogue_lines_msgs dh :
  Forall (fun m => exists r c, m = msg r c) dh -> exists ls, res_map dialogue_line dh = Ok ls.
Proof.
  induction 1 as [| m dh [r [c ->]] _ [ls IH]]; [by exists [] |].
  eexists. simpl. by rewrite IH.
Qed.

(** The coach's later turns: the dialogue so far is its prompt and its
    message; its stripped answer becomes the pending message, joins
    [history] and the dialogue, and the grader's turn comes next. *)
Lemma coach_node_dialogue SOP_STEPS s e r rest ls :
  other_turn Coach s = false -> dialogue_history s <> [] ->
  res_map dialogue_line (dialogue_history s) = Ok ls -> llm e = r :: rest ->
  let t := String.concat nl ls in
  let c := str_strip (reply_content r) in
  coach_node SOP_STEPS s e =
    Ok ([Set_coach_message (PStr c); Set_input_message (msg "coach" c);
         Set_last_grader PNone; Set_last_referee PNone;
         Set_history (history s ++ [msg "coach" c]);
         Set_dialogue_history (dialogue_history s ++ [msg "coach" c]);
         Set_next_node Grader],
        mkEnv (stdin e) rest (sent e ++ [[SystemMessage (coach_dialogue_prompt t); HumanMessage t]])).
Proof.
  intros Ho Hd Hls Hl. unfold coach_node. rewrite Ho.
  destruct (dialogue_history s) as [| m dh]; [congruence |].
  unfold ebind, elift, eret, call_llm, dialogue_text. rewrite Hls. cbn -[coach_dialogue_prompt String.concat]. by rewrite Hl.
Qed.


(** ** [grader_node] *)

(** Grading mode: a non-empty reply that does not start with
    "Grader:", when the grader's turn has come, is graded: the grader is
    sent the grading prompt of the step and the reply, its JSON verdict
    becomes [last_grader] and the referee runs next. *)
Lemma grader_node_grading SOP_STEPS s e x gr rest gv :
  message_content s = Ok (PStr x) ->
  String.prefix "Grader:" x = false -> x <> "" ->
  next_node s = Some Grader ->
  step_defined SOP_STEPS (current_step s) = true ->
  llm e = gr :: rest -> reply_json gr = Some gv ->
  grader_node SOP_STEPS s e =
    Ok ([Set_last_grader gv; Set_next_node Referee],
        mkEnv (stdin e) rest (sent e ++ [grading_messages SOP_STEPS (current_step s) x])).
Proof.
  intros Hc Hg Hx Hn Hdef Hllm Hgv.
  apply step_defined_inv in Hdef as [[d Hd] [st Hst]].
  destruct (grading_prompt_ok (py_str (PInt (current_step s))) (py_str d) (py_str st))
    as [p Hp].
  unfold grader_node, grading_messages, ebind, elift, eret, call_llm, parse_json.
  rewrite Hc. simpl. rewrite Hg, Hn. simpl. rewrite (str_neq_empty _ Hx). simpl.
  rewrite Hd, Hst. unfold step_args. simpl. rewrite Hp. simpl. by rewrite Hllm, Hgv, py_str_PStr.
Qed.

(** Interaction mode: a reply starting with "Grader:" is answered and
    never graded, whatever [next_node] says: the grader is sent the
    interaction prompt (with the whole catalog and the history) and the
    question; the answer is recorded as a verdict with
    [step_passed = false], appended to [history], the trainee speaks
    next, and neither the step, the retry count nor [done] is written. *)
Lemma grader_node_interaction SOP_STEPS s e q r rest st :
  message_content s = Ok (PStr q) ->
  String.prefix "Grader:" q = true ->
  sop_getitem SOP_STEPS (PInt (current_step s)) = Ok st ->
  llm e = r :: rest ->
  grader_node SOP_STEPS s e =
    Ok ([Set_last_grader (grader_dict (PStr (reply_content r)) (current_step s) false);
         Set_next_node User;
         Set_history (history s ++
                      [grader_dict (PStr (reply_content r)) (current_step s) false])],
        mkEnv (stdin e) rest
          (sent e ++ [interaction_messages SOP_STEPS (current_step s) (history s) q])).
Proof.
  intros Hc Hg Hst Hllm.
  assert (Hq : q <> "") by (intros ->; discriminate).
  destruct (interaction_prompt_ok (sop_repr SOP_STEPS) (py_str (PInt (current_step s)))
              (py_str st) (py_str (PList (history s)))) as [p Hp].
  unfold grader_node, interaction_messages, ebind, elift, eret, call_llm.
  rewrite Hc. simpl. rewrite Hg. simpl. rewrite (str_neq_empty _ Hq). simpl.
  rewrite Hst. simpl. rewrite Hp. simpl. by rewrite Hllm, py_str_PStr.
Qed.

(** C22: A graded attempt on a step missing from [SOP_STEPS] raises
    [KeyError]: the grading prompt subscripts [SOP_STEPS[current_step]]
    directly, while the spec asks for a placeholder description. *)
Theorem grader_node_missing_step SOP_STEPS s e x :
  message_content s = Ok (PStr x) ->
  String.prefix "Grader:" x = false -> x <> "" ->
  next_node s = Some Grader ->
  tbl_find SOP_STEPS (PInt (current_step s)) = None ->
  grader_node SOP_STEPS s e = Err (KeyError (PInt (current_step s))).
Proof.
  intros Hc Hg Hx Hn Hmiss.
  unfold grader_node, ebind, elift, eret.
  rewrite Hc. simpl. rewrite Hg, Hn. simpl. rewrite (str_neq_empty _ Hx). simpl.
  rewrite (get_sop_step_description_missing _ _ Hmiss).
  unfold sop_getitem. simpl. by rewrite Hmiss.
Qed.

(** ** [referee_node] *)

(** The referee audits a graded attempt: on its turn, with a
    non-empty reply and a non-empty grader verdict, it is sent its
    prompt for the step and [json.dumps] of the reply and the verdict;
    its JSON verdict becomes [last_referee]. *)
Lemma referee_node_audit SOP_STEPS s e x rr rest rv :
  next_node s = Some Referee ->
  message_content s = Ok (PStr x) -> x <> "" ->
  truthy (last_grader s) = true ->
  step_defined SOP_STEPS (current_step s) = true ->
  llm e = rr :: rest -> reply_json rr = Some rv ->
  referee_node SOP_STEPS s e =
    Ok ([Set_last_referee rv],
        mkEnv (stdin e) rest
          (sent e ++ [referee_messages SOP_STEPS (current_step s) x (last_grader s)])).
Proof.
  intros Hn Hc Hx Hg Hdef Hllm Hrv.
  apply step_defined_inv in Hdef as [[d Hd] [st Hst]].
  destruct (referee_prompt_ok (py_str (PInt (current_step s))) (py_str d) (py_str st))
    as [p Hp].
  unfold referee_node, referee_messages, other_turn, ebind, elift, eret, call_llm, parse_json.
  rewrite Hn. simpl. rewrite Hc. simpl. rewrite (str_neq_empty _ Hx), Hg. simpl.
  rewrite Hd, Hst. unfold step_args. simpl. rewrite Hp. simpl. by rewrite Hllm, Hrv.
Qed.

(** The referee stays out of turns that are not its own (a direct
    question, a return to the coach): it clears [last_referee] and
    consumes nothing. *)
Lemma referee_node_skip SOP_STEPS s e n :
  next_node s = Some n -> n <> Referee ->
  referee_node SOP_STEPS s e = Ok ([Set_last_referee PNone], e).
Proof.
  intros Hn Hne. unfold referee_node, other_turn. rewrite Hn.
  rewrite bool_decide_eq_true_2 by exact Hne. reflexivity.
Qed.

(** C11: The referee receives the trainee's reply intact, under the key
    ["grader_reply"]: on an audited attempt its user message is a JSON
    object whose first member is ["grader_reply"], and a JSON reader
    reads that member's value back as exactly the reply, whatever it
    holds; its system prompt, however, announces the reply under the
    key ["user_reply"]. *)
Theorem referee_reads_reply SOP_STEPS s e x rr rest rv :
  next_node s = Some Referee ->
  message_content s = Ok (PStr x) -> x <> "" ->
  truthy (last_grader s) = true ->
  step_defined SOP_STEPS (current_step s) = true ->
  llm e = rr :: rest -> reply_json rr = Some rv ->
  str_contains (dq +:+ "user_reply" +:+ dq) REFEREE_SYSTEM_PROMPT = true /\
  exists e' p tail after,
    referee_node SOP_STEPS s e = Ok ([Set_last_referee rv], e') /\
    sent e' = sent e ++ [[SystemMessage p;
                          HumanMessage ("{" +:+ dq +:+ "grader_reply" +:+ dq +:+ ": " +:+ tail)]] /\
    json_read_string (String.list_ascii_of_string tail) =
      Some (utf8_decode (String.list_ascii_of_string x), after).
Proof.
  intros Hn Hc Hx Hg Hdef Hllm Hrv. split; [vm_compute; reflexivity |].
  rewrite (referee_node_audit _ _ _ _ _ _ _ Hn Hc Hx Hg Hdef Hllm Hrv).
  apply step_defined_inv in Hdef as [[d Hd] [st Hst]].
  set (after := ", " +:+ json_quote "grader_feedback" +:+ ": " +:+ json_dumps (last_grader s)).
  eexists _, _, ((json_quote x +:+ after) +:+ "}"),
    (String.list_ascii_of_string after ++ String.list_ascii_of_string "}").
  split; [reflexivity |]. split.
  - simpl. unfold referee_messages. rewrite Hd, Hst. reflexivity.
  - by rewrite !list_ascii_app, <- app_assoc, json_quote_roundtrip.
Qed.

(** ** Witnesses *)

(** A three-step procedure: grading the fourth step raises [KeyError]. *)
Lemma grader_node_missing_step_witness :
  grader_node short_sop (after_user 4 "Refunds take five days.")
    (start_env [] [grader_says true])
  = Err (KeyError (PInt 4)).
Proof.
  exact (grader_node_missing_step short_sop (after_user 4 "Refunds take five days.") _
           "Refunds take five days." eq_refl eq_refl ltac:(discriminate) eq_refl eq_refl).
Defined.

(** The referee audits the reply "hello" at step 2 of SOP145. *)
Lemma referee_reads_reply_witness :
  str_contains (dq +:+ "user_reply" +:+ dq) REFEREE_SYSTEM_PROMPT = true /\
  exists e' p tail after,
    referee_node SOP145 (judged_state 2 0 (grader_verdict true) PNone)
      (start_env [] [referee_says "pass"]) = Ok ([Set_last_referee (referee_verdict "pass")], e') /\
    sent e' = [[SystemMessage p;
                HumanMessage ("{" +:+ dq +:+ "grader_reply" +:+ dq +:+ ": " +:+ tail)]] /\
    json_read_string (String.list_ascii_of_string tail) =
      Some (utf8_decode (String.list_ascii_of_string "hello"), after).
Proof.
  exact (referee_reads_reply SOP145 (judged_state 2 0 (grader_verdict true) PNone)
           (start_env [] [referee_says "pass"]) "hello" _ [] _
           eq_refl eq_refl ltac:(discriminate) eq_refl eq_refl eq_refl eq_refl).
Defined.
