(* ===== verification/Consensus.v ===== *)
(** * The orchestrator and the consensus protocol it implements

    [orchestrator_node] of [src/langchain_referee.py] with its constants
    [MAX_GRADER_RETRIES] and the final step [6], as the pure function
    [orchestrate] (the node only reads the state and raises).  The spec
    (section 4.4) describes the orchestrator as a table over two
    booleans, the grader's [passed] and the referee's [agrees], with
    three outcomes and a fatal bound on consecutive disputes.  [resolve]
    is that table on an abstract session (step, retry count, done flag,
    next actor).  [orchestrate_refines] shows that [orchestrate], the
    body of [orchestrator_node], implements it on every state whose two
    verdicts can be read, and the row theorems give its full effect on
    the state dict, fields the table does not mention included. *)

From S2P Require Import Prelude PyRuntime Session Fixtures.
Local Open Scope Z_scope.

Module Consensus.

(** ** The constants *)

(** [MAX_GRADER_RETRIES = 2] *)
Definition MAX_GRADER_RETRIES : Z := 2.

(** The final step, written as the literal [6] in [orchestrator_node]. *)
Definition MAX_STEP : Z := 6.

(** ** [orchestrator_node] *)

(** The pure body; [updates] is built key by key as in the code. *)
(** The message of the fatal error. *)
Definition too_many_retries : string := "💥 Grader failed too many times.".

Definition orchestrate (s : StateDict) : res exn update :=
  let updates : list (string * pyval) := [] in
  (* [if updates.get("done", False)] reads the fresh, empty [updates] *)
  if truthy (default (PBool false) (dict_get updates "done"))
  then Ok [Set_next_node END] else
  let referee := last_referee s in
  let grader := last_grader s in
  let input_msg := input_message s in
  if truthy referee then
    let? grader_passed := py_getitem grader "step_passed" in
    let? referee_grade := py_getitem referee "referee_grade" in
    let referee_agreed := py_eq_str referee_grade "pass" in
    if referee_agreed && truthy grader_passed then
      let done' := Z.geb (current_step s) MAX_STEP in
      Ok [Set_dialogue_history (dialogue_history s ++ [input_msg]);
          Set_grader_retries 0;
          Set_current_step (Z.min (current_step s + 1) MAX_STEP);
          Set_done done';
          Set_input_message PNone;
          Set_last_grader PNone;
          Set_last_referee PNone;
          Set_next_node (if done' then END else Coach)]
    else if referee_agreed && negb (truthy grader_passed) then
      Ok [Set_grader_retries 0;
          Set_input_message PNone;
          Set_next_node User;
          Set_history (history s ++ [input_msg])]
    else
      let retries := grader_retries s + 1 in
      if Z.eqb retries MAX_GRADER_RETRIES
      then Err (RuntimeError too_many_retries)
      else Ok [Set_grader_retries retries; Set_next_node Grader]
  else Ok [].

Definition orchestrator_node (s : StateDict) : M update :=
  elift (orchestrate s).

(** ** The abstract table *)

Inductive outcome : Type := Advance | ConfirmedFail | Dispute.

(** Both disagreement rows lead to the same outcome. *)
Definition decide_outcome (passed agrees : bool) : outcome :=
  if agrees then (if passed then Advance else ConfirmedFail) else Dispute.

Record AbsSession : Type := mkAbs {
  a_step : Z;
  a_retries : Z;
  a_done : bool;
  a_next : option node
}.

Definition abs (s : StateDict) : AbsSession :=
  mkAbs (current_step s) (grader_retries s) (done s) (next_node s).

(** [None]: the session ends fatally. *)
Definition resolve (o : outcome) (a : AbsSession) : option AbsSession :=
  match o with
  | Advance =>
      let fin := Z.geb (a_step a) MAX_STEP in
      Some (mkAbs (Z.min (a_step a + 1) MAX_STEP) 0 fin
                  (Some (if fin then END else Coach)))
  | ConfirmedFail => Some (mkAbs (a_step a) 0 (a_done a) (Some User))
  | Dispute =>
      if Z.eqb (a_retries a + 1) MAX_GRADER_RETRIES then None
      else Some (mkAbs (a_step a) (a_retries a + 1) (a_done a) (Some Grader))
  end.

(** The orchestrator can read both verdicts: the grader's dict has a
    ["step_passed"] whose truth value is [passed], the referee's dict a
    ["referee_grade"] that equals ["pass"] exactly when [agrees]. *)
Definition verdicts (s : StateDict) (passed agrees : bool) : Prop :=
  exists p g,
    py_getitem (last_grader s) "step_passed" = Ok p /\ truthy p = passed /\
    py_getitem (last_referee s) "referee_grade" = Ok g /\
    py_eq_str g "pass" = agrees.

(** The updates of the three rows, as [orchestrate] builds them. *)
Definition advance_update (s : StateDict) : update :=
  let done' := Z.geb (current_step s) MAX_STEP in
  [Set_dialogue_history (dialogue_history s ++ [input_message s]);
   Set_grader_retries 0;
   Set_current_step (Z.min (current_step s + 1) MAX_STEP);
   Set_done done'; Set_input_message PNone; Set_last_grader PNone;
   Set_last_referee PNone; Set_next_node (if done' then END else Coach)].

Definition fail_update (s : StateDict) : update :=
  [Set_grader_retries 0; Set_input_message PNone; Set_next_node User;
   Set_history (history s ++ [input_message s])].

Definition dispute_update (s : StateDict) : update :=
  [Set_grader_retries (grader_retries s + 1); Set_next_node Grader].

(** ** The rows of the table

    Each theorem reads the two verdicts and runs the body of
    [orchestrate] on them; the lemmas the graph-level files use come
    after them. *)

Ltac unfold_orchestrate Hv :=
  let p := fresh "p" in let g := fresh "g" in
  let Hp := fresh "Hp" in let Hg := fresh "Hg" in
  let Ep := fresh "Ep" in let Eg := fresh "Eg" in
  destruct Hv as (p & g & Hp & Ep & Hg & Eg);
  unfold orchestrate; simpl; rewrite (py_getitem_truthy _ _ _ Hg), Hp, Hg; cbn [rbind];
  rewrite Eg, Ep.

(** C2: Dispute at the bound: the dispute that brings the retry count to
    [MAX_GRADER_RETRIES] raises [RuntimeError]. *)
Theorem orchestrate_dispute_fatal s passed :
  verdicts s passed false ->
  grader_retries s + 1 = MAX_GRADER_RETRIES ->
  orchestrate s = Err (RuntimeError too_many_retries).
Proof. intros Hv Hb. unfold_orchestrate Hv. by rewrite andb_false_l, Hb, Z.eqb_refl. Qed.

(** C3: Advance: when the referee agrees that the step was passed, the
    step moves to [min(step + 1, 6)], the retry count is reset, [done]
    becomes [step >= 6], the attempt joins the dialogue history, the
    verdicts and the pending message are cleared, and the coach (or
    [END]) runs next; nothing else changes. *)
Theorem orchestrate_advance s :
  verdicts s true true ->
  exists u, orchestrate s = Ok u /\
    apply_update u s =
      (let fin := Z.geb (current_step s) MAX_STEP in
       mkState (Z.min (current_step s + 1) MAX_STEP) 0 fin PNone PNone
               (history s) PNone (coach_message s)
               (dialogue_history s ++ [input_message s])
               (Some (if fin then END else Coach))).
Proof. intros Hv. unfold_orchestrate Hv. destruct s. eauto. Qed.

(** C4: Confirmed fail: when the referee agrees that the step was not
    passed, the step is unchanged, the retry count is reset, the attempt
    is appended to [history], the pending message is cleared and the
    trainee answers again. *)
Theorem orchestrate_confirmed_fail s :
  verdicts s false true ->
  exists u, orchestrate s = Ok u /\
    apply_update u s =
      mkState (current_step s) 0 (done s) (last_grader s) (last_referee s)
              (history s ++ [input_message s]) PNone (coach_message s)
              (dialogue_history s) (Some User).
Proof. intros Hv. unfold_orchestrate Hv. destruct s. eauto. Qed.

(** C1: Refinement: on a state whose verdicts read as [passed] and [agrees],
    the orchestrator does what the spec's table prescribes for that row:
    it succeeds with the abstract successor state, or raises
    [RuntimeError] exactly when the table says the session is fatal. *)
Theorem orchestrate_refines s passed agrees :
  verdicts s passed agrees ->
  match resolve (decide_outcome passed agrees) (abs s) with
  | Some a' => exists u, orchestrate s = Ok u /\ abs (apply_update u s) = a'
  | None => orchestrate s = Err (RuntimeError too_many_retries)
  end.
Proof.
  intros Hv. unfold_orchestrate Hv.
  destruct s as [cs gr dn lg lr h im cm dh nn], agrees, passed; simpl;
    try destruct (gr + 1 =? MAX_GRADER_RETRIES); eauto.
Qed.

(** C14: Dispute below the bound: when the referee disagrees, whatever the
    grader said, the retry count grows by one, [next_node] becomes
    ["grader"], and nothing else changes. *)
Theorem orchestrate_dispute s passed :
  verdicts s passed false ->
  grader_retries s + 1 <> MAX_GRADER_RETRIES ->
  exists u, orchestrate s = Ok u /\
    apply_update u s =
      mkState (current_step s) (grader_retries s + 1) (done s) (last_grader s)
              (last_referee s) (history s) (input_message s) (coach_message s)
              (dialogue_history s) (Some Grader).
Proof.
  intros Hv Hb. apply Z.eqb_neq in Hb. unfold_orchestrate Hv.
  rewrite andb_false_l, Hb. destruct s. eauto.
Qed.

(** C23: A grader verdict without a ["step_passed"] key (for instance the
    empty JSON object) makes the orchestrator raise [KeyError], where the
    spec asks for a default failing verdict. *)
Theorem orchestrate_verdict_without_step_passed s d :
  truthy (last_referee s) = true ->
  last_grader s = PDict d -> dict_get d "step_passed" = None ->
  orchestrate s = Err (KeyError (PStr "step_passed")).
Proof.
  intros Hr Hg Hd. unfold orchestrate. simpl. by rewrite Hr, Hg; simpl; rewrite Hd.
Qed.

(** ** Witnesses *)

Ltac solve_verdicts := eexists _, _; repeat split; reflexivity.

Lemma orchestrate_refines_witness :
  verdicts (judged_state 2 1 (grader_verdict true) (referee_verdict "fail")) true false /\
  orchestrate (judged_state 2 1 (grader_verdict true) (referee_verdict "fail"))
  = Err (RuntimeError too_many_retries).
Proof.
  assert (Hv : verdicts (judged_state 2 1 (grader_verdict true) (referee_verdict "fail"))
                        true false) by solve_verdicts.
  split; [exact Hv | exact (orchestrate_refines _ _ _ Hv)].
Defined.

Lemma orchestrate_advance_witness :
  verdicts (judged_state 6 0 (grader_verdict true) (referee_verdict "pass")) true true /\
  exists u, orchestrate (judged_state 6 0 (grader_verdict true) (referee_verdict "pass")) = Ok u
  /\ apply_update u (judged_state 6 0 (grader_verdict true) (referee_verdict "pass")) =
     mkState 6 0 true PNone PNone [msg "user" "hello"] PNone PNone
             [msg "coach" "hi"; msg "user" "hello"] (Some END).
Proof.
  assert (Hv : verdicts (judged_state 6 0 (grader_verdict true) (referee_verdict "pass"))
                        true true) by solve_verdicts.
  split; [exact Hv | exact (orchestrate_advance _ Hv)].
Defined.

Lemma orchestrate_confirmed_fail_witness :
  verdicts (judged_state 3 1 (grader_verdict false) (referee_verdict "pass")) false true /\
  exists u, orchestrate (judged_state 3 1 (grader_verdict false) (referee_verdict "pass")) = Ok u
  /\ apply_update u (judged_state 3 1 (grader_verdict false) (referee_verdict "pass")) =
     mkState 3 0 false (grader_verdict false) (referee_verdict "pass")
             [msg "user" "hello"; msg "user" "hello"] PNone PNone
             [msg "coach" "hi"] (Some User).
Proof.
  assert (Hv : verdicts (judged_state 3 1 (grader_verdict false) (referee_verdict "pass"))
                        false true) by solve_verdicts.
  split; [exact Hv | exact (orchestrate_confirmed_fail _ Hv)].
Defined.

Lemma orchestrate_dispute_witness :
  verdicts (judged_state 2 0 (grader_verdict false) (referee_verdict "fail")) false false /\
  (0 + 1 <> MAX_GRADER_RETRIES) /\
  exists u, orchestrate (judged_state 2 0 (grader_verdict false) (referee_verdict "fail")) = Ok u
  /\ apply_update u (judged_state 2 0 (grader_verdict false) (referee_verdict "fail")) =
     mkState 2 1 false (grader_verdict false) (referee_verdict "fail")
             [msg "user" "hello"] (msg "user" "hello") PNone
             [msg "coach" "hi"] (Some Grader).
Proof.
  assert (Hv : verdicts (judged_state 2 0 (grader_verdict false) (referee_verdict "fail"))
                        false false) by solve_verdicts.
  assert (Hb : 0 + 1 <> MAX_GRADER_RETRIES) by (unfold MAX_GRADER_RETRIES; lia).
  split; [exact Hv | split; [exact Hb | exact (orchestrate_dispute _ _ Hv Hb)]].
Defined.

Lemma orchestrate_dispute_fatal_witness :
  verdicts (judged_state 4 1 (grader_verdict true) (referee_verdict "fail")) true false /\
  orchestrate (judged_state 4 1 (grader_verdict true) (referee_verdict "fail"))
  = Err (RuntimeError too_many_retries).
Proof.
  assert (Hv : verdicts (judged_state 4 1 (grader_verdict true) (referee_verdict "fail"))
                        true false) by solve_verdicts.
  split; [exact Hv | exact (orchestrate_dispute_fatal _ _ Hv eq_refl)].
Defined.

Lemma orchestrate_verdict_without_step_passed_witness :
  truthy (last_referee (judged_state 1 0 (PDict []) (referee_verdict "pass"))) = true /\
  orchestrate (judged_state 1 0 (PDict []) (referee_verdict "pass"))
  = Err (KeyError (PStr "step_passed")).
Proof.
  split; [reflexivity |].
  apply (orchestrate_verdict_without_step_passed _ []); reflexivity.
Defined.

(** ** Lemmas for the graph-level files *)

(** Every successful run of the orchestrator returns no update or the
    update of one of the rows, the dispute row only below the bound. *)
Lemma orchestrate_Ok_cases s u :
  orchestrate s = Ok u ->
  u = [] \/ u = advance_update s \/ u = fail_update s \/
  (grader_retries s + 1 <> MAX_GRADER_RETRIES /\ u = dispute_update s).
Proof.
  unfold orchestrate. simpl. destruct (truthy (last_referee s)); intros H; [| inv_run; auto].
  inv_run. destruct (py_eq_str _ _), (truthy _); simpl in H;
    try (inv_run; unfold advance_update, fail_update; auto; fail).
  all: destruct (Z.eqb_spec (grader_retries s + 1) MAX_GRADER_RETRIES); inv_run;
    unfold dispute_update; auto.
Qed.

Lemma orchestrate_verdicts s passed agrees :
  verdicts s passed agrees ->
  orchestrate s =
    if agrees && passed then Ok (advance_update s)
    else if agrees && negb passed then Ok (fail_update s)
    else if Z.eqb (grader_retries s + 1) MAX_GRADER_RETRIES
    then Err (RuntimeError too_many_retries)
    else Ok (dispute_update s).
Proof.
  intros (p & g & Hp & <- & Hg & <-). unfold orchestrate. simpl.
  rewrite (py_getitem_truthy _ _ _ Hg), Hp, Hg. reflexivity.
Qed.

(** A readable grader verdict is a non-empty dict. *)
Lemma verdicts_grader_truthy s passed agrees :
  verdicts s passed agrees -> truthy (last_grader s) = true.
Proof. intros (p & _ & Hp & _). exact (py_getitem_truthy _ _ _ Hp). Qed.

(** Without a referee verdict (the referee skipped, or a direct
    question to the grader) the orchestrator changes nothing. *)
Lemma orchestrate_no_referee s :
  truthy (last_referee s) = false -> orchestrate s = Ok [].
Proof. intros H. unfold orchestrate. simpl. by rewrite H. Qed.

End Consensus.
