(* ===== verification/Graph.v ===== *)
(** * The graph: wiring, invocation, and a trainee's turn through it

    The [StateGraph] of [langchain_referee.py]: five nodes, the static
    edges coach -> user -> grader -> referee -> orchestrator, and the
    orchestrator's conditional edges, which name no node, so that every
    invocation ends after the orchestrator.  [exec] runs nodes one
    after the other, merging each node's update into the state, until
    no edge leaves the last node or LangGraph's recursion limit is
    reached; an invocation runs five nodes at most, so the limit is
    never reached.  The theorems follow a trainee's reply through the
    graph: a graded attempt with each outcome of the consensus table, a
    direct question to the grader, the invocation after a dispute, and
    the pass of the last step of a catalog shorter than six steps
    followed by the next invocation. *)

From S2P Require Import Prelude PyRuntime PyText Prompts Catalog Session Fixtures Nodes Consensus.
Import Catalog Consensus.
Local Open Scope Z_scope.
(** LangGraph's default [recursion_limit]: the number of node runs one
    [invoke] may take before it raises [GraphRecursionError]. *)
Definition recursion_limit : nat := 25.

(** The orchestrator's conditional edges: [add_conditional_edges] is
    given the dict
    [{"coach": lambda .. next_node == "coach", "user": lambda .. next_node == "user",
      END: lambda .. next_node == END}]
    as its [path] and no [path_map].  LangGraph coerces the dict to a
    [RunnableParallel], whose result is the dict of the three booleans:
    it names no node, so no edge leaves the orchestrator and the
    invocation ends there, whatever [next_node] holds.  [next_node] is
    read again only by the next invocation's [coach_node], through
    [other_turn]. *)
Definition route_orchestrator (s : StateDict) : option node := None.

(** The edges out of each node. *)
Definition successor (n : node) (s : StateDict) : option node :=
  match n with
  | Coach => Some User
  | User => Some Grader
  | Grader => Some Referee
  | Referee => Some Orchestrator
  | Orchestrator => route_orchestrator s
  | END => None
  end.

Section WithCatalog.

Variable SOP_STEPS : sop_table.

(** [graph.add_node] for the five nodes. *)
Definition run_node (n : node) (s : StateDict) : M update :=
  match n with
  | Coach => coach_node SOP_STEPS s
  | User => user_node SOP_STEPS s
  | Grader => grader_node SOP_STEPS s
  | Referee => referee_node SOP_STEPS s
  | Orchestrator => orchestrator_node s
  | END => eret []
  end.

(** Run node [n] and its successors, with [budget] node runs left. *)
Fixpoint exec (budget : nat) (n : node) (s : StateDict) : M StateDict :=
  match budget with
  | O => eraise GraphRecursionError
  | S b =>
      let* u := run_node n s in
      let s' := apply_update u s in
      match successor n s' with
      | Some n' => exec b n' s'
      | None => eret s'
      end
  end.

(** [simulation.invoke(state)], from the entry point ["coach"]. *)
Definition invoke (s : StateDict) : M StateDict :=
  exec recursion_limit Coach s.

End WithCatalog.

(** The state the orchestrator sees after the reply [x] was graded [gv]
    and audited [rv]. *)
Definition judged (s : StateDict) (x : string) (gv rv : pyval) : StateDict :=
  mkState (current_step s) (grader_retries s) (done s) gv rv
          (history s ++ [msg "user" x]) (msg "user" x) (coach_message s)
          (dialogue_history s) (Some Referee).

(** What a graded attempt on step [k] sends: the grader is asked to
    grade the reply [x], then the referee to audit its verdict [gv] on
    that same reply. *)
Definition attempt_messages (t : sop_table) (k : Z) (x : string) (gv : pyval)
  : list (list chat_message) :=
  [grading_messages t k x; referee_messages t k x gv].

(** ** Unfolding [exec] *)

Lemma exec_S SOP_STEPS b n s :
  exec SOP_STEPS (S b) n s =
    let* u := run_node SOP_STEPS n s in
    let s' := apply_update u s in
    match successor n s' with
    | Some n' => exec SOP_STEPS b n' s'
    | None => eret s'
    end.
Proof. reflexivity. Qed.

Lemma exec_S_inv SOP_STEPS b n s e s' e' :
  exec SOP_STEPS (S b) n s e = Ok (s', e') ->
  exists u e1, run_node SOP_STEPS n s e = Ok (u, e1) /\
    match successor n (apply_update u s) with
    | Some n' => exec SOP_STEPS b n' (apply_update u s) e1 = Ok (s', e')
    | None => s' = apply_update u s /\ e' = e1
    end.
Proof.
  rewrite exec_S. intros H. apply ebind_inv_Ok in H as (u & e1 & Hu & H).
  exists u, e1. split; [exact Hu |]. cbv zeta in H.
  destruct (successor n (apply_update u s)); [exact H | by inv_run].
Qed.

(** ** The budget of an invocation *)

(** The node runs from [n] up to and including the orchestrator, after
    which no edge is taken. *)
Definition need (n : node) : nat :=
  match n with
  | Coach => 5
  | User => 4
  | Grader => 3
  | Referee => 2
  | Orchestrator | END => 1
  end.

(** A run from [n] never uses more node runs than [need n]. *)
Lemma exec_need SOP_STEPS b n s e :
  (need n <= b)%nat -> exec SOP_STEPS b n s e = exec SOP_STEPS (need n) n s e.
Proof.
  revert n s e. induction b as [|b IH]; intros n s e Hb; [destruct n; cbn in Hb; lia |].
  replace (need n) with (S (pred (need n))) by (destruct n; reflexivity).
  rewrite !exec_S. unfold ebind.
  destruct (run_node SOP_STEPS n s e) as [[u e1] |]; [| reflexivity]. cbv zeta.
  destruct n; cbn [successor route_orchestrator need pred] in *; try reflexivity;
    apply IH; cbn [need]; lia.
Qed.

(** ** A trainee's turn through the graph *)

(** A graded attempt: the user, grader, referee and orchestrator nodes
    run in turn, and the invocation ends with the orchestrator's
    update merged into the judged state. *)
Lemma graded_attempt SOP_STEPS s e b x rest gr rr rest' gv rv passed agrees :
  stdin e = x :: rest -> llm e = gr :: rr :: rest' ->
  String.prefix "coach:" (str_lower x) = false -> String.prefix "Grader:" x = false ->
  x <> "" -> step_defined SOP_STEPS (current_step s) = true ->
  reply_json gr = Some gv -> reply_json rr = Some rv ->
  verdicts (judged s x gv rv) passed agrees ->
  exec SOP_STEPS (S (S (S (S b)))) User s e =
    match orchestrate (judged s x gv rv) with
    | Ok u => Ok (apply_update u (judged s x gv rv),
                  mkEnv rest rest' (sent e ++ attempt_messages SOP_STEPS (current_step s) x gv))
    | Err ex => Err ex
    end.
Proof.
  intros Hin Hllm Hc Hg Hx Hdef Hgr Hrr Hv.
  pose proof (verdicts_grader_truthy _ _ _ Hv) as Hgv. simpl in Hgv.
  destruct s as [cs gr0 dn lg lr h im cm dh nn], e as [ins outs snt].
  simpl in Hin, Hllm, Hdef. subst ins outs.
  rewrite exec_S. unfold run_node at 1.
  erewrite ebind_Ok; [| eapply user_node_spec; [reflexivity | exact Hdef]].
  rewrite Hc. cbn beta zeta iota delta [successor apply_update fold_left apply_write].
  rewrite exec_S. unfold run_node at 1.
  erewrite ebind_Ok; [| eapply grader_node_grading;
    [reflexivity | exact Hg | exact Hx | reflexivity | exact Hdef | reflexivity | exact Hgr]].
  cbn beta zeta iota delta [successor apply_update fold_left apply_write].
  rewrite exec_S. unfold run_node at 1.
  erewrite ebind_Ok; [| eapply referee_node_audit;
    [reflexivity | reflexivity | exact Hx | exact Hgv | exact Hdef | reflexivity | exact Hrr]].
  cbn beta zeta iota delta [successor apply_update fold_left apply_write].
  rewrite exec_S. unfold run_node at 1, orchestrator_node, ebind, elift.
  fold (judged (mkState cs gr0 dn lg lr h im cm dh nn) x gv rv).
  destruct (orchestrate _); [| reflexivity]. cbn beta zeta iota delta [successor route_orchestrator].
  unfold attempt_messages, eret. simpl sent. by rewrite <- app_assoc.
Qed.

(** ** Theorems *)

(** C21: LangGraph's recursion limit is never reached: an invocation runs
    each of the five nodes at most once (coach, user, grader, referee,
    orchestrator, then no edge), so with any limit of at least five node
    runs it computes exactly what [invoke] computes with the default
    limit of 25, and [GraphRecursionError] is never raised by the
    limit. *)
Theorem invoke_limit_irrelevant SOP_STEPS s e b :
  (5 <= b)%nat -> exec SOP_STEPS b Coach s e = invoke SOP_STEPS s e.
Proof.
  intros Hb. unfold invoke.
  rewrite (exec_need _ b), (exec_need _ recursion_limit); [reflexivity | | ];
    unfold recursion_limit; simpl; lia.
Qed.

(** C8: A confirmed fail ends the invocation: the step and dialogue are
    unchanged, the retry count is reset, [next_node] is ["user"] (so the
    next invocation's coach skips and the trainee answers again), and
    the attempt is logged twice in [history] (once by [user_node], once
    by [orchestrator_node]), where the spec says the transcript grows by
    one entry per graded turn. *)
Theorem attempt_confirmed_fail SOP_STEPS s e b x rest gr rr rest' gv rv :
  stdin e = x :: rest -> llm e = gr :: rr :: rest' ->
  String.prefix "coach:" (str_lower x) = false -> String.prefix "Grader:" x = false ->
  x <> "" -> step_defined SOP_STEPS (current_step s) = true ->
  reply_json gr = Some gv -> reply_json rr = Some rv ->
  verdicts (judged s x gv rv) false true ->
  exists s', exec SOP_STEPS (S (S (S (S b)))) User s e
             = Ok (s', mkEnv rest rest' (sent e ++ attempt_messages SOP_STEPS (current_step s) x gv)) /\
    current_step s' = current_step s /\ grader_retries s' = 0 /\ next_node s' = Some User /\
    dialogue_history s' = dialogue_history s /\
    history s' = history s ++ [msg "user" x; msg "user" x].
Proof.
  intros Hin Hllm Hc Hg Hx Hdef Hgr Hrr Hv.
  rewrite (graded_attempt _ _ _ _ _ _ _ _ _ _ _ _ _ Hin Hllm Hc Hg Hx Hdef Hgr Hrr Hv),
    (orchestrate_verdicts _ _ _ Hv).
  simpl. eexists; split; [reflexivity |]. simpl. by rewrite <- app_assoc.
Qed.

(** C16: A first dispute ends the invocation: the retry count becomes 1,
    [next_node] is ["grader"], the step is unchanged and [history]
    holds the disputed reply once. *)
Theorem attempt_dispute_ends_invocation SOP_STEPS s e b x rest gr rr rest' gv rv passed :
  stdin e = x :: rest -> llm e = gr :: rr :: rest' ->
  String.prefix "coach:" (str_lower x) = false -> String.prefix "Grader:" x = false ->
  x <> "" -> step_defined SOP_STEPS (current_step s) = true ->
  reply_json gr = Some gv -> reply_json rr = Some rv ->
  verdicts (judged s x gv rv) passed false -> grader_retries s = 0 ->
  exists s', exec SOP_STEPS (S (S (S (S b)))) User s e =
      Ok (s', mkEnv rest rest' (sent e ++ attempt_messages SOP_STEPS (current_step s) x gv)) /\
    current_step s' = current_step s /\ grader_retries s' = 1 /\
    next_node s' = Some Grader /\ history s' = history s ++ [msg "user" x].
Proof.
  intros Hin Hllm Hc Hg Hx Hdef Hgr Hrr Hv Hr0.
  rewrite (graded_attempt _ _ _ _ _ _ _ _ _ _ _ _ _ Hin Hllm Hc Hg Hx Hdef Hgr Hrr Hv),
    (orchestrate_verdicts _ _ _ Hv).
  simpl. rewrite Hr0. simpl. eexists; split; [reflexivity |]. simpl. rewrite Hr0. auto.
Qed.

(** C9: Two consecutive disputes are fatal: a graded attempt disputed
    while one dispute is already pending raises [RuntimeError]. *)
Theorem attempt_second_dispute_fatal SOP_STEPS s e b x rest gr rr rest' gv rv passed :
  stdin e = x :: rest -> llm e = gr :: rr :: rest' ->
  String.prefix "coach:" (str_lower x) = false -> String.prefix "Grader:" x = false ->
  x <> "" -> step_defined SOP_STEPS (current_step s) = true ->
  reply_json gr = Some gv -> reply_json rr = Some rv ->
  verdicts (judged s x gv rv) passed false -> grader_retries s = 1 ->
  exec SOP_STEPS (S (S (S (S b)))) User s e
  = Err (RuntimeError too_many_retries).
Proof.
  intros Hin Hllm Hc Hg Hx Hdef Hgr Hrr Hv Hr1.
  rewrite (graded_attempt _ _ _ _ _ _ _ _ _ _ _ _ _ Hin Hllm Hc Hg Hx Hdef Hgr Hrr Hv),
    (orchestrate_verdicts _ _ _ Hv).
  simpl. by rewrite Hr1.
Qed.

(** C17: After a dispute the next invocation does not re-grade the
    disputed reply: the coach node skips (its turn has not come) and the
    user node runs first, reading a new reply from the console. *)
Theorem invoke_after_dispute SOP_STEPS s e :
  next_node s = Some Grader ->
  invoke SOP_STEPS s e = exec SOP_STEPS (recursion_limit - 1) User s e.
Proof.
  intros Hn. unfold invoke, recursion_limit. rewrite exec_S. unfold run_node at 1.
  assert (Hskip : coach_node SOP_STEPS s = eret []).
  { unfold coach_node, other_turn. by rewrite Hn. }
  rewrite Hskip. reflexivity.
Qed.

(** C10: A direct question to the grader, seen through the whole graph: the
    reply starting with "Grader:" is answered by the grader, the referee
    skips, the orchestrator changes nothing and the invocation ends with
    [next_node = "user"], so the trainee speaks next; the step, the
    retry count and [done] are untouched, no referee verdict exists, and
    [history] gains the question and the answer. *)
Theorem direct_question_turn SOP_STEPS s e b q rest r rest' :
  stdin e = q :: rest -> llm e = r :: rest' ->
  String.prefix "Grader:" q = true ->
  step_defined SOP_STEPS (current_step s) = true ->
  exists s', exec SOP_STEPS (S (S (S (S b)))) User s e
             = Ok (s', mkEnv rest rest' (sent e ++ [interaction_messages SOP_STEPS (current_step s)
                                                   (history s ++ [msg "user" q]) q])) /\
    current_step s' = current_step s /\ grader_retries s' = grader_retries s /\
    done s' = done s /\ last_referee s' = PNone /\ next_node s' = Some User /\
    history s' = history s ++ [msg "user" q;
                               grader_dict (PStr (reply_content r)) (current_step s) false].
Proof.
  intros Hin Hllm Hq Hdef.
  pose proof (grader_prefix_not_coach _ Hq) as Hc.
  pose proof (step_defined_inv _ _ Hdef) as [_ [st Hst]].
  destruct s as [cs gr0 dn lg lr h im cm dh nn], e as [ins outs snt].
  simpl in Hin, Hllm, Hdef, Hst. subst ins outs.
  rewrite exec_S. unfold run_node at 1.
  erewrite ebind_Ok; [| eapply user_node_spec; [reflexivity | exact Hdef]].
  rewrite Hc. cbn beta zeta iota delta [successor apply_update fold_left apply_write].
  rewrite exec_S. unfold run_node at 1.
  erewrite ebind_Ok; [| eapply grader_node_interaction;
    [reflexivity | exact Hq | exact Hst | reflexivity]].
  cbn beta zeta iota delta [successor apply_update fold_left apply_write].
  rewrite exec_S. unfold run_node at 1.
  erewrite ebind_Ok; [| eapply referee_node_skip; [reflexivity | discriminate]].
  cbn beta zeta iota delta [successor apply_update fold_left apply_write].
  rewrite exec_S. unfold run_node at 1, orchestrator_node.
  erewrite ebind_Ok; [| rewrite orchestrate_no_referee; reflexivity].
  eexists; split; [reflexivity |]. simpl. by rewrite <- app_assoc.
Qed.

(** C7: An agreed pass ends the invocation with the step advanced by one
    (to at most 6), the retry count reset, the reply joined to the
    dialogue and logged once in [history], and [next_node] set to
    ["coach"], or, on step 6, the session [done] with [next_node] END. *)
Theorem attempt_advance SOP_STEPS s e b x rest gr rr rest' gv rv :
  stdin e = x :: rest -> llm e = gr :: rr :: rest' ->
  String.prefix "coach:" (str_lower x) = false -> String.prefix "Grader:" x = false ->
  x <> "" -> step_defined SOP_STEPS (current_step s) = true ->
  reply_json gr = Some gv -> reply_json rr = Some rv ->
  verdicts (judged s x gv rv) true true ->
  exists s',
    exec SOP_STEPS (S (S (S (S b)))) User s e =
      Ok (s', mkEnv rest rest' (sent e ++ attempt_messages SOP_STEPS (current_step s) x gv)) /\
    current_step s' = Z.min (current_step s + 1) MAX_STEP /\ grader_retries s' = 0 /\
    done s' = (MAX_STEP <=? current_step s) /\
    next_node s' = Some (if MAX_STEP <=? current_step s then END else Coach) /\
    dialogue_history s' = dialogue_history s ++ [msg "user" x] /\
    history s' = history s ++ [msg "user" x].
Proof.
  intros Hin Hllm Hc Hg Hx Hdef Hgr Hrr Hv.
  rewrite (graded_attempt _ _ _ _ _ _ _ _ _ _ _ _ _ Hin Hllm Hc Hg Hx Hdef Hgr Hrr Hv),
    (orchestrate_verdicts _ _ _ Hv).
  eexists. split; [reflexivity |]. simpl. rewrite Z.geb_leb. repeat split; reflexivity.
Qed.

(** C24: The final step is the literal 6, not the catalog's length: when
    the trainee passes step [k < 6] of a catalog that has no step
    [k + 1], the invocation ends on step [k + 1], not [done]; in the next
    invocation the coach speaks, the trainee answers, and grading that
    answer subscripts [SOP_STEPS[k + 1]]: the session raises
    [KeyError]. *)
Theorem advance_past_catalog SOP_STEPS s e b x y rest gr rr cr rest' gv rv :
  stdin e = x :: y :: rest -> llm e = gr :: rr :: cr :: rest' ->
  String.prefix "coach:" (str_lower x) = false -> String.prefix "Grader:" x = false ->
  x <> "" ->
  String.prefix "coach:" (str_lower y) = false -> String.prefix "Grader:" y = false ->
  y <> "" ->
  step_defined SOP_STEPS (current_step s) = true ->
  tbl_find SOP_STEPS (PInt (current_step s + 1)) = None ->
  current_step s < MAX_STEP ->
  Forall (fun m => exists r c, m = msg r c) (dialogue_history s) ->
  reply_json gr = Some gv -> reply_json rr = Some rv ->
  verdicts (judged s x gv rv) true true ->
  exists s' e', exec SOP_STEPS (S (S (S (S b)))) User s e = Ok (s', e') /\
    current_step s' = current_step s + 1 /\ done s' = false /\
    invoke SOP_STEPS s' e' = Err (KeyError (PInt (current_step s + 1))).
Proof.
  intros Hin Hllm Hc Hg Hx Hcy Hgy Hy Hdef Hmiss Hk Hdh Hgr Hrr Hv.
  rewrite (graded_attempt _ _ _ _ _ _ _ _ _ _ _ _ _ Hin Hllm Hc Hg Hx Hdef Hgr Hrr Hv),
    (orchestrate_verdicts _ _ _ Hv).
  assert (Hd : (current_step s >=? MAX_STEP) = false) by (rewrite Z.geb_leb; apply Z.leb_gt; lia).
  assert (Hk1 : Z.min (current_step s + 1) MAX_STEP = current_step s + 1) by lia.
  do 2 eexists. split; [reflexivity |].
  cbn -[invoke attempt_messages]. rewrite Hd, Hk1. split; [reflexivity | split; [reflexivity |]].
  destruct (dialogue_lines_msgs (dialogue_history s ++ [msg "user" x])) as [ls Hls].
  { apply Forall_app; split; [exact Hdh | repeat econstructor]. }
  unfold invoke, recursion_limit. rewrite exec_S. unfold run_node at 1.
  erewrite ebind_Ok; [| apply (coach_node_dialogue _ _ _ cr rest' ls);
    [reflexivity | simpl; intros [_ ?]%app_eq_nil; discriminate | exact Hls | reflexivity]].
  cbn -[exec attempt_messages coach_dialogue_prompt String.concat].
  rewrite exec_S. unfold run_node at 1.
  erewrite ebind_Ok; [| apply (user_node_Ok _ _ _ y rest (PStr "No description"));
    [reflexivity | apply get_sop_step_description_missing; exact Hmiss]].
  rewrite Hcy. cbn -[exec attempt_messages coach_dialogue_prompt String.concat].
  rewrite exec_S. unfold run_node at 1, ebind at 1, grader_node.
  unfold ebind, elift, eret. cbn -[exec attempt_messages coach_dialogue_prompt String.concat
    get_sop_step_description str_format].
  rewrite Hgy, (str_neq_empty _ Hy). cbn -[exec attempt_messages coach_dialogue_prompt
    String.concat get_sop_step_description str_format].
  rewrite (get_sop_step_description_missing _ _ Hmiss). cbn -[exec attempt_messages
    coach_dialogue_prompt String.concat str_format].
  unfold sop_getitem. by rewrite Hmiss.
Qed.

(** ** Witnesses *)

(** A budget of exactly five node runs, on the first invocation of the
    scenario of the spec. *)
Lemma invoke_limit_irrelevant_witness :
  (5 <= 5)%nat /\ exec SOP145 5 Coach initial_state section8_env = invoke SOP145 initial_state section8_env.
Proof. split; [lia | exact (invoke_limit_irrelevant SOP145 initial_state section8_env 5 (le_n 5))]. Defined.

Lemma attempt_confirmed_fail_witness :
  exists s', exec SOP145 4 User (after_coach 2)
               (start_env ["Please hold on."] [grader_says false; referee_says "pass"])
             = Ok (s', mkEnv [] [] (attempt_messages SOP145 2 "Please hold on." (grader_verdict false))) /\
    current_step s' = 2 /\ grader_retries s' = 0 /\ next_node s' = Some User /\
    dialogue_history s' = [msg "coach" "Welcome"] /\
    history s' = [msg "coach" "Welcome"; msg "user" "Please hold on.";
                  msg "user" "Please hold on."].
Proof.
  exact (attempt_confirmed_fail SOP145 (after_coach 2)
           (start_env ["Please hold on."] [grader_says false; referee_says "pass"]) 0
           "Please hold on." [] _ _ [] (grader_verdict false) (referee_verdict "pass")
           eq_refl eq_refl eq_refl eq_refl ltac:(discriminate) eq_refl eq_refl eq_refl
           ltac:(solve_verdicts)).
Defined.

Lemma attempt_dispute_ends_invocation_witness :
  exists s', exec SOP145 4 User (after_coach 2)
               (start_env ["Could you share your order number?"]
                      [grader_says true; referee_says "fail"])
             = Ok (s', mkEnv [] [] (attempt_messages SOP145 2 "Could you share your order number?"
                                                     (grader_verdict true))) /\
    current_step s' = 2 /\ grader_retries s' = 1 /\ next_node s' = Some Grader /\
    history s' = [msg "coach" "Welcome"; msg "user" "Could you share your order number?"].
Proof.
  exact (attempt_dispute_ends_invocation SOP145 (after_coach 2)
           (start_env ["Could you share your order number?"] [grader_says true; referee_says "fail"])
           0 "Could you share your order number?" [] _ _ [] (grader_verdict true)
           (referee_verdict "fail") true
           eq_refl eq_refl eq_refl eq_refl ltac:(discriminate) eq_refl eq_refl eq_refl
           ltac:(solve_verdicts) eq_refl).
Defined.

Lemma attempt_second_dispute_fatal_witness :
  exec SOP145 4 User (after_dispute 2)
    (start_env ["May I have your order number?"] [grader_says true; referee_says "fail"])
  = Err (RuntimeError too_many_retries).
Proof.
  exact (attempt_second_dispute_fatal SOP145 (after_dispute 2)
           (start_env ["May I have your order number?"] [grader_says true; referee_says "fail"])
           0 "May I have your order number?" [] _ _ [] (grader_verdict true)
           (referee_verdict "fail") true
           eq_refl eq_refl eq_refl eq_refl ltac:(discriminate) eq_refl eq_refl eq_refl
           ltac:(solve_verdicts) eq_refl).
Defined.

Lemma invoke_after_dispute_witness :
  invoke SOP145 (after_dispute 2) (start_env [] [])
  = exec SOP145 24 User (after_dispute 2) (start_env [] []).
Proof. exact (invoke_after_dispute SOP145 (after_dispute 2) (start_env [] []) eq_refl). Defined.

Lemma direct_question_turn_witness :
  exists s', exec SOP145 4 User (after_coach 1)
               (start_env ["Grader: what should I say first?"]
                      [text_reply "Start with an apology."])
             = Ok (s', mkEnv [] [] [interaction_messages SOP145 1
                                      [msg "coach" "Welcome"; msg "user" "Grader: what should I say first?"]
                                      "Grader: what should I say first?"]) /\
    current_step s' = 1 /\ grader_retries s' = 0 /\ done s' = false /\
    last_referee s' = PNone /\ next_node s' = Some User /\
    history s' = [msg "coach" "Welcome"; msg "user" "Grader: what should I say first?";
                  grader_dict (PStr "Start with an apology.") 1 false].
Proof.
  exact (direct_question_turn SOP145 (after_coach 1)
           (start_env ["Grader: what should I say first?"] [text_reply "Start with an apology."])
           0 "Grader: what should I say first?" [] _ [] eq_refl eq_refl eq_refl eq_refl).
Defined.

Lemma attempt_advance_witness :
  exists s',
    exec SOP145 4 User (after_coach 6)
      (start_env ["Your refund has been completed."] [grader_says true; referee_says "pass"])
    = Ok (s', mkEnv [] [] (attempt_messages SOP145 6 "Your refund has been completed."
                                            (grader_verdict true))) /\
    current_step s' = 6 /\ grader_retries s' = 0 /\ done s' = true /\ next_node s' = Some END /\
    dialogue_history s' = [msg "coach" "Welcome"; msg "user" "Your refund has been completed."] /\
    history s' = [msg "coach" "Welcome"; msg "user" "Your refund has been completed."].
Proof.
  exact (attempt_advance SOP145 (after_coach 6)
           (start_env ["Your refund has been completed."] [grader_says true; referee_says "pass"])
           0 "Your refund has been completed." [] _ _ [] (grader_verdict true)
           (referee_verdict "pass")
           eq_refl eq_refl eq_refl eq_refl ltac:(discriminate) eq_refl eq_refl eq_refl
           ltac:(solve_verdicts)).
Defined.

(** A three-step catalog: passing step 3 ends the invocation on step 4,
    and the next answer is graded against the missing [SOP_STEPS[4]]. *)
Lemma advance_past_catalog_witness :
  exists s' e', exec short_sop 4 User (after_coach 3)
      (start_env ["I have processed the return."; "Is there anything else?"]
                 [grader_says true; referee_says "pass"; text_reply "Well done."]) = Ok (s', e') /\
    current_step s' = 4 /\ done s' = false /\
    invoke short_sop s' e' = Err (KeyError (PInt 4)).
Proof.
  exact (advance_past_catalog short_sop (after_coach 3)
           (start_env ["I have processed the return."; "Is there anything else?"]
                      [grader_says true; referee_says "pass"; text_reply "Well done."])
           0 "I have processed the return." "Is there anything else?" [] _ _ _ []
           (grader_verdict true) (referee_verdict "pass")
           eq_refl eq_refl eq_refl eq_refl ltac:(discriminate) eq_refl eq_refl
           ltac:(discriminate) eq_refl eq_refl ltac:(unfold MAX_STEP; simpl; lia)
           ltac:(repeat econstructor) eq_refl eq_refl ltac:(solve_verdicts)).
Defined.
