(* ===== verification/Driver.v ===== *)
(** * The driver loop of [run_simulation], and whole sessions

    [run_simulation] loads the catalog, then invokes the graph while
    [done] is false, printing the feedback of each invocation, and
    prints the history at the end.  The loop is modelled with fuel;
    every invocation of the graph reads at least one console line (the
    user node runs second in every invocation), so fuel one more than
    the number of console lines always suffices: the loop never runs out
    of it.  The file ends with concrete sessions, the scenario of the
    spec (section 8) among them. *)

From S2P Require Import Prelude PyRuntime Catalog Session Fixtures Nodes Consensus Graph.
Import Catalog Consensus.
Local Open Scope Z_scope.

(** ** The driver loop of [run_simulation] *)

(** The feedback shown after each invocation: only its subscripts are
    modelled, since they can raise. *)
Definition show_feedback (s : StateDict) : res exn unit :=
  let last_grader := last_grader s in
  let last_referee := last_referee s in
  if negb (truthy last_referee) then
    if truthy last_grader then let? _ := py_getitem last_grader "message" in Ok tt
    else Ok tt
  else
    let? grade := py_getitem last_referee "referee_grade" in
    if py_eq_str grade "pass"
    then let? _ := py_getitem last_grader "message" in Ok tt
    else let? _ := py_getitem last_referee "message" in Ok tt.

(** The history printed at the end: [entry['role']] and the nested
    [entry.get(...)] calls. *)
Fixpoint show_history (h : list pyval) : res exn unit :=
  match h with
  | [] => Ok tt
  | entry :: rest =>
      let? _ := py_getitem entry "role" in
      let? msg := py_get entry "message" (PStr "") in
      let? _ := py_get entry "content" msg in
      let? _ := py_get entry "grader_feedback" PNone in
      show_history rest
  end.

(** [while not state["done"]: state = simulation.invoke(state); ...],
    with [fuel] iterations at most; [None] when the fuel runs out. *)
Fixpoint drive (SOP_STEPS : sop_table) (fuel : nat) (s : StateDict)
  : M (option StateDict) :=
  if done s then eret (Some s) else
  match fuel with
  | O => eret None
  | S f =>
      let* s' := invoke SOP_STEPS s in
      elift (show_feedback s') >>
      drive SOP_STEPS f s'
  end.

(** [run_simulation(sample)]: load the steps into the (initially empty)
    [SOP_STEPS], run the loop, print the history. *)
Definition run_simulation (fuel : nat) (sample : pyval) : M (option StateDict) :=
  let* SOP_STEPS := elift (load_steps SOP_STEPS_init sample) in
  let* final := drive SOP_STEPS fuel initial_state in
  match final with
  | Some s => elift (show_history (history s)) >> eret (Some s)
  | None => eret None
  end.

(** The [__main__] block: [json.load] of [sample_simulations/SOP145.json]
    (its result, or the exception opening or parsing the file raises),
    then [run_simulation(sample)]. *)
Definition referee_main (fuel : nat) (sample_json : res exn pyval) : M (option StateDict) :=
  let* sample := elift sample_json in
  run_simulation fuel sample.

(** ** The console is consumed *)

(** A computation does not lengthen the console tape. *)
Definition env_le (e e' : Env) : Prop := (length (stdin e') <= length (stdin e))%nat.

#[export] Instance env_le_preorder : PreOrder env_le.
Proof. split; unfold env_le; [intros ?; lia | intros ???; lia]. Qed.

Lemma input_env_le : preserves env_le input.
Proof. intros e l e' [H _]%input_inv. unfold env_le. rewrite H. simpl. lia. Qed.

Lemma call_llm_env_le ms : preserves env_le (call_llm ms).
Proof. intros e r e' [H _]%call_llm_inv. unfold env_le. rewrite H. lia. Qed.

#[export] Hint Resolve input_env_le call_llm_env_le : sop.

Lemma run_node_env_le SOP_STEPS n s : preserves env_le (run_node SOP_STEPS n s).
Proof.
  destruct n; simpl;
    unfold coach_node, user_node, grader_node, referee_node, orchestrator_node;
    solve_preserves.
Qed.

Lemma exec_env_le SOP_STEPS b n s : preserves env_le (exec SOP_STEPS b n s).
Proof.
  revert n s. induction b as [|b IH]; intros n s; simpl; [refine (preserves_eraise _ _) |].
  refine (preserves_ebind _ _ _ (run_node_env_le _ _ _) _). intros u.
  case_match; [apply IH | refine (preserves_eret _ _)].
Qed.

Lemma user_node_consumes SOP_STEPS s e u e' :
  user_node SOP_STEPS s e = Ok (u, e') -> (length (stdin e') < length (stdin e))%nat.
Proof.
  unfold user_node. intros H. inv_run. apply input_inv in H1 as [Hin _]. rewrite Hin. simpl. lia.
Qed.

(** Every invocation that returns has read a console line. *)
Lemma invoke_consumes SOP_STEPS s e s' e' :
  invoke SOP_STEPS s e = Ok (s', e') -> (length (stdin e') < length (stdin e))%nat.
Proof.
  unfold invoke, recursion_limit. intros H.
  apply exec_S_inv in H as (u1 & e1 & H1 & H). cbn [successor] in H.
  apply exec_S_inv in H as (u2 & e2 & H2 & H). cbn [successor] in H.
  pose proof (run_node_env_le _ _ _ _ _ _ H1) as L1.
  pose proof (user_node_consumes _ _ _ _ _ H2) as L2.
  pose proof (exec_env_le _ _ _ _ _ _ _ H) as L3. unfold env_le in *. lia.
Qed.

Lemma drive_fuel_enough SOP_STEPS f s e e' :
  (length (stdin e) < f)%nat -> drive SOP_STEPS f s e <> Ok (None, e').
Proof.
  revert s e. induction f as [|f IH]; intros s e Hf H; [lia |]. simpl in H.
  destruct (done s); [inv_run |].
  apply ebind_inv_Ok in H as (s1 & e1 & Hinv & H).
  apply ebind_inv_Ok in H as (t & e2 & Hshow & H). apply elift_inv_Ok in Hshow as [_ ->].
  pose proof (invoke_consumes _ _ _ _ _ Hinv). apply (IH s1 e1); [lia | exact H].
Qed.

(** ** Theorems *)

(** C19: Termination of the driver loop: with fuel larger than the number
    of console lines, [run_simulation] never runs out of fuel; it
    completes, or stops with the exception the program raises. *)
Theorem run_simulation_fuel_enough fuel sample e e' :
  (length (stdin e) < fuel)%nat -> run_simulation fuel sample e <> Ok (None, e').
Proof.
  intros Hf H. unfold run_simulation in H.
  apply ebind_inv_Ok in H as (t & e1 & Ht & H). apply elift_inv_Ok in Ht as [_ ->].
  apply ebind_inv_Ok in H as (final & e2 & Hd & H).
  destruct final as [s |]; [inv_run |].
  inv_run. exact (drive_fuel_enough _ _ _ _ _ Hf Hd).
Qed.

(** ** Concrete sessions *)

(** The scenario of the spec (section 8), on the six steps of SOP145:
    step 1 passed with agreement, step 2 failed with agreement, then an
    attempt passed by the grader and disputed by the referee.  Each
    invocation judges one answer: the first ends on step 2 with the
    coach to speak next; the second attempt on step 2 is disputed
    again and the session ends with [RuntimeError]. *)
Example spec_scenario_section8 :
  match invoke SOP145 initial_state section8_env with
  | Ok (s, _) => current_step s = 2 /\ grader_retries s = 0 /\ next_node s = Some Coach
  | Err _ => False
  end /\
  run_simulation 10 SOP145_sample section8_env
  = Err (RuntimeError too_many_retries).
Proof. split; vm_compute; auto. Qed.

(** Six accepted answers complete a session in six invocations, on
    step 6 with every answer in the dialogue; a trainee failing step 1
    over and over, each failure confirmed, is asked again in every
    invocation until the console is exhausted. *)
Example whole_sessions :
  match run_simulation 7 SOP145_sample passing_env with
  | Ok (Some s, e) => done s = true /\ current_step s = 6 /\ stdin e = [] /\
                      length (dialogue_history s) = 12%nat
  | _ => False
  end /\
  run_simulation 10 SOP145_sample failing_env = Err EOFError.
Proof. split; vm_compute; auto. Qed.

(** A procedure with three steps crashes: after the third step the
    orchestrator moves on to step 4 (it counts to the literal 6), and
    grading the fourth answer subscripts [SOP_STEPS[4]]. *)
Example short_procedure_crashes :
  run_simulation 10 short_sample short_env = Err (KeyError (PInt 4)).
Proof. vm_compute. reflexivity. Qed.

(** ** Witnesses *)

Lemma run_simulation_fuel_enough_witness :
  run_simulation 8 SOP145_sample completing_env <> Ok (None, start_env [] []).
Proof. apply run_simulation_fuel_enough. vm_compute. lia. Defined.

