(* ===== verification/Invariants.v ===== *)
(** * Invariants of every reachable state

    The graph only ever changes the state by merging a node's update, so
    a relation between a state and its successor that every node
    respects holds between the state before and after any invocation and
    any number of them.  [NodeRespects] is that promise of the nodes to
    the graph; [exec_respects], [invoke_respects] and [drive_respects]
    are the graph's side, proved against the class.  Two instances
    follow: the transcript only grows, and the step and retry counters
    stay in range with the step never decreasing. *)

From S2P Require Import Prelude PyRuntime Catalog Session Fixtures Nodes Consensus Graph Driver.
Import Catalog Consensus.
Local Open Scope Z_scope.

(** ** The interface between the graph and its nodes *)

Class NodeRespects (R : StateDict -> StateDict -> Prop) : Prop :=
  node_respects : forall SOP_STEPS n s,
    has_post (run_node SOP_STEPS n s) (fun u => R s (apply_update u s)).

Definition transcript_grows (s s' : StateDict) : Prop :=
  history s `prefix_of` history s' /\
  dialogue_history s `prefix_of` dialogue_history s'.

(** The step is between 1 and 6, the retry count below the bound, and a
    finished session sits on the last step. *)
Definition Inv (s : StateDict) : Prop :=
  1 <= current_step s <= MAX_STEP /\
  0 <= grader_retries s < MAX_GRADER_RETRIES /\
  (done s = true -> current_step s = MAX_STEP).

(** A step of the session keeps [Inv] and does not decrease the step. *)
Definition progress (s s' : StateDict) : Prop :=
  Inv s -> Inv s' /\ current_step s <= current_step s'.

Section Lifting.
Context (R : StateDict -> StateDict -> Prop) {HR : PreOrder R} {HN : NodeRespects R}.

Lemma exec_respects SOP_STEPS b n s e s' e' :
  exec SOP_STEPS b n s e = Ok (s', e') -> R s s'.
Proof using HR HN.
  revert n s e. induction b as [|b IH]; intros n s e H; simpl in H; [discriminate |].
  apply ebind_inv_Ok in H as (u & e1 & Hu & H).
  pose proof (node_respects SOP_STEPS n s _ _ _ Hu) as Hr.
  destruct (successor n _).
  - etrans; [exact Hr | exact (IH _ _ _ H)].
  - inversion H; subst. exact Hr.
Qed.

Lemma invoke_respects SOP_STEPS s e s' e' :
  invoke SOP_STEPS s e = Ok (s', e') -> R s s'.
Proof using HR HN. unfold invoke. apply exec_respects. Qed.

Lemma drive_respects SOP_STEPS f s e s' e' :
  drive SOP_STEPS f s e = Ok (Some s', e') -> R s s'.
Proof using HR HN.
  revert s e. induction f as [|f IH]; intros s e H; simpl in H.
  - destruct (done s); inv_run; reflexivity.
  - destruct (done s); inv_run; [reflexivity |].
    etrans; [exact (invoke_respects _ _ _ _ _ H0) | exact (IH _ _ H)].
Qed.

End Lifting.

(** ** The transcript only grows *)

#[export] Instance transcript_grows_preorder : PreOrder transcript_grows.
Proof.
  split.
  - intros s. split; reflexivity.
  - intros s1 s2 s3 [H1 D1] [H2 D2]. split; etrans; eauto.
Qed.

Ltac grows_by_writes :=
  destruct_and?; split; simpl; first [reflexivity | apply prefix_of_snoc].

#[export] Instance nodes_grow_transcript : NodeRespects transcript_grows.
Proof.
  intros SOP_STEPS n s. destruct n; simpl.
  5: { apply has_post_elift. intros u Hu.
       destruct (orchestrate_Ok_cases _ _ Hu) as [-> | [-> | [-> | [_ ->]]]];
         destruct s; grows_by_writes. }
  all: unfold coach_node, user_node, grader_node, referee_node; solve_post;
    destruct s; grows_by_writes.
Qed.

(** ** The counters stay in range *)

#[export] Instance progress_preorder : PreOrder progress.
Proof.
  split.
  - intros s H. split; [exact H | lia].
  - intros s1 s2 s3 H12 H23 H1.
    destruct (H12 H1) as [H2 L12]. destruct (H23 H2) as [H3 L23]. split; [exact H3 | lia].
Qed.

Lemma initial_state_Inv : Inv initial_state.
Proof. unfold Inv, MAX_STEP, MAX_GRADER_RETRIES. simpl. repeat split; lia || done. Qed.

Lemma orchestrate_progress s u : orchestrate s = Ok u -> progress s (apply_update u s).
Proof.
  intros Hu. unfold progress, Inv, MAX_STEP, MAX_GRADER_RETRIES.
  destruct (orchestrate_Ok_cases _ _ Hu) as [-> | [-> | [-> | [Hb ->]]]]; clear Hu;
    unfold advance_update, fail_update, dispute_update, MAX_STEP, MAX_GRADER_RETRIES in *;
    destruct s as [cs gr dn lg lr h im cm dh nn]; simpl in *;
    intros (Hs & Hr & Hd); try rewrite Z.geb_leb; try destruct (Z.leb_spec 6 cs);
    repeat split; intros; try lia; auto; discriminate.
Qed.

#[export] Instance nodes_progress : NodeRespects progress.
Proof.
  intros SOP_STEPS n s. destruct n; simpl.
  5: { apply has_post_elift. intros u Hu. exact (orchestrate_progress _ _ Hu). }
  all: unfold coach_node, user_node, grader_node, referee_node; solve_post;
    destruct s; unfold progress, Inv; simpl; intros ?; split; first [assumption | lia].
Qed.

(** The driver returns a state only once [done] holds. *)
Lemma drive_Some_done SOP_STEPS f s e s' e' :
  drive SOP_STEPS f s e = Ok (Some s', e') -> done s' = true.
Proof.
  revert s e. induction f as [|f IH]; intros s e H; simpl in H;
    destruct (done s) eqn:Hd; inv_run; eauto.
Qed.

(** ** Theorems *)

(** C5: One invocation of the graph keeps the step in [1, 6] and the retry
    count in [0, MAX_GRADER_RETRIES), keeps a finished session on the last
    step, and never moves the step backwards. *)
Theorem invoke_progress SOP_STEPS s e s' e' :
  Inv s -> invoke SOP_STEPS s e = Ok (s', e') ->
  Inv s' /\ current_step s <= current_step s'.
Proof. intros HI H. exact (invoke_respects progress _ _ _ _ _ H HI). Qed.

(** C15: The transcript is append-only: an invocation only ever extends
    [history] and [dialogue_history]. *)
Theorem invoke_transcript_append_only SOP_STEPS s e s' e' :
  invoke SOP_STEPS s e = Ok (s', e') -> transcript_grows s s'.
Proof. intros H. exact (invoke_respects transcript_grows _ _ _ _ _ H). Qed.

(** C20: A simulation that completes ends with [done] set, on the final
    step 6, in a state satisfying [Inv] (so with fewer than
    [MAX_GRADER_RETRIES] pending disputes). *)
Theorem run_simulation_complete fuel sample e s e' :
  run_simulation fuel sample e = Ok (Some s, e') ->
  done s = true /\ current_step s = MAX_STEP /\ Inv s.
Proof.
  unfold run_simulation. intros H.
  apply ebind_inv_Ok in H as (t & e1 & _ & H).
  apply ebind_inv_Ok in H as (final & e2 & Hdrive & H).
  destruct final as [s0 |]; inv_run.
  pose proof (drive_Some_done _ _ _ _ _ _ Hdrive) as Hd.
  destruct (drive_respects progress _ _ _ _ _ _ Hdrive initial_state_Inv) as [HI _].
  split; [exact Hd | split; [exact (proj2 (proj2 HI) Hd) | exact HI]].
Qed.

(** ** Witnesses *)

(** The first invocation of the scenario of the spec, section 8. *)
Lemma invoke_progress_witness :
  exists s' e', invoke SOP145 initial_state section8_env = Ok (s', e') /\
    Inv s' /\ current_step initial_state <= current_step s'.
Proof.
  destruct (invoke SOP145 initial_state section8_env) as [[s' e'] | ex] eqn:E;
    [| vm_compute in E; discriminate].
  exists s', e'. split; [reflexivity |].
  exact (invoke_progress _ _ _ _ _ initial_state_Inv E).
Defined.

Lemma invoke_transcript_append_only_witness :
  exists s' e', invoke SOP145 initial_state section8_env = Ok (s', e') /\
    transcript_grows initial_state s'.
Proof.
  destruct (invoke SOP145 initial_state section8_env) as [[s' e'] | ex] eqn:E;
    [| vm_compute in E; discriminate].
  exists s', e'. split; [reflexivity |].
  exact (invoke_transcript_append_only _ _ _ _ _ E).
Defined.

Lemma run_simulation_complete_witness :
  exists s e', run_simulation 8 SOP145_sample completing_env = Ok (Some s, e') /\
    done s = true /\ current_step s = MAX_STEP /\ Inv s.
Proof.
  destruct (run_simulation 8 SOP145_sample completing_env) as [[[s |] e'] | ex] eqn:E;
    try (vm_compute in E; discriminate).
  exists s, e'. split; [reflexivity |]. exact (run_simulation_complete _ _ _ _ _ E).
Defined.
