(* ===== verification/Limits.v ===== *)
(** * What one invocation can do, and what a completed session costs

    An invocation runs each node once at most and ends after the
    orchestrator.  Only the orchestrator moves the step or sets [done],
    by one at most.  The potential
    [potential s = current_step + (done ? 1 : 0)] therefore grows by at
    most one per invocation, and every invocation that returns reads a
    console line ([Driver.invoke_consumes]): along the driver loop the
    potential gained is at most the number of lines read, so a session
    that completes, going from potential 1 to potential 7, has read at
    least six lines, one graded answer per step of the procedure. *)

From S2P Require Import Prelude PyRuntime Catalog Session Fixtures Nodes Consensus Graph Driver.
Import Catalog Consensus.
Local Open Scope Z_scope.

(** The progress of a session: the step, and one more once it is done. *)
Definition potential (s : StateDict) : Z :=
  current_step s + (if done s then 1 else 0).

(** ** Which nodes move the potential *)

(** Every node but the orchestrator leaves the step and [done] alone. *)
Lemma node_frame SOP_STEPS n s :
  n <> Orchestrator ->
  has_post (run_node SOP_STEPS n s) (fun u => potential (apply_update u s) = potential s).
Proof.
  intros Hn. destruct n; simpl; try congruence;
    unfold coach_node, user_node, grader_node, referee_node; solve_post;
    destruct s; reflexivity.
Qed.

(** The orchestrator raises the potential by one at most. *)
Lemma orchestrate_potential s u :
  orchestrate s = Ok u -> potential (apply_update u s) <= potential s + 1.
Proof.
  intros Hu. unfold potential.
  destruct (orchestrate_Ok_cases _ _ Hu) as [-> | [-> | [-> | [_ ->]]]]; clear Hu;
    destruct s as [cs gr dn lg lr h im cm dh nn];
    unfold advance_update, fail_update, dispute_update, MAX_STEP; simpl; try lia.
  rewrite Z.geb_leb. destruct (Z.leb_spec 6 cs), dn; cbn iota; lia.
Qed.

(** A run of [exec] raises the potential by one at most: the orchestrator
    runs once at most, and ends the run. *)
Lemma exec_potential SOP_STEPS b n s e s' e' :
  exec SOP_STEPS b n s e = Ok (s', e') -> potential s' <= potential s + 1.
Proof.
  revert n s e. induction b as [|b IH]; intros n s e H; [discriminate |].
  apply exec_S_inv in H as (u & e1 & Hu & H).
  destruct (decide (n = Orchestrator)) as [-> | Hn].
  - cbn [run_node orchestrator_node successor route_orchestrator] in Hu, H.
    apply elift_inv_Ok in Hu as [Hu _]. destruct H as [-> _].
    exact (orchestrate_potential _ _ Hu).
  - pose proof (node_frame SOP_STEPS n s Hn _ _ _ Hu) as Hf. cbv beta in Hf.
    destruct (successor n _); [apply IH in H | destruct H as [-> _]]; lia.
Qed.

(** ** Theorems *)

(** C18: One invocation advances a session by at most one unit of
    progress: the step moves by one at most, or the session is marked
    [done] on the last step, never both and never more. *)
Theorem invoke_potential_bound SOP_STEPS s e s' e' :
  invoke SOP_STEPS s e = Ok (s', e') -> potential s' <= potential s + 1.
Proof. unfold invoke. apply exec_potential. Qed.

(** C6: A session advances by one step at most per answer it reads: along
    the driver loop, the progress gained (steps, and finishing) is at
    most the number of console lines consumed, since each invocation
    judges one answer and advances by one unit at most.  So a session
    completed from the initial state (step 1 to [done] on step 6) has
    read six answers at least. *)
Theorem drive_progress_per_answer SOP_STEPS f s e s' e' :
  drive SOP_STEPS f s e = Ok (Some s', e') ->
  potential s' + Z.of_nat (length (stdin e')) <= potential s + Z.of_nat (length (stdin e)).
Proof.
  revert s e. induction f as [|f IH]; intros s e H; simpl in H;
    destruct (done s); inv_run; try lia.
  pose proof (exec_potential _ _ _ _ _ _ _ H0).
  pose proof (invoke_consumes _ _ _ _ _ H0).
  apply IH in H. lia.
Qed.

(** ** Witnesses *)

Lemma invoke_potential_bound_witness :
  exists s' e', invoke SOP145 initial_state section8_env = Ok (s', e') /\
    potential s' <= potential initial_state + 1.
Proof.
  destruct (invoke SOP145 initial_state section8_env) as [[s' e'] | ex] eqn:E;
    [| vm_compute in E; discriminate].
  exists s', e'. split; [reflexivity | exact (invoke_potential_bound _ _ _ _ _ E)].
Defined.

(** The session of six accepted answers: from potential 1 to 7, reading
    its six lines. *)
Lemma drive_progress_per_answer_witness :
  exists s e', drive SOP145 7 initial_state passing_env = Ok (Some s, e') /\
    potential s = 7 /\ stdin e' = [] /\
    potential s + Z.of_nat (length (stdin e')) <=
      potential initial_state + Z.of_nat (length (stdin passing_env)).
Proof.
  destruct (drive SOP145 7 initial_state passing_env) as [[[s |] e'] | ex] eqn:E;
    try (vm_compute in E; discriminate).
  exists s, e'. split; [reflexivity |].
  split; [vm_compute in E; injection E as <- <-; reflexivity |].
  split; [vm_compute in E; injection E as <- <-; reflexivity |].
  exact (drive_progress_per_answer _ _ _ _ _ _ E).
Defined.
