(* ===== verification/Trainer.v ===== *)
(** * The customer-service trainer loop ([training_simulation.py], [llm.py])

    A second, independent simulator: a one-node LangGraph whose node,
    [simulate_customer_interaction], plays a customer against the
    trainee.  Each round reads the trainee's reply from the console,
    asks the trainer LLM for a JSON evaluation of the whole conversation
    ([evaluate_customer_response], which falls back to a failing dict
    when the reply is empty or not JSON), prints its feedback, stops
    when the evaluation says [complete], and otherwise lets the customer
    LLM reply ([get_customer_reply]) -- twice when the round passed.

    The conversation [history] is a local Python list that the callees
    only read, so it is modelled as a value.  The LLM is the tape of
    [Session]: a reply's [reply_json] stands for [json.loads] of its
    content here.  The requests are the f-string prompts of [Prompts]
    over the formatted conversation, and the theorems state the exact
    messages each round sends. *)

From S2P Require Import Prelude PyRuntime PyText Prompts Session Nodes.
Local Open Scope Z_scope.

Module Trainer.

(** ** [llm.py] *)

(** [format_history_for_llm]: the f-string
    [f"{m['role'].capitalize()}: {m['content']}"] of each entry, the same
    expression as the coach's dialogue lines. *)
Definition format_history_for_llm (history : list pyval) : res exn string :=
  dialogue_text history.

(** [chat_with_llm(prompt)]: one user message to Ollama's [llama3];
    [response["message"]["content"]] is the reply's content, returned
    with the reply so that [json.loads] of it ([reply_json]) stays
    attached. *)
Definition chat_with_llm (prompt : string) : M llm_reply :=
  call_llm [HumanMessage prompt].

(** [get_customer_reply(history)] *)
Definition get_customer_reply (history : list pyval) : M string :=
  let* conversation := elift (format_history_for_llm history) in
  let* response := chat_with_llm (customer_reply_prompt conversation) in
  eret (reply_content response).

(** [is_reply_chunk(text)]: the answer, stripped and lowercased, is
    ["yes"]. *)
Definition is_reply_chunk (text : string) : M bool :=
  let* response := call_llm [HumanMessage (reply_chunk_prompt text)] in
  eret (String.eqb (str_lower (str_strip (reply_content response))) "yes").

Definition no_response : pyval :=
  PDict [("passed", PBool false); ("feedback", PStr "No response from LLM.")].

Definition could_not_parse (content : string) : pyval :=
  PDict [("passed", PBool false);
         ("feedback", PStr ("Could not parse response: " ++ content))].

(** [evaluate_customer_response(history)]: [if not content] and the bare
    [except] around [json.loads]. *)
Definition evaluate_customer_response (history : list pyval) : M pyval :=
  let* conversation := elift (format_history_for_llm history) in
  let* response := chat_with_llm (evaluation_prompt conversation) in
  let content := reply_content response in
  if String.eqb content "" then eret no_response else
  match reply_json response with
  | Some v => eret v
  | None => eret (could_not_parse content)
  end.

(** ** [training_simulation.py] *)

Definition initial_customer : string :=
  "Hello, I need to return my order. Can you help?".

(** The [print] of a failed round: ["... (" + step + ")"] when [step] is
    truthy, which raises [TypeError] unless it is a string. *)
Definition revise_notice (step : pyval) : res exn unit :=
  if truthy step then
    match step with PStr _ => Ok tt | _ => Err TypeError end
  else Ok tt.

(** The body of [while True], with [fuel] rounds at most ([None]: out of
    fuel); [Some history] is the conversation at the [break]. *)
Fixpoint interaction_loop (fuel : nat) (history : list pyval)
  : M (option (list pyval)) :=
  match fuel with
  | O => eret None
  | S f =>
      let* user_input := input in
      let history := history ++ [msg "assistant" user_input] in
      let* feedback := evaluate_customer_response history in
      elift (py_getitem feedback "feedback") >>
      let* complete := elift (py_get feedback "complete" PNone) in
      if truthy complete then eret (Some history) else
      let* passed := elift (py_get feedback "passed" PNone) in
      let* history :=
        (if truthy passed then
           let* customer_reply := get_customer_reply history in
           eret (history ++ [msg "user" customer_reply])
         else
           let* step := elift (py_get feedback "step" PNone) in
           elift (revise_notice step) >> eret history) in
      let* customer_reply := get_customer_reply history in
      interaction_loop f (history ++ [msg "user" customer_reply])
  end.

(** [simulate_customer_interaction(state)]: the state comes back
    unchanged once the loop breaks. *)
Definition simulate_customer_interaction (fuel : nat) (state : pyval)
  : M (option pyval) :=
  let history := [msg "user" initial_customer] in
  let* r := interaction_loop fuel history in
  eret (option_map (fun _ => state) r).

(** The entry point: the one-node graph returns its node's state. *)
Definition trainer_main (fuel : nat) : M (option pyval) :=
  simulate_customer_interaction fuel (PDict [("query", PStr "Handle missing order inquiry.")]).

(** ** Specification helpers *)

(** The role of a conversation entry. *)
Definition role_of (m : pyval) : option string :=
  match m with
  | PDict d => match dict_get d "role" with Some (PStr r) => Some r | _ => None end
  | _ => None
  end.

(** The trainee's turns in a conversation. *)
Definition trainee_turns (h : list pyval) : nat :=
  length (List.filter (fun m => bool_decide (role_of m = Some "assistant")) h).

(** The dict [evaluate_customer_response] returns for an LLM reply. *)
Definition evaluation (r : llm_reply) : pyval :=
  if String.eqb (reply_content r) "" then no_response else
  match reply_json r with
  | Some v => v
  | None => could_not_parse (reply_content r)
  end.

(** An evaluation that ends a round normally: a dict with a ["feedback"]
    key, [complete] falsy, [passed] as given, and a printable [step]. *)
Definition round_verdict (v : pyval) (passed : bool) : bool :=
  match v with
  | PDict d =>
      bool_decide (dict_get d "feedback" <> None) &&
      negb (truthy (default PNone (dict_get d "complete"))) &&
      Bool.eqb (truthy (default PNone (dict_get d "passed"))) passed &&
      (passed || match revise_notice (default PNone (dict_get d "step")) with
                 | Ok _ => true | Err _ => false end)
  | _ => false
  end.

(** ** Concrete replies *)

(** A JSON evaluation in the shape the prompt asks for. *)
Definition eval_reply (passed complete : bool) : llm_reply :=
  mkReply "{...}"
    (Some (PDict [("step", PStr "Acknowledge the issue with empathy");
                  ("passed", PBool passed); ("complete", PBool complete);
                  ("feedback", PStr "- Good start.")])).

(** A plain-text reply of the customer model. *)
Definition say (t : string) : llm_reply := mkReply t None.

(** The console does not change. *)
Definition same_stdin (e e' : Env) : Prop := stdin e' = stdin e.

(** The conversation can be shown to the LLM, and the text it shows. *)
Definition formats (h : list pyval) : bool :=
  match format_history_for_llm h with Ok _ => true | Err _ => false end.

Definition conversation_of (h : list pyval) : string :=
  match format_history_for_llm h with Ok t => t | Err _ => "" end.

(** The messages of an evaluation and of a customer reply on [h]. *)
Definition evaluation_request (h : list pyval) : list chat_message :=
  [HumanMessage (evaluation_prompt (conversation_of h))].

Definition reply_request (h : list pyval) : list chat_message :=
  [HumanMessage (customer_reply_prompt (conversation_of h))].

(** ** The callees on a well-formed conversation *)

#[export] Instance same_stdin_preorder : PreOrder same_stdin.
Proof. split; unfold same_stdin; [intros ? | intros ??? -> ->]; reflexivity. Qed.

Lemma call_llm_same_stdin ms : preserves same_stdin (call_llm ms).
Proof. intros e r e' [H _]%call_llm_inv. exact H. Qed.

#[local] Hint Resolve call_llm_same_stdin : sop.

Lemma get_customer_reply_same_stdin h : preserves same_stdin (get_customer_reply h).
Proof. unfold get_customer_reply, chat_with_llm. solve_preserves. Qed.

Lemma evaluate_same_stdin h : preserves same_stdin (evaluate_customer_response h).
Proof. unfold evaluate_customer_response, chat_with_llm. solve_preserves. Qed.

Lemma formats_Ok h : formats h = true -> format_history_for_llm h = Ok (conversation_of h).
Proof. unfold formats, conversation_of. by destruct (format_history_for_llm h). Qed.

Lemma format_history_snoc h r c :
  formats h = true -> formats (h ++ [msg r c]) = true.
Proof.
  unfold formats, format_history_for_llm, dialogue_text.
  destruct (res_map dialogue_line h) as [ls |] eqn:E; [intros _ | discriminate].
  by rewrite (res_map_snoc _ _ (msg r c) _ _ E ltac:(reflexivity)).
Qed.

Lemma evaluate_spec h e r rest :
  formats h = true -> llm e = r :: rest ->
  evaluate_customer_response h e =
    Ok (evaluation r, mkEnv (stdin e) rest (sent e ++ [evaluation_request h])).
Proof.
  intros Hf Hl. unfold evaluate_customer_response, evaluation, evaluation_request, chat_with_llm,
    ebind, elift, call_llm.
  rewrite (formats_Ok _ Hf), Hl. simpl. destruct (String.eqb _ _); [reflexivity |].
  by destruct (reply_json r).
Qed.

Lemma get_customer_reply_spec h e r rest :
  formats h = true -> llm e = r :: rest ->
  get_customer_reply h e =
    Ok (reply_content r, mkEnv (stdin e) rest (sent e ++ [reply_request h])).
Proof.
  intros Hf Hl. unfold get_customer_reply, reply_request, chat_with_llm, ebind, elift, call_llm.
  by rewrite (formats_Ok _ Hf), Hl.
Qed.

Lemma round_verdict_inv v passed :
  round_verdict v passed = true ->
  exists d fb, v = PDict d /\ dict_get d "feedback" = Some fb /\
    truthy (default PNone (dict_get d "complete")) = false /\
    truthy (default PNone (dict_get d "passed")) = passed /\
    (passed = false -> revise_notice (default PNone (dict_get d "step")) = Ok tt).
Proof.
  intros H. destruct v as [| | | | | d]; try discriminate H. simpl in H.
  apply andb_prop in H as [[[Hfb Hc]%andb_prop Hp]%andb_prop Hs].
  apply bool_decide_eq_true in Hfb. destruct (dict_get d "feedback") as [fb |] eqn:Efb; [| done].
  exists d, fb. apply negb_true_iff in Hc. apply Bool.eqb_prop in Hp.
  do 4 (split; [done |]). intros ->. simpl in Hs.
  by destruct (revise_notice (default PNone (dict_get d "step"))) as [[] |].
Qed.

(** Run the start of a round: [input()] and the evaluation. *)
Ltac start_round Hf Hin Hl :=
  cbn [interaction_loop];
  rewrite (ebind_Ok _ _ _ _ _ (input_Ok _ _ _ Hin));
  rewrite (ebind_Ok _ _ _ _ _ (evaluate_spec _ (mkEnv _ _ _) _ _ (format_history_snoc _ _ _ Hf) Hl)).

(** A round that does not end the loop: the trainee's line is appended,
    the evaluation is read, and the customer replies once more after a
    passed round. *)
Lemma round_continue f h e x rest r rest' passed :
  formats h = true ->
  stdin e = x :: rest -> llm e = r :: rest' ->
  round_verdict (evaluation r) passed = true ->
  interaction_loop (S f) h e =
    (let h1 := h ++ [msg "assistant" x] in
     let* h2 := (if passed then
                   let* c := get_customer_reply h1 in eret (h1 ++ [msg "user" c])
                 else eret h1) in
     let* c := get_customer_reply h2 in
     interaction_loop f (h2 ++ [msg "user" c]))
    (mkEnv rest rest' (sent e ++ [evaluation_request (h ++ [msg "assistant" x])])).
Proof.
  intros Hf Hin Hl Hv.
  destruct (round_verdict_inv _ _ Hv) as (d & fb & Hd & Hfb & Hc & Hp & Hs).
  start_round Hf Hin Hl. rewrite Hd. unfold ebind at 1 2, elift at 1 2. cbn [py_getitem py_get]. rewrite Hfb.
  cbv beta iota. rewrite Hc. unfold ebind at 1, elift at 1. cbv beta iota. rewrite Hp.
  destruct passed; [reflexivity |].
  unfold ebind at 1 2 3, elift at 1 2. cbv beta iota. rewrite (Hs eq_refl). reflexivity.
Qed.

(** What a successful round does: it reads one line [x]; it either
    stops with [x] appended, or goes on with [x] and the customer's
    replies appended, the console otherwise untouched. *)
Lemma loop_S_inv f h e o e' :
  interaction_loop (S f) h e = Ok (o, e') ->
  exists x e1, stdin e = x :: stdin e1 /\
    ((o = Some (h ++ [msg "assistant" x]) /\ stdin e' = stdin e1) \/
     exists us e2, Forall (fun m => role_of m = Some "user") us /\ stdin e2 = stdin e1 /\
       interaction_loop f (h ++ [msg "assistant" x] ++ us) e2 = Ok (o, e')).
Proof.
  cbn [interaction_loop]. intros H.
  apply ebind_inv_Ok in H as (x & e1 & Hx & H). apply input_inv in Hx as [Hin _].
  exists x, e1. split; [exact Hin |].
  apply ebind_inv_Ok in H as (fb & e2 & Hfb & H).
  pose proof (evaluate_same_stdin _ _ _ _ Hfb) as S2.
  apply ebind_inv_Ok in H as (u & e3 & Hu & H). apply elift_inv_Ok in Hu as [_ ->].
  apply ebind_inv_Ok in H as (c & e4 & Hc & H). apply elift_inv_Ok in Hc as [_ ->].
  destruct (truthy c).
  { left. apply eret_inv_Ok in H as [[= ->] ->]. split; [reflexivity | exact S2]. }
  right. apply ebind_inv_Ok in H as (p & e5 & Hp & H). apply elift_inv_Ok in Hp as [_ ->].
  apply ebind_inv_Ok in H as (h2 & e6 & Hh2 & H).
  apply ebind_inv_Ok in H as (c2 & e7 & Hc2 & H).
  pose proof (get_customer_reply_same_stdin _ _ _ _ Hc2) as S7.
  destruct (truthy p).
  - apply ebind_inv_Ok in Hh2 as (c1 & e8 & Hc1 & Hh2).
    pose proof (get_customer_reply_same_stdin _ _ _ _ Hc1) as S8.
    apply eret_inv_Ok in Hh2 as [-> ->].
    exists [msg "user" c1; msg "user" c2], e7. rewrite <- !app_assoc in H.
    unfold same_stdin in *. repeat split; [repeat constructor | congruence | exact H].
  - apply ebind_inv_Ok in Hh2 as (st & e8 & Hst & Hh2). apply elift_inv_Ok in Hst as [_ ->].
    apply ebind_inv_Ok in Hh2 as (t & e9 & Ht & Hh2). apply elift_inv_Ok in Ht as [_ ->].
    apply eret_inv_Ok in Hh2 as [-> ->].
    exists [msg "user" c2], e7. rewrite <- !app_assoc in H.
    unfold same_stdin in *. repeat split; [repeat constructor | congruence | exact H].
Qed.

Lemma trainee_turns_app h1 h2 : trainee_turns (h1 ++ h2) = (trainee_turns h1 + trainee_turns h2)%nat.
Proof. unfold trainee_turns. by rewrite List.filter_app, length_app. Qed.

Lemma trainee_turns_users us :
  Forall (fun m => role_of m = Some "user") us -> trainee_turns us = 0%nat.
Proof.
  induction 1 as [| m us Hm _ IH]; [reflexivity |]. unfold trainee_turns in *. simpl.
  rewrite Hm, bool_decide_eq_false_2 by congruence. exact IH.
Qed.

Lemma trainee_turns_assistant x : trainee_turns [msg "assistant" x] = 1%nat.
Proof. reflexivity. Qed.

(** Rounds that end without a [Some] never exceed the console. *)
Lemma interaction_loop_None_fuel fuel h e e' :
  interaction_loop fuel h e = Ok (None, e') -> (fuel <= length (stdin e))%nat.
Proof.
  revert h e. induction fuel as [|f IH]; intros h e H; [lia |].
  apply loop_S_inv in H as (x & e1 & Hin & [[[=] _] | (us & e2 & _ & He2 & H)]).
  apply IH in H. rewrite Hin. simpl. rewrite He2 in H. lia.
Qed.

(** ** Theorems *)

(** C27: A passed round makes the customer reply twice: after the
    trainee's line and an evaluation that passed without completing,
    [get_customer_reply] runs in the [if passed] branch and again after
    it, so two customer messages follow the trainee's line and the
    trainee never answered the first one. *)
Theorem passed_round_two_customer_replies f h e x rest r r1 r2 rest' :
  formats h = true ->
  stdin e = x :: rest -> llm e = r :: r1 :: r2 :: rest' ->
  round_verdict (evaluation r) true = true ->
  let h1 := h ++ [msg "assistant" x] in
  interaction_loop (S f) h e =
    interaction_loop f (h1 ++ [msg "user" (reply_content r1); msg "user" (reply_content r2)])
      (mkEnv rest rest' (sent e ++ [evaluation_request h1; reply_request h1;
                                    reply_request (h1 ++ [msg "user" (reply_content r1)])])).
Proof.
  intros Hf Hin Hl Hv. rewrite (round_continue f h e x rest r _ true Hf Hin Hl Hv). cbv zeta.
  pose proof (format_history_snoc _ "assistant" x Hf) as H1.
  pose proof (format_history_snoc _ "user" (reply_content r1) H1) as H2.
  rewrite (ebind_Ok _ _ _ _ _ (ebind_Ok _ _ _ _ _
             (get_customer_reply_spec _ (mkEnv _ _ _) _ _ H1 eq_refl))).
  rewrite (ebind_Ok _ _ _ _ _ (get_customer_reply_spec _ (mkEnv _ _ _) _ _ H2 eq_refl)).
  simpl sent. by rewrite <- !app_assoc.
Qed.

(** C28: An unusable evaluation (an empty reply, or one that is not JSON)
    neither raises nor ends the session: the fallback dict fails the
    round, the trainee is asked to revise, and the customer replies once. *)
Theorem unusable_evaluation_continues f h e x rest r r1 rest' :
  formats h = true ->
  stdin e = x :: rest -> llm e = r :: r1 :: rest' ->
  reply_content r = "" \/ reply_json r = None ->
  let h1 := h ++ [msg "assistant" x] in
  interaction_loop (S f) h e =
    interaction_loop f (h1 ++ [msg "user" (reply_content r1)])
      (mkEnv rest rest' (sent e ++ [evaluation_request h1; reply_request h1])).
Proof.
  intros Hf Hin Hl Hu.
  assert (Hv : round_verdict (evaluation r) false = true).
  { unfold evaluation. destruct Hu as [-> | ->]; [reflexivity |].
    by destruct (String.eqb _ _). }
  rewrite (round_continue f h e x rest r _ false Hf Hin Hl Hv). cbv zeta.
  rewrite (ebind_Ok _ _ _ _ _ (eret_Ok _ _)).
  rewrite (ebind_Ok _ _ _ _ _
             (get_customer_reply_spec _ (mkEnv _ _ _) _ _ (format_history_snoc _ _ _ Hf) eq_refl)).
  simpl sent. by rewrite <- !app_assoc.
Qed.

(** The loop breaks exactly on an evaluation whose ["complete"] is
    truthy: the conversation ends with the trainee's line and no
    customer reply is requested. *)
Theorem complete_round_stops f h e x rest r rest' d fb :
  formats h = true ->
  stdin e = x :: rest -> llm e = r :: rest' ->
  evaluation r = PDict d -> dict_get d "feedback" = Some fb ->
  truthy (default PNone (dict_get d "complete")) = true ->
  interaction_loop (S f) h e =
    Ok (Some (h ++ [msg "assistant" x]),
        mkEnv rest rest' (sent e ++ [evaluation_request (h ++ [msg "assistant" x])])).
Proof.
  intros Hf Hin Hl Hd Hfb Hc. start_round Hf Hin Hl. rewrite Hd.
  unfold ebind at 1 2, elift at 1 2. cbn [py_getitem py_get]. rewrite Hfb.
  cbv beta iota. by rewrite Hc.
Qed.

(** C29: An evaluation dict without a ["feedback"] key, which the LLM is
    only asked to include, crashes the trainer with [KeyError] when the
    feedback is printed. *)
Theorem missing_feedback_raises f h e x rest r rest' d :
  formats h = true ->
  stdin e = x :: rest -> llm e = r :: rest' ->
  evaluation r = PDict d -> dict_get d "feedback" = None ->
  interaction_loop (S f) h e = Err (KeyError (PStr "feedback")).
Proof.
  intros Hf Hin Hl Hd Hfb. start_round Hf Hin Hl. rewrite Hd.
  unfold ebind at 1, elift at 1. cbn [py_getitem]. by rewrite Hfb.
Qed.

(** C30: Termination: with more fuel than console lines the trainer never
    runs out of fuel, because every round reads a line; it ends at a
    [complete] evaluation or with the exception the program raises
    ([EOFError] once the console is exhausted). *)
Theorem simulate_customer_interaction_fuel_enough fuel st e e' :
  (length (stdin e) < fuel)%nat ->
  simulate_customer_interaction fuel st e <> Ok (None, e').
Proof.
  intros Hf H. unfold simulate_customer_interaction in H.
  apply ebind_inv_Ok in H as (r & e1 & Hr & H). apply eret_inv_Ok in H as [Hn _].
  destruct r as [h' |]; [discriminate |].
  apply interaction_loop_None_fuel in Hr. lia.
Qed.

(** C31: The conversation is append-only and holds one trainee line per
    console line read: when the loop breaks, the old conversation is a
    prefix of the new one, and the trainee's turns grew by the number of
    lines consumed. *)
Theorem interaction_loop_transcript fuel h e h' e' :
  interaction_loop fuel h e = Ok (Some h', e') ->
  h `prefix_of` h' /\
  (trainee_turns h' + length (stdin e') = trainee_turns h + length (stdin e))%nat.
Proof.
  revert h e. induction fuel as [|f IH]; intros h e H; [inversion H |].
  apply loop_S_inv in H as (x & e1 & Hin & [[[= ->] He'] | (us & e2 & Hus & He2 & H)]).
  - split; [by apply prefix_app_r |].
    rewrite trainee_turns_app, trainee_turns_assistant, Hin, He'. simpl. lia.
  - apply IH in H as [Hp Ht]. split; [etrans; [by apply prefix_app_r | exact Hp] |].
    rewrite !trainee_turns_app, trainee_turns_assistant, (trainee_turns_users _ Hus) in Ht.
    rewrite Hin. simpl. rewrite He2 in Ht. lia.
Qed.

(** ** Witnesses *)

Lemma passed_round_two_customer_replies_witness :
  interaction_loop 1 [msg "user" initial_customer]
    (start_env ["I'm sorry to hear that."] [eval_reply true false; say "Thanks."; say "Any news?"])
  = interaction_loop 0 [msg "user" initial_customer; msg "assistant" "I'm sorry to hear that.";
                        msg "user" "Thanks."; msg "user" "Any news?"]
      (mkEnv [] []
         [evaluation_request [msg "user" initial_customer; msg "assistant" "I'm sorry to hear that."];
          reply_request [msg "user" initial_customer; msg "assistant" "I'm sorry to hear that."];
          reply_request [msg "user" initial_customer; msg "assistant" "I'm sorry to hear that.";
                         msg "user" "Thanks."]]).
Proof.
  exact (passed_round_two_customer_replies 0 [msg "user" initial_customer]
           (start_env ["I'm sorry to hear that."] [eval_reply true false; say "Thanks."; say "Any news?"])
           "I'm sorry to hear that." [] (eval_reply true false) (say "Thanks.") (say "Any news?") []
           eq_refl eq_refl eq_refl eq_refl).
Defined.

Lemma unusable_evaluation_continues_witness :
  interaction_loop 1 [msg "user" initial_customer]
    (start_env ["Let me check."] [say "The trainee did well."; say "Okay."])
  = interaction_loop 0 [msg "user" initial_customer; msg "assistant" "Let me check.";
                        msg "user" "Okay."]
      (mkEnv [] [] [evaluation_request [msg "user" initial_customer; msg "assistant" "Let me check."];
                    reply_request [msg "user" initial_customer; msg "assistant" "Let me check."]]).
Proof.
  exact (unusable_evaluation_continues 0 [msg "user" initial_customer]
           (start_env ["Let me check."] [say "The trainee did well."; say "Okay."])
           "Let me check." [] (say "The trainee did well.") (say "Okay.") []
           eq_refl eq_refl eq_refl (or_intror eq_refl)).
Defined.

Lemma complete_round_stops_witness :
  interaction_loop 1 [msg "user" initial_customer]
    (start_env ["Your refund is complete."] [eval_reply true true])
  = Ok (Some [msg "user" initial_customer; msg "assistant" "Your refund is complete."],
        mkEnv [] [] [evaluation_request [msg "user" initial_customer;
                                         msg "assistant" "Your refund is complete."]]).
Proof.
  exact (complete_round_stops 0 [msg "user" initial_customer]
           (start_env ["Your refund is complete."] [eval_reply true true])
           "Your refund is complete." [] (eval_reply true true) [] _ (PStr "- Good start.")
           eq_refl eq_refl eq_refl eq_refl eq_refl eq_refl).
Defined.

Lemma missing_feedback_raises_witness :
  interaction_loop 1 [msg "user" initial_customer]
    (start_env ["Hello."] [mkReply "{...}" (Some (PDict [("passed", PBool true)]))])
  = Err (KeyError (PStr "feedback")).
Proof.
  exact (missing_feedback_raises 0 [msg "user" initial_customer]
           (start_env ["Hello."] [mkReply "{...}" (Some (PDict [("passed", PBool true)]))])
           "Hello." [] _ [] [("passed", PBool true)] eq_refl eq_refl eq_refl eq_refl eq_refl).
Defined.

Lemma simulate_customer_interaction_fuel_enough_witness :
  simulate_customer_interaction 3 (PDict [])
    (start_env ["Sorry about that."; "Refund issued."] [eval_reply false false; say "Hm."])
  <> Ok (None, start_env [] []).
Proof. apply simulate_customer_interaction_fuel_enough. simpl. lia. Defined.

Lemma interaction_loop_transcript_witness :
  exists h' e',
    interaction_loop 3 [msg "user" initial_customer]
      (start_env ["Sorry about that."; "Refund issued."]
             [eval_reply true false; say "Ok."; say "When?"; eval_reply true true]) =
      Ok (Some h', e') /\
    [msg "user" initial_customer] `prefix_of` h' /\
    (trainee_turns h' + length (stdin e') =
     trainee_turns [msg "user" initial_customer] + 2)%nat.
Proof.
  destruct (interaction_loop 3 [msg "user" initial_customer]
              (start_env ["Sorry about that."; "Refund issued."]
                     [eval_reply true false; say "Ok."; say "When?"; eval_reply true true]))
    as [[[h' |] e'] | ex] eqn:E; try (vm_compute in E; discriminate).
  exists h', e'. split; [reflexivity |]. exact (interaction_loop_transcript _ _ _ _ _ E).
Defined.

End Trainer.
