(* ===== verification/Machine.v ===== *)
(** * The session as a transition system

    [exec] and [drive] are the program's own control flow, bounded by
    LangGraph's recursion limit and by fuel.  Here the same session is a
    step relation on configurations [(node to run, state, environment)]:
    a step runs one node and follows its edge, or, once an invocation
    has ended with [done] false and its feedback printed, the driver
    invokes the graph again from the coach.  The relation has no bound
    on the node runs of an invocation (the program never reaches its
    own, [Graph.invoke_limit_irrelevant]) and none on re-invocations:
    every run of [drive] is a path of it ([drive_path]), and an invariant of every reachable
    configuration, proved by rule induction, holds for every state the
    program reaches.  The invariant shows that the orchestrator only
    ever judges the trainee's own reply, that the state keeps the types
    [StateDict] declares and that the transcript printed at the end of
    [run_simulation] never makes it raise.  A measure that every step
    lowers shows that every session halts. *)

From S2P Require Import Prelude PyRuntime Catalog Session Fixtures Nodes Consensus Graph Driver.
From stdpp Require Import relations.
Import Catalog Consensus.
Local Open Scope Z_scope.

Record config : Type := Cfg {
  at_node : option node;   (* [None]: the invocation has returned *)
  cfg_state : StateDict;
  cfg_env : Env
}.

Section Machine.

Variable SOP_STEPS : sop_table.

Inductive step : config -> config -> Prop :=
  | step_run n s e u e' :
      run_node SOP_STEPS n s e = Ok (u, e') ->
      step (Cfg (Some n) s e)
           (Cfg (successor n (apply_update u s)) (apply_update u s) e')
  | step_reinvoke s e :
      done s = false -> show_feedback s = Ok tt ->
      step (Cfg None s e) (Cfg (Some Coach) s e).

(** The configurations a session started on the console and LLM tapes
    [e0] can reach. *)
Inductive reachable (e0 : Env) : config -> Prop :=
  | reach_init : reachable e0 (Cfg (Some Coach) initial_state e0)
  | reach_step c c' : reachable e0 c -> step c c' -> reachable e0 c'.

End Machine.

(** The step relation is deterministic; [run_steps] computes [k] steps
    of it (with the recursion limit lifted), [None] when the session
    stops or raises. *)
Fixpoint run_steps (SOP_STEPS : sop_table) (k : nat) (c : config) : option config :=
  match k with
  | O => Some c
  | S k' =>
      match at_node c with
      | Some n =>
          match run_node SOP_STEPS n (cfg_state c) (cfg_env c) with
          | Ok (u, e') =>
              let s' := apply_update u (cfg_state c) in
              run_steps SOP_STEPS k' (Cfg (successor n s') s' e')
          | Err _ => None
          end
      | None =>
          if done (cfg_state c) then None else
          match show_feedback (cfg_state c) with
          | Ok _ => run_steps SOP_STEPS k' (Cfg (Some Coach) (cfg_state c) (cfg_env c))
          | Err _ => None
          end
      end
  end.

(** An entry the history printout can show: [entry['role']] exists. *)
Definition has_role (m : pyval) : bool :=
  match py_getitem m "role" with Ok _ => true | Err _ => false end.

(** The trainee's message [{"role": "user", "content": x}]. *)
Definition user_turn (m : pyval) : Prop := exists x, m = msg "user" x.

(** The invariant: every history entry has a role; from the grader to
    the orchestrator the pending message is the trainee's reply; the
    grader and the referee run with [next_node] set; and a referee
    verdict reaches the orchestrator only with [next_node = "referee"],
    which only the grader's grading branch writes. *)
Definition config_ok (c : config) : Prop :=
  let s := cfg_state c in
  Forall (fun m => has_role m = true) (history s) /\
  match at_node c with
  | Some Grader | Some Referee => user_turn (input_message s) /\ next_node s <> None
  | Some Orchestrator =>
      user_turn (input_message s) /\
      (truthy (last_referee s) = true -> next_node s = Some Referee)
  | _ => True
  end.

(** ** The nodes keep the invariant *)

Ltac history_grows :=
  destruct_and?; simpl; intros ? ?;
  first [assumption | apply Forall_app; split; [assumption | repeat constructor]].

Lemma node_history_ok SOP_STEPS n s :
  has_post (run_node SOP_STEPS n s)
    (fun u => Forall (fun m => has_role m = true) (history s) ->
              (n = Orchestrator -> has_role (input_message s) = true) ->
              Forall (fun m => has_role m = true) (history (apply_update u s))).
Proof.
  destruct n; simpl.
  5: { apply has_post_elift. intros u Hu H Hin.
       destruct (orchestrate_Ok_cases _ _ Hu) as [-> | [-> | [-> | [_ ->]]]];
         destruct s; simpl in *; try assumption.
       apply Forall_app; split; [assumption | constructor; [exact (Hin eq_refl) | done]]. }
  all: unfold coach_node, user_node, grader_node, referee_node; solve_post;
    destruct s; history_grows.
Qed.

Lemma user_node_input SOP_STEPS s :
  has_post (user_node SOP_STEPS s) (fun u => user_turn (input_message (apply_update u s))).
Proof. unfold user_node. solve_post; destruct s; eexists; reflexivity. Qed.

Lemma node_keeps_input SOP_STEPS n s :
  n = Grader \/ n = Referee ->
  has_post (run_node SOP_STEPS n s) (fun u => input_message (apply_update u s) = input_message s).
Proof.
  intros [-> | ->]; simpl; unfold grader_node, referee_node; solve_post; by destruct s.
Qed.

Lemma user_node_next SOP_STEPS s :
  has_post (user_node SOP_STEPS s) (fun u => next_node (apply_update u s) <> None).
Proof. unfold user_node. solve_post; by destruct s. Qed.

Lemma grader_node_next SOP_STEPS s :
  next_node s <> None ->
  has_post (grader_node SOP_STEPS s) (fun u => next_node (apply_update u s) <> None).
Proof.
  intros Hn. unfold grader_node. solve_post; destruct s; simpl in *; done.
Qed.

(** The referee writes a verdict only on its own turn. *)
Lemma referee_node_turn SOP_STEPS s :
  next_node s <> None ->
  has_post (referee_node SOP_STEPS s)
    (fun u => truthy (last_referee (apply_update u s)) = true ->
              next_node (apply_update u s) = Some Referee).
Proof.
  intros Hn. unfold referee_node, other_turn.
  destruct (next_node s) as [n |] eqn:E; [| done].
  destruct (bool_decide (n <> Referee)) eqn:Hb; solve_post; destruct s; simpl in *;
    try discriminate; intros _; rewrite E; f_equal;
    apply bool_decide_eq_false in Hb; destruct (decide (n = Referee)); tauto.
Qed.

Lemma step_config_ok SOP_STEPS c c' :
  config_ok c -> step SOP_STEPS c c' -> config_ok c'.
Proof.
  intros [Hh Hin] Hs. destruct Hs as [n s e u e' Hu | s e _ _]; [| split; done].
  pose proof (node_history_ok SOP_STEPS n s _ _ _ Hu) as Hh'. simpl in Hh, Hin |- *.
  split.
  - apply Hh'; [exact Hh |]. intros ->. destruct Hin as [[x ->] _]. reflexivity.
  - destruct n; simpl; try done.
    + exact (conj (user_node_input _ _ _ _ _ Hu) (user_node_next _ _ _ _ _ Hu)).
    + destruct Hin as [Hin Hn].
      rewrite (node_keeps_input _ Grader s (or_introl eq_refl) _ _ _ Hu).
      exact (conj Hin (grader_node_next _ _ Hn _ _ _ Hu)).
    + destruct Hin as [Hin Hn].
      rewrite (node_keeps_input _ Referee s (or_intror eq_refl) _ _ _ Hu).
      exact (conj Hin (referee_node_turn _ _ Hn _ _ _ Hu)).
Qed.

(** Rule induction: every reachable configuration satisfies [config_ok]. *)
Lemma reachable_ok SOP_STEPS e0 c : reachable SOP_STEPS e0 c -> config_ok c.
Proof.
  induction 1 as [| c c' _ IH Hs].
  - split; [constructor | done].
  - exact (step_config_ok _ _ _ IH Hs).
Qed.

Lemma show_history_ok h :
  Forall (fun m => has_role m = true) h -> show_history h = Ok tt.
Proof.
  induction 1 as [| m h Hm _ IH]; [reflexivity |]. simpl. unfold has_role in Hm.
  destruct (py_getitem m "role") eqn:E; [| discriminate]. cbn [rbind].
  destruct m as [| | | | | d]; try discriminate. exact IH.
Qed.

(** ** The annotations of [StateDict] hold *)

Ltac solve_typed :=
  unfold state_typed in *; simpl in *; rewrite ?forallb_app;
  repeat match goal with H : _ && _ = true |- _ => apply andb_prop in H as [? ?] end;
  repeat (apply andb_true_intro; split); simpl; auto.

(** Every node keeps the annotations, the orchestrator provided the
    pending message is the trainee's reply (which [config_ok] gives). *)
Lemma node_typed SOP_STEPS n s :
  has_post (run_node SOP_STEPS n s)
    (fun u => state_typed s = true ->
              (n = Orchestrator -> user_turn (input_message s)) ->
              state_typed (apply_update u s) = true).
Proof.
  destruct n; simpl.
  5: { apply has_post_elift. intros u Hu H Hin.
       destruct (orchestrate_Ok_cases _ _ Hu) as [-> | [-> | [-> | [_ ->]]]];
         destruct (Hin eq_refl) as [x Hx]; destruct s; simpl in Hx; subst; solve_typed. }
  all: unfold coach_node, user_node, grader_node, referee_node; solve_post;
    destruct s; intros; solve_typed.
Qed.

Lemma step_typed SOP_STEPS c c' :
  config_ok c -> state_typed (cfg_state c) = true -> step SOP_STEPS c c' ->
  state_typed (cfg_state c') = true.
Proof.
  intros [_ Hin] Ht Hs. destruct Hs as [n s e u e' Hu | s e _ _]; [| exact Ht].
  apply (node_typed SOP_STEPS n s _ _ _ Hu Ht). intros ->. apply Hin.
Qed.

(** ** Every session halts *)

(** Six per console line left, plus the node runs before the trainee is
    asked again; every step lowers it. *)
Definition rank (n : option node) : nat :=
  match n with
  | Some Grader => 5
  | Some Referee => 4
  | Some Orchestrator | Some END => 3
  | None => 2
  | Some Coach => 1
  | Some User => 0
  end.

Definition measure (c : config) : nat :=
  6 * length (stdin (cfg_env c)) + rank (at_node c).

Lemma step_measure SOP_STEPS c c' : step SOP_STEPS c c' -> (measure c' < measure c)%nat.
Proof.
  destruct 1 as [n s e u e' Hu | s e _ _]; unfold measure; simpl; [| lia].
  pose proof (run_node_env_le _ _ _ _ _ _ Hu) as L. unfold env_le in L.
  destruct n; simpl; try lia.
  - pose proof (user_node_consumes _ _ _ _ _ Hu). lia.
Qed.

(** [run_steps] takes exactly the steps of the relation. *)
Lemma run_steps_one SOP_STEPS c c' :
  step SOP_STEPS c c' <-> run_steps SOP_STEPS 1 c = Some c'.
Proof.
  split.
  - destruct 1 as [n s e u e' Hu | s e Hd Hf]; simpl; [by rewrite Hu | by rewrite Hd, Hf].
  - destruct c as [[n |] s e]; simpl.
    + destruct (run_node SOP_STEPS n s e) as [[u e'] |] eqn:Hu; [| discriminate].
      intros [= <-]. by constructor.
    + destruct (done s) eqn:Hd; [discriminate |].
      destruct (show_feedback s) as [[] |] eqn:Hf; [| discriminate].
      intros [= <-]. by constructor.
Qed.

(** ** The executable program follows the relation *)

Lemma exec_reachable SOP_STEPS e0 b n s e s' e' :
  reachable SOP_STEPS e0 (Cfg (Some n) s e) ->
  exec SOP_STEPS b n s e = Ok (s', e') ->
  reachable SOP_STEPS e0 (Cfg None s' e').
Proof.
  revert n s e. induction b as [|b IH]; intros n s e Hr H; [discriminate |].
  apply exec_S_inv in H as (u & e1 & Hu & H).
  pose proof (reach_step _ _ _ _ Hr (step_run _ _ _ _ _ _ Hu)) as Hr'.
  destruct (successor n (apply_update u s)) eqn:Hn.
  - exact (IH _ _ _ Hr' H).
  - destruct H as [-> ->]. exact Hr'.
Qed.

Lemma drive_path SOP_STEPS e0 f s e s' e' :
  reachable SOP_STEPS e0 (Cfg (Some Coach) s e) -> done s = false ->
  drive SOP_STEPS f s e = Ok (Some s', e') ->
  reachable SOP_STEPS e0 (Cfg None s' e').
Proof.
  revert s e. induction f as [|f IH]; intros s e Hr Hd H; simpl in H; rewrite Hd in H;
    [discriminate |].
  apply ebind_inv_Ok in H as (s1 & e1 & Hinv & H).
  pose proof (exec_reachable _ _ _ _ _ _ _ _ Hr Hinv) as Hr1.
  apply ebind_inv_Ok in H as (t & e2 & Hshow & H). apply elift_inv_Ok in Hshow as [Hshow ->].
  destruct (done s1) eqn:Hd1.
  - destruct f; simpl in H; rewrite Hd1 in H; inv_run; exact Hr1.
  - destruct t. apply (IH s1 e1); [| exact Hd1 | exact H].
    eapply reach_step; [exact Hr1 | constructor; assumption].
Qed.

Lemma run_steps_reachable SOP_STEPS e0 k c c' :
  reachable SOP_STEPS e0 c -> run_steps SOP_STEPS k c = Some c' -> reachable SOP_STEPS e0 c'.
Proof.
  revert c. induction k as [|k IH]; intros [[n |] s e] Hr H; simpl in H.
  1,2: by injection H as <-.
  - destruct (run_node SOP_STEPS n s e) as [[u e'] |] eqn:Hu; [| discriminate].
    apply (IH _ (reach_step _ _ _ _ Hr (step_run _ _ _ _ _ _ Hu)) H).
  - destruct (done s) eqn:Hd; [discriminate |].
    destruct (show_feedback s) as [[] |] eqn:Hf; [| discriminate].
    exact (IH _ (reach_step _ _ _ _ Hr (step_reinvoke _ _ _ Hd Hf)) H).
Qed.

(** ** Theorems *)

(** C12: No stale verdict pair is resolved: in every reachable
    configuration about to run the orchestrator, the pending message is
    the trainee's reply [{"role": "user", "content": x}] (never the
    coach's message or a cleared one), and a referee verdict is present
    only with [next_node = "referee"], which only the grader's grading
    branch writes and the referee's audit keeps: the pair being
    resolved was produced in this round, for this reply. *)
Theorem orchestrator_judges_user_turn SOP_STEPS e0 s e :
  reachable SOP_STEPS e0 (Cfg (Some Orchestrator) s e) ->
  (exists x, input_message s = msg "user" x) /\
  (truthy (last_referee s) = true -> next_node s = Some Referee).
Proof. intros Hr. apply (reachable_ok _ _ _ Hr). Qed.

(** C13: The history printed at the end of [run_simulation] never makes
    it raise: in every reachable state, each history entry is a dict
    with a ["role"] key, which is all the printout subscripts. *)
Theorem reachable_history_printable SOP_STEPS e0 s e :
  reachable SOP_STEPS e0 (Cfg None s e) -> show_history (history s) = Ok tt.
Proof. intros Hr. apply show_history_ok, (reachable_ok _ _ _ Hr). Qed.

(** C34: The annotations of [StateDict] hold in every reachable
    configuration: [input_message] is None or a dict of strings,
    [coach_message] None or a string, every [history] entry a dict and
    every [dialogue_history] entry a dict of strings; in particular the
    orchestrator never appends the cleared [None] message to either
    list. *)
Theorem reachable_state_typed SOP_STEPS e0 c :
  reachable SOP_STEPS e0 c -> state_typed (cfg_state c) = true.
Proof.
  induction 1 as [| c c' Hr IH Hs]; [reflexivity |].
  exact (step_typed _ _ _ (reachable_ok _ _ _ Hr) IH Hs).
Qed.

(** C35: Every session halts, whatever the LLMs answer: from any
    configuration, at most [measure c] steps (six per console line
    left, and five more) lead to a configuration with no step, where
    the session has ended with [done] or raised (an exhausted console
    raises [EOFError]).  The driver's re-invocations and the graph's
    edges never cycle without reading the console. *)
Theorem session_halts SOP_STEPS c :
  exists (k : nat) (c' : config), (k <= measure c)%nat /\ nsteps (step SOP_STEPS) k c c' /\
    forall c'', ~ step SOP_STEPS c' c''.
Proof.
  remember (measure c) as m eqn:Hm. revert c Hm.
  induction m as [m IH] using lt_wf_ind. intros c ->.
  destruct (run_steps SOP_STEPS 1 c) as [c1 |] eqn:E.
  - apply run_steps_one in E. pose proof (step_measure _ _ _ E) as Hlt.
    destruct (IH _ Hlt c1 eq_refl) as (k & c' & Hk & Hn & Hf).
    exists (S k), c'. split; [lia | split; [econstructor; eauto | exact Hf]].
  - exists 0%nat, c. split; [lia | split; [constructor |]].
    intros c'' Hs%run_steps_one. congruence.
Qed.

(** ** Witnesses *)

(** The first orchestrator run of a session of accepted answers. *)
Lemma orchestrator_judges_user_turn_witness :
  exists s e, reachable SOP145 passing_env (Cfg (Some Orchestrator) s e) /\
    (exists x, input_message s = msg "user" x) /\
    (truthy (last_referee s) = true -> next_node s = Some Referee).
Proof.
  destruct (run_steps SOP145 4 (Cfg (Some Coach) initial_state passing_env))
    as [[[[] |] s e] |] eqn:E; try (vm_compute in E; discriminate).
  exists s, e.
  assert (Hr : reachable SOP145 passing_env (Cfg (Some Orchestrator) s e))
    by exact (run_steps_reachable _ _ _ _ _ (reach_init _ _) E).
  split; [exact Hr | exact (orchestrator_judges_user_turn _ _ _ _ Hr)].
Defined.

(** The end of the first invocation of the scenario of the spec. *)
Lemma reachable_history_printable_witness :
  exists s e, reachable SOP145 section8_env (Cfg None s e) /\
    show_history (history s) = Ok tt.
Proof.
  destruct (run_steps SOP145 5 (Cfg (Some Coach) initial_state section8_env))
    as [[[n |] s e] |] eqn:E; try (vm_compute in E; discriminate).
  exists s, e.
  assert (Hr : reachable SOP145 section8_env (Cfg None s e))
    by exact (run_steps_reachable _ _ _ _ _ (reach_init _ _) E).
  split; [exact Hr | exact (reachable_history_printable _ _ _ _ Hr)].
Defined.

Lemma reachable_state_typed_witness :
  exists s e, reachable SOP145 section8_env (Cfg None s e) /\
    state_typed s = true.
Proof.
  destruct (run_steps SOP145 5 (Cfg (Some Coach) initial_state section8_env))
    as [[[n |] s e] |] eqn:E; try (vm_compute in E; discriminate).
  exists s, e.
  assert (Hr : reachable SOP145 section8_env (Cfg None s e))
    by exact (run_steps_reachable _ _ _ _ _ (reach_init _ _) E).
  split; [exact Hr | exact (reachable_state_typed _ _ _ Hr)].
Defined.
