(* ===== verification/Research.v ===== *)
(** * The research summarisation flow ([agentic_research_ai.py], [tools.py], [llm.py])

    A two-node LangGraph over a plain [dict] state: [retrieve_chunks]
    stores the payloads a Qdrant vector search returns for
    [state["query"]], [summarize] joins their ["text"] fields into a
    prompt and stores the Ollama model's answer as [state["summary"]],
    which the entry point prints.  Each node writes into the state dict
    it is given and returns it, and the graph's state is that dict, so
    the state is one [pyval] dict threaded through.

    The vector search and the chat model are tapes, as the LLMs of the
    other components are: a search returns the next list of payloads,
    the chat model the next reply, and the messages sent to it are
    recorded.  The sentence-embedding model is a parameter [encode]
    (one vector per text, or the exception it raises): [get_embedding]
    wraps a string in a list, and the search needs the first vector
    ([IndexError] when there is none); the vector itself only feeds
    Qdrant, whose answer is the tape.
    [str.join] consumes the generator [chunk["text"] for chunk in
    chunks] before it checks the items' types, so a missing ["text"]
    anywhere is reported before a non-string one. *)

From S2P Require Import Prelude PyRuntime PyText Prompts Session.
Local Open Scope Z_scope.

Module Research.

(** The services: Qdrant search results and Ollama replies. *)
Record REnv : Type := mkREnv {
  search_results : list (list pyval);
  chat : list llm_reply;
  asked : list (list chat_message)
}.

Definition RM (A : Type) : Type := ESM exn REnv A.

(** ** The vector search *)

Section WithEncoder.

(** The sentence-embedding model of [llm.py]: [model.encode(texts)
    .tolist()], one vector per text, or the exception the library
    raises; vectors are of an abstract type [V]. *)
Context {V : Type} (encode : pyval -> res exn (list V)).

(** [get_embedding(texts)]: a string is wrapped in a list first. *)
Definition get_embedding (texts : pyval) : res exn (list V) :=
  encode (match texts with PStr _ => PList [texts] | _ => texts end).

(** [ResearchTools.search_vector_db(query, top_k)]: the first vector of
    [get_embedding(query)] ([IndexError] when there is none) is the
    query vector; the search's answer is the next entry of the tape,
    and [[point.payload for point in search_result]] its payloads. *)
Definition search_vector_db (query : pyval) (top_k : Z) : RM (list pyval) :=
  let* vectors := elift (get_embedding query) in
  let* query_vector := elift (match vectors with v :: _ => Ok v | [] => Err IndexError end) in
  fun e =>
    match search_results e with
    | [] => Err ServiceUnavailable
    | payloads :: rest => Ok (payloads, mkREnv rest (chat e) (asked e))
    end.

(** [ollama.chat(model="llama3", messages=...)["message"]["content"]] *)
Definition ollama_chat (messages : list chat_message) : RM string := fun e =>
  match chat e with
  | [] => Err ServiceUnavailable
  | r :: rest => Ok (reply_content r, mkREnv (search_results e) rest (asked e ++ [messages]))
  end.

Definition is_str (v : pyval) : bool := match v with PStr _ => true | _ => false end.

Definition str_of (v : pyval) : string := match v with PStr s => s | _ => "" end.

(** [context = "\n\n".join(chunk["text"] for chunk in chunks)]: the
    generator runs to the end, then every item must be a string. *)
Definition context_of (chunks : list pyval) : res exn string :=
  let? texts := res_map (fun chunk => py_getitem chunk "text") chunks in
  if forallb is_str texts
  then Ok (String.concat (String (Ascii.ascii_of_nat 10) (String (Ascii.ascii_of_nat 10) ""))
                         (map str_of texts))
  else Err TypeError.

(** [summarize_chunks(chunks)]: the prompt around the joined texts, as
    one user message. *)
Definition summarize_chunks (chunks : pyval) : RM string :=
  let* cs := elift (py_iter chunks) in
  let* context := elift (context_of cs) in
  ollama_chat [HumanMessage (summary_prompt context)].

(** [retrieve_chunks(state, tools)] *)
Definition retrieve_chunks (state : pyval) : RM pyval :=
  let* query := elift (py_getitem state "query") in
  let* results := search_vector_db query 10 in
  elift (py_setitem state "retrieved_chunks" (PList results)).

(** [summarize(state)] *)
Definition summarize (state : pyval) : RM pyval :=
  let* chunks := elift (py_getitem state "retrieved_chunks") in
  let* summary := summarize_chunks chunks in
  elift (py_setitem state "summary" (PStr summary)).

(** [create_graph(tools).invoke(state)]: retrieve, then summarize. *)
Definition research_graph (state : pyval) : RM pyval :=
  let* state := retrieve_chunks state in
  summarize state.

Definition user_query : string :=
  "Can you provide some really good examples of email responses from JBAF_LAW to customers?  Do not invent or infer additional examples.  Just provide the best examples you can find in the context. Only select emails that are actual responses to customer messages — these should clearly reference a prior message, contain 'Re:' in the subject, or include phrases like 'following up', 'as requested', or 'regarding your inquiry'.".

(** The entry point: [final_state["summary"]] is printed. *)
Definition research_main : RM pyval :=
  let* final_state := research_graph (PDict [("query", PStr user_query)]) in
  elift (py_getitem final_state "summary").

(** ** The context of the summary prompt *)

(** The texts of dict payloads, when every one has a ["text"] key. *)
Lemma res_map_texts ds :
  Forall (fun d => is_Some (dict_get d "text")) ds ->
  res_map (fun chunk => py_getitem chunk "text") (map PDict ds) =
    Ok (map (fun d => default PNone (dict_get d "text")) ds).
Proof.
  induction 1 as [| d ds [t Ht] _ IH]; [reflexivity |]. simpl. by rewrite Ht, IH.
Qed.

(** A dict payload without ["text"] stops the generator with [KeyError]. *)
Lemma res_map_text_missing ds :
  Exists (fun d => dict_get d "text" = None) ds ->
  res_map (fun chunk => py_getitem chunk "text") (map PDict ds) = Err (KeyError (PStr "text")).
Proof.
  induction 1 as [d ds Hd | d ds _ IH]; simpl; [by rewrite Hd |].
  destruct (dict_get d "text"); [by rewrite IH | reflexivity].
Qed.

(** [str.join] over dict payloads one of which has no usable text:
    [KeyError] when a ["text"] key is missing anywhere, [TypeError]
    otherwise. *)
Lemma context_of_error ds :
  Exists (fun d => match dict_get d "text" with None => True | Some t => is_str t = false end) ds ->
  context_of (map PDict ds) =
    Err (if forallb (fun d => bool_decide (is_Some (dict_get d "text"))) ds
         then TypeError else KeyError (PStr "text")).
Proof.
  intros Hex. unfold context_of.
  destruct (forallb _ ds) eqn:Hall.
  - assert (Hs : Forall (fun d => is_Some (dict_get d "text")) ds).
    { apply List.Forall_forall. intros d Hd. apply forallb_forall with (x := d) in Hall;
        [exact (bool_decide_eq_true_1 _ Hall) | exact Hd]. }
    rewrite (res_map_texts _ Hs). cbn [rbind].
    destruct (forallb is_str _) eqn:Hstr; [| reflexivity].
    apply List.Exists_exists in Hex as (d & Hd & Hbad).
    rewrite List.Forall_forall in Hs. destruct (Hs d Hd) as [t Ht]. rewrite Ht in Hbad.
    rewrite forallb_forall in Hstr. specialize (Hstr t).
    rewrite Hstr in Hbad; [discriminate |]. apply in_map_iff. exists d. by rewrite Ht.
  - assert (Hm : Exists (fun d => dict_get d "text" = None) ds).
    { clear Hex. induction ds as [| d ds IH]; [discriminate |]. simpl in Hall.
      destruct (dict_get d "text") eqn:Hd.
      - rewrite bool_decide_eq_true_2 in Hall by (by eexists). apply Exists_cons_tl, IH, Hall.
      - by apply Exists_cons_hd. }
    by rewrite (res_map_text_missing _ Hm).
Qed.

(** ** Theorems *)

(** C32: The research graph, on a state holding a string query, stores the
    search results under ["retrieved_chunks"] and the chat model's
    answer under ["summary"], keeping the query, whenever every
    retrieved payload has a string ["text"]; the chat model is sent one
    message, the summary prompt around those texts joined by blank
    lines. *)
Theorem research_graph_summary q e v vs payloads rs r rest ctx :
  encode (PList [PStr q]) = Ok (v :: vs) ->
  search_results e = payloads :: rs -> chat e = r :: rest ->
  context_of payloads = Ok ctx ->
  research_graph (PDict [("query", PStr q)]) e =
    Ok (PDict [("query", PStr q); ("retrieved_chunks", PList payloads);
               ("summary", PStr (reply_content r))],
        mkREnv rs rest (asked e ++ [[HumanMessage (summary_prompt ctx)]])).
Proof.
  intros Henc Hs Hc Hctx.
  unfold research_graph, retrieve_chunks, summarize, summarize_chunks, search_vector_db,
    get_embedding, ollama_chat, ebind, elift.
  cbn -[context_of]. rewrite Henc. cbn -[context_of]. rewrite Hs. cbn -[context_of]. rewrite Hctx. cbn. by rewrite Hc.
Qed.

(** C33: The summary step fails exactly as the prompt's [str.join] does:
    when the search returns dict payloads (as Qdrant does) of which one
    has no ["text"] key or a text that is not a string, the entry point
    raises, and no summary is printed: [KeyError "text"] when a
    payload anywhere in the results lacks ["text"] (the generator runs
    to the end before [join] checks the items), [TypeError] when every
    payload has a text and one is not a string. *)
Theorem research_main_context_error e v vs ds rs :
  encode (PList [PStr user_query]) = Ok (v :: vs) ->
  search_results e = map PDict ds :: rs ->
  Exists (fun d => match dict_get d "text" with None => True | Some t => is_str t = false end) ds ->
  research_main e =
    Err (if forallb (fun d => bool_decide (is_Some (dict_get d "text"))) ds
         then TypeError else KeyError (PStr "text")).
Proof.
  intros Henc Hs Hex.
  unfold research_main, research_graph, retrieve_chunks, summarize, summarize_chunks,
    search_vector_db, get_embedding, ebind, elift.
  cbn -[context_of]. rewrite Henc. cbn -[context_of]. rewrite Hs. cbn -[context_of].
  by rewrite (context_of_error _ Hex).
Qed.

(** A query the model embeds into no vector stops the search with
    [IndexError] ([get_embedding(query)[0]]), before Qdrant is asked. *)
Lemma search_vector_db_no_vector query top_k e :
  get_embedding query = Ok [] -> search_vector_db query top_k e = Err IndexError.
Proof. intros H. unfold search_vector_db, ebind, elift. by rewrite H. Qed.

End WithEncoder.

(** A model that embeds every text as the vector [[0]]. *)
Definition zero_encoder (texts : pyval) : res exn (list (list Z)) :=
  match texts with PList l => Ok (map (fun _ => [0%Z]) l) | _ => Err TypeError end.

(** ** Witnesses *)

Lemma research_graph_summary_witness :
  research_graph zero_encoder (PDict [("query", PStr user_query)])
    (mkREnv [[PDict [("text", PStr "Re: your refund")]]] [mkReply "Example 1." None] [])
  = Ok (PDict [("query", PStr user_query);
               ("retrieved_chunks", PList [PDict [("text", PStr "Re: your refund")]]);
               ("summary", PStr "Example 1.")],
        mkREnv [] [] [[HumanMessage (summary_prompt "Re: your refund")]]).
Proof.
  exact (research_graph_summary zero_encoder user_query
           (mkREnv [[PDict [("text", PStr "Re: your refund")]]] [mkReply "Example 1." None] [])
           _ _ _ [] (mkReply "Example 1." None) [] "Re: your refund"
           eq_refl eq_refl eq_refl eq_refl).
Defined.

(** A non-string text first, a payload without text second: [KeyError]. *)
Lemma research_main_context_error_witness :
  research_main zero_encoder
    (mkREnv [[PDict [("text", PInt 5)]; PDict [("title", PStr "Re:")]]] [] [])
  = Err (KeyError (PStr "text")).
Proof.
  exact (research_main_context_error zero_encoder
           (mkREnv [[PDict [("text", PInt 5)]; PDict [("title", PStr "Re:")]]] [] [])
           _ _ [[("text", PInt 5)]; [("title", PStr "Re:")]] []
           eq_refl eq_refl ltac:(apply Exists_cons_hd; reflexivity)).
Defined.

End Research.
