(* ===== verification/Clients.v ===== *)
(** * The service clients: [drivers.py] and [neptune_test.py]

    [drivers.py] runs when the research entry point imports it: it
    calls [load_dotenv()], then builds the Qdrant client from
    [QDRANT_HOST] and [int(QDRANT_PORT)] and the Neo4j driver from
    [NEO4J_URI], [NEO4J_USER] and [NEO4J_PASSWORD], each with a default.
    The only computation that can fail is [int()] on the port, so this
    file models CPython's [int(str)] ([PyLong_FromUnicodeObject]):
    Unicode whitespace and decimal digits of every script are first
    mapped to ASCII ([_PyUnicode_TransformDecimalAndSpaceToASCII], with
    the tables of Unicode 14.0, as in CPython 3.11), then the ASCII text
    is read as in [PyLong_FromString] with base 10: spaces, a sign,
    digits with single underscores between them, spaces, and nothing
    else; more than [sys.get_int_max_str_digits()] = 4300 digits is
    refused.  The environment is a [gmap] from names to values, and
    [load_dotenv] adds the variables of the [.env] file that are not
    already set.

    [neptune_test.py] probes a server's status endpoint and prints what
    it finds; the HTTP exchange is the input.

    [int()] reads back [str(z)], with white space around it, for every
    integer [z] of at most 4300 digits ([py_int_padded]); the
    theorem: any such integer, negative or above 65535 included,
    becomes the Qdrant port. *)

From S2P Require Import Prelude PyRuntime PyText Prompts Session Research.
From stdpp Require Import gmap.
From Stdlib Require Import Ascii Decimal DecimalString DecimalPos.

Module PyInt.

(** ** [_PyUnicode_TransformDecimalAndSpaceToASCII] *)

(** The code points at or above 127 that [str.isspace] accepts. *)
Definition unicode_spaces : list N :=
  [133; 160; 5760; 8192; 8193; 8194; 8195; 8196; 8197; 8198; 8199; 8200; 8201;
   8202; 8232; 8233; 8239; 8287; 12288]%N.

(** The zero of each run of ten decimal digits (Unicode category Nd). *)
Definition decimal_zeros : list N :=
  [48; 1632; 1776; 1984; 2406; 2534; 2662; 2790; 2918; 3046; 3174; 3302; 3430;
   3558; 3664; 3792; 3872; 4160; 4240; 6112; 6160; 6470; 6608; 6784; 6800; 6992;
   7088; 7232; 7248; 42528; 43216; 43264; 43472; 43504; 43600; 44016; 65296;
   66720; 68912; 69734; 69872; 69942; 70096; 70384; 70736; 70864; 71248; 71360;
   71472; 71904; 72016; 72784; 73040; 73120; 92768; 92864; 93008; 120782; 120792;
   120802; 120812; 120822; 123200; 123632; 125264; 130032]%N.

(** [Py_UNICODE_TODECIMAL] *)
Definition to_decimal (cp : N) : option N :=
  match List.find (fun z => (z <=? cp)%N && (cp <? z + 10)%N) decimal_zeros with
  | Some z => Some (cp - z)%N
  | None => None
  end.

(** ASCII below 127 is kept, a space becomes [' '], a digit its ASCII
    digit; anything else becomes ['?'] and ends the text. *)
Fixpoint transform (cps : list N) : list ascii :=
  match cps with
  | [] => []
  | cp :: rest =>
      if (cp <? 127)%N then ascii_of_N cp :: transform rest
      else if existsb (N.eqb cp) unicode_spaces then " "%char :: transform rest
      else match to_decimal cp with
           | Some d => ascii_of_N (48 + d) :: transform rest
           | None => ["?"%char]
           end
  end.

(** ** [PyLong_FromString(s, &end, 10)] *)

(** [Py_ISSPACE]: the C locale's white space. *)
Definition py_isspace (c : ascii) : bool :=
  let n := N_of_ascii c in ((9 <=? n) && (n <=? 13))%N || (n =? 32)%N.

Fixpoint skip_spaces (l : list ascii) : list ascii :=
  match l with
  | c :: r => if py_isspace c then skip_spaces r else l
  | [] => []
  end.

Definition digit_val (c : ascii) : option Z :=
  let n := N_of_ascii c in
  if ((48 <=? n) && (n <=? 57))%N then Some (Z.of_N n - 48)%Z else None.

(** The digits, read while the text has digits or underscores.  [us]
    holds when the previous character was an underscore, or at the
    start, where a digit is required: an underscore then, or at the end
    of the digits, is an invalid literal. *)
Fixpoint scan_digits (l : list ascii) (us : bool) : option (list Z * list ascii) :=
  match l with
  | c :: r =>
      if Ascii.eqb c "_" then if us then None else scan_digits r true
      else match digit_val c with
           | Some d =>
               match scan_digits r false with
               | Some (ds, rest) => Some (d :: ds, rest)
               | None => None
               end
           | None => if us then None else Some ([], l)
           end
  | [] => if us then None else Some ([], [])
  end.

(** The value of a digit sequence, most significant first. *)
Definition digits_value (ds : list Z) : Z := fold_left (fun acc d => 10 * acc + d)%Z ds 0%Z.

(** [sys.get_int_max_str_digits()], its default. *)
Definition int_max_str_digits : nat := 4300.

Definition long_from_string (l : list ascii) : res exn Z :=
  let l := skip_spaces l in
  let '(neg, l) := match l with
                   | "-"%char :: r => (true, r)
                   | "+"%char :: r => (false, r)
                   | _ => (false, l)
                   end in
  match scan_digits l true with
  | None => Err ValueError
  | Some (ds, rest) =>
      if (int_max_str_digits <? length ds)%nat then Err ValueError
      else match skip_spaces rest with
           | [] => Ok (if neg then - digits_value ds else digits_value ds)%Z
           | _ :: _ => Err ValueError
           end
  end.

(** [int(s)] for a [str] [s] (held as its UTF-8 encoding): an ASCII
    string is read as it is, any other one after [transform]. *)
Definition py_int (s : string) : res exn Z :=
  let cps := utf8_decode (String.list_ascii_of_string s) in
  long_from_string (if forallb (fun cp => cp <? 128)%N cps then map ascii_of_N cps
                    else transform cps).

End PyInt.

(** ** [drivers.py] *)

Module Drivers.
Import PyInt.

(** [os.environ], and the variables a [.env] file defines. *)
Abbreviation environ := (gmap string string).

(** [load_dotenv()] (with [override=False]): a variable of the file is
    set only when the environment does not have it. *)
Definition load_dotenv (dotenv env : environ) : environ := env ∪ dotenv.

(** [os.getenv(key, default)] *)
Definition getenv (env : environ) (key default : string) : string :=
  match env !! key with Some v => v | None => default end.

(** The arguments of [QdrantClient(host=..., port=...)] and
    [GraphDatabase.driver(uri, auth=(user, password))]. *)
Record clients : Type := mkClients {
  qdrant_host : string;
  qdrant_port : Z;
  neo4j_uri : string;
  neo4j_auth : string * string
}.

(** The module body, in order: the environment after [load_dotenv()],
    and the two clients' settings. *)
Definition drivers_module (dotenv env : environ) : res exn (environ * clients) :=
  let env := load_dotenv dotenv env in
  let host := getenv env "QDRANT_HOST" "localhost" in
  let? port := py_int (getenv env "QDRANT_PORT" "6333") in
  let uri := getenv env "NEO4J_URI" "bolt://localhost:7687" in
  let user := getenv env "NEO4J_USER" "neo4j" in
  let password := getenv env "NEO4J_PASSWORD" "neo4j" in
  Ok (env, mkClients host port uri (user, password)).

(** The research entry point: [from drivers import ...] runs the module,
    then the graph runs on the services. *)
Definition research_script {V} (encode : pyval -> res exn (list V)) (dotenv env : environ)
  : Research.RM pyval := fun e =>
  match drivers_module dotenv env with
  | Ok _ => Research.research_main encode e
  | Err ex => Err ex
  end.

End Drivers.

(** ** [neptune_test.py] *)

Module Neptune.

(** The second assignment of [NEPTUNE_HOST] is the one [check_status]
    reads. *)
Definition NEPTUNE_HOST : string :=
  "db-dev-neptune-1-instance-1.cd0iemc4ay88.us-east-2.neptune.amazonaws.com".

Definition PORT : Z := 8182%Z.

(** What [requests.get(url, timeout=5)] does: raise a
    [RequestException] (given by its [str]), or answer with a status
    code, a reason phrase, and what [response.json()] would give: a
    value, or the message of the [JSONDecodeError] it raises. *)
Inductive http_exchange : Type :=
| RequestFailed (error : string)
| Answered (status_code : Z) (reason : string) (json : res string pyval).

(** [Response.raise_for_status()]: the [HTTPError] message for a 4xx or
    5xx status, nothing otherwise. *)
Definition raise_for_status (url : string) (status_code : Z) (reason : string)
  : option string :=
  if ((400 <=? status_code) && (status_code <? 500))%Z then
    Some (int_str status_code +:+ " Client Error: " +:+ reason +:+ " for url: " +:+ url)
  else if ((500 <=? status_code) && (status_code <? 600))%Z then
    Some (int_str status_code +:+ " Server Error: " +:+ reason +:+ " for url: " +:+ url)
  else None.

Definition status_banner : string := "✅ Neptune status:".
Definition error_banner : string := "❌ Error connecting to Neptune:".

(** [check_status()], as the lines it prints.  Every failure is a
    [RequestException] ([HTTPError], and [JSONDecodeError] since
    requests 2.27), caught by the [except] and printed. *)
Definition check_status (get : string -> http_exchange) : list string :=
  let url := "https://" +:+ NEPTUNE_HOST +:+ ":" +:+ int_str PORT +:+ "/status" in
  match get url with
  | RequestFailed err => [error_banner; err]
  | Answered code reason body =>
      match raise_for_status url code reason with
      | Some err => [error_banner; err]
      | None =>
          status_banner ::
            match body with
            | Ok v => [py_str v]
            | Err err => [error_banner; err]
            end
      end
  end.

End Neptune.

(** ** [int(str(z))] *)

Section IntRoundtrip.
Import PyInt.

(** The digits a [Decimal.uint] spells, most significant first. *)
Fixpoint uint_digits (u : uint) : list Z :=
  match u with
  | Nil => []
  | D0 u => 0 :: uint_digits u
  | D1 u => 1 :: uint_digits u
  | D2 u => 2 :: uint_digits u
  | D3 u => 3 :: uint_digits u
  | D4 u => 4 :: uint_digits u
  | D5 u => 5 :: uint_digits u
  | D6 u => 6 :: uint_digits u
  | D7 u => 7 :: uint_digits u
  | D8 u => 8 :: uint_digits u
  | D9 u => 9 :: uint_digits u
  end%Z.

Definition uint_chars (u : uint) : list ascii :=
  String.list_ascii_of_string (NilEmpty.string_of_uint u).

Lemma uint_chars_ascii u : Forall (fun c => (N_of_ascii c < 128)%N) (uint_chars u).
Proof.
  unfold uint_chars. induction u; simpl; constructor; try assumption; vm_compute; reflexivity.
Qed.

Lemma utf8_decode_ascii l :
  Forall (fun c => (N_of_ascii c < 128)%N) l -> utf8_decode l = map N_of_ascii l.
Proof.
  induction 1 as [| c l Hc _ IH]; [reflexivity |]. simpl.
  apply N.ltb_lt in Hc. rewrite Hc. f_equal. exact IH.
Qed.

Lemma ascii_of_N_map l : map ascii_of_N (map N_of_ascii l) = l.
Proof. rewrite map_map. erewrite map_ext; [apply map_id |]. apply ascii_N_embedding. Qed.

(** An ASCII string goes to [long_from_string] as it is. *)
Lemma py_int_ascii s :
  Forall (fun c => (N_of_ascii c < 128)%N) (String.list_ascii_of_string s) ->
  py_int s = long_from_string (String.list_ascii_of_string s).
Proof.
  intros H. unfold py_int. rewrite (utf8_decode_ascii _ H), ascii_of_N_map.
  replace (forallb _ _) with true; [reflexivity |]. symmetry.
  apply forallb_forall. intros x Hx. apply in_map_iff in Hx as (c & <- & Hc).
  apply N.ltb_lt. exact (proj1 (List.Forall_forall _ _) H c Hc).
Qed.

(** The white space [Py_ISSPACE] skips is neither a digit nor an underscore. *)
Lemma space_not_digit c :
  py_isspace c = true -> Ascii.eqb c "_" = false /\ digit_val c = None.
Proof. destruct c as [[] [] [] [] [] [] [] []]; vm_compute; intros H; try discriminate; auto. Qed.

Definition spaces (l : list ascii) : Prop := Forall (fun c => py_isspace c = true) l.

Lemma skip_spaces_app ws l : spaces ws -> skip_spaces (ws ++ l) = skip_spaces l.
Proof. induction 1 as [| c ws Hc _ IH]; [reflexivity |]. simpl. by rewrite Hc. Qed.

Lemma skip_spaces_all ws : spaces ws -> skip_spaces ws = [].
Proof. intros H. rewrite <- (app_nil_r ws), skip_spaces_app by exact H. reflexivity. Qed.

(** The digits of [u] followed by white space (or nothing). *)
Lemma scan_uint u rest :
  spaces rest -> scan_digits (uint_chars u ++ rest) false = Some (uint_digits u, rest).
Proof.
  unfold uint_chars. intros Hr. induction u; simpl; try rewrite IHu; try reflexivity.
  destruct Hr as [| c r Hc _]; [reflexivity |].
  destruct (space_not_digit c Hc) as [E1 E2]. simpl. by rewrite E1, E2.
Qed.

Lemma scan_uint_start u us rest :
  u <> Nil -> spaces rest ->
  scan_digits (uint_chars u ++ rest) us = Some (uint_digits u, rest).
Proof.
  intros Hu Hr. pose proof (scan_uint u rest Hr) as H. unfold uint_chars in *.
  destruct u; [congruence |..]; exact H.
Qed.

Lemma digits_value_acc u acc :
  fold_left (fun acc d => 10 * acc + d)%Z (uint_digits u) (Zpos acc) =
  Zpos (Pos.of_uint_acc u acc).
Proof.
  revert acc. induction u; intros acc; simpl; [reflexivity |..];
    rewrite <- IHu; f_equal; lia.
Qed.

Lemma digits_value_uint u : digits_value (uint_digits u) = Z.of_N (Pos.of_uint u).
Proof.
  unfold digits_value. induction u; simpl; try exact IHu; [reflexivity |..];
    apply digits_value_acc.
Qed.

Lemma uint_digits_length u :
  length (uint_digits u) = String.length (NilEmpty.string_of_uint u).
Proof. induction u; simpl; congruence. Qed.

Definition sign_chars (neg : bool) : list ascii := if neg then ["-"%char] else [].

(** [PyLong_FromString] on the digits of a positive number, with or
    without a minus sign, between white space. *)
Lemma long_from_uint ws u (neg : bool) ws' :
  spaces ws -> u <> Nil -> spaces ws' ->
  long_from_string (ws ++ sign_chars neg ++ uint_chars u ++ ws') =
  if (String.length (NilEmpty.string_of_uint u) <=? int_max_str_digits)%nat
  then Ok (if neg then - Z.of_N (Pos.of_uint u) else Z.of_N (Pos.of_uint u))%Z
  else Err ValueError.
Proof.
  intros Hws Hu Hws'. unfold long_from_string. rewrite (skip_spaces_app _ _ Hws).
  assert (Hs : skip_spaces (sign_chars neg ++ uint_chars u ++ ws') =
               sign_chars neg ++ uint_chars u ++ ws')
    by (unfold uint_chars, sign_chars; destruct neg, u; try congruence; reflexivity).
  assert (Hm : match sign_chars neg ++ uint_chars u ++ ws' with
               | "-"%char :: r => (true, r) | "+"%char :: r => (false, r)
               | _ => (false, sign_chars neg ++ uint_chars u ++ ws') end =
               (neg, uint_chars u ++ ws'))
    by (unfold uint_chars, sign_chars; destruct neg, u; try congruence; reflexivity).
  rewrite Hs, Hm, (scan_uint_start _ _ _ Hu Hws'), uint_digits_length, digits_value_uint.
  destruct (Nat.leb_spec (String.length (NilEmpty.string_of_uint u)) int_max_str_digits)
    as [Hl | Hl].
  - rewrite (proj2 (Nat.ltb_ge _ _) Hl), (skip_spaces_all _ Hws'). reflexivity.
  - rewrite (proj2 (Nat.ltb_lt _ _) Hl). reflexivity.
Qed.

Lemma int_str_pos p :
  int_str (Zpos p) = NilEmpty.string_of_uint (Pos.to_uint p) /\ Pos.to_uint p <> Nil.
Proof.
  pose proof (DecimalPos.Unsigned.to_uint_nonnil p) as Hn. split; [| exact Hn].
  unfold int_str. simpl. unfold NilZero.string_of_int, NilZero.string_of_uint.
  destruct (Pos.to_uint p); [congruence | reflexivity..].
Qed.


Lemma int_str_neg p : int_str (Zneg p) = String "-" (NilEmpty.string_of_uint (Pos.to_uint p)).
Proof.
  pose proof (DecimalPos.Unsigned.to_uint_nonnil p) as Hn.
  unfold int_str. simpl. unfold NilZero.string_of_int, NilZero.string_of_uint.
  destruct (Pos.to_uint p); [congruence | reflexivity..].
Qed.

(** [str(z)]: a sign, then the digits of a nonempty [uint]. *)
Lemma int_str_spec z :
  exists neg u, u <> Nil /\
    String.list_ascii_of_string (int_str z) = sign_chars neg ++ uint_chars u /\
    z = (if neg then - Z.of_N (Pos.of_uint u) else Z.of_N (Pos.of_uint u))%Z /\
    int_str (Z.abs z) = NilEmpty.string_of_uint u.
Proof.
  destruct z as [|p|p].
  - exists false, (D0 Nil). repeat split; [discriminate | reflexivity..].
  - destruct (int_str_pos p) as [Hs Hn]. exists false, (Pos.to_uint p).
    rewrite DecimalPos.Unsigned.of_to. change (Z.abs (Zpos p)) with (Zpos p).
    rewrite Hs. repeat split; auto.
  - destruct (int_str_pos p) as [Hs Hn]. exists true, (Pos.to_uint p).
    rewrite DecimalPos.Unsigned.of_to. change (Z.abs (Zneg p)) with (Zpos p).
    rewrite Hs, int_str_neg.
    repeat split; auto.
Qed.

Lemma spaces_ascii l : spaces l -> Forall (fun c => (N_of_ascii c < 128)%N) l.
Proof.
  intros H. apply (Forall_impl _ _ _ H). intros c. unfold py_isspace.
  rewrite orb_true_iff, andb_true_iff, !N.leb_le, N.eqb_eq. lia.
Qed.

(** [int()] on [str(z)] between white space. *)
Lemma py_int_padded ws z ws' :
  spaces (String.list_ascii_of_string ws) -> spaces (String.list_ascii_of_string ws') ->
  py_int (ws +:+ int_str z +:+ ws') =
  if (String.length (int_str (Z.abs z)) <=? int_max_str_digits)%nat
  then Ok z else Err ValueError.
Proof.
  intros Hws Hws'. destruct (int_str_spec z) as (neg & u & Hu & Hs & Hz & Ha).
  rewrite py_int_ascii, !list_ascii_app, Hs.
  - rewrite <- !app_assoc, (long_from_uint _ _ _ _ Hws Hu Hws'), Ha, <- Hz. reflexivity.
  - rewrite !list_ascii_app, Hs.
    apply Forall_app; split; [exact (spaces_ascii _ Hws) |].
    apply Forall_app; split; [| exact (spaces_ascii _ Hws')].
    apply Forall_app; split; [| apply uint_chars_ascii].
    destruct neg; repeat constructor.
Qed.

End IntRoundtrip.

(** ** The entry points *)

(** The research script stops at the import of [drivers] when the port
    is not an integer literal: nothing is searched. *)
Lemma research_script_port_error {V} (encode : pyval -> res exn (list V)) dotenv env e v :
  (env ∪ dotenv) !! "QDRANT_PORT" = Some v -> PyInt.py_int v = Err ValueError ->
  Drivers.research_script encode dotenv env e = Err ValueError.
Proof.
  intros Hv Hi. unfold Drivers.research_script, Drivers.drivers_module, Drivers.load_dotenv,
    Drivers.getenv. by rewrite Hv, Hi.
Qed.

(** A reply that is not an HTTP error but whose body is not JSON prints
    the success banner, then the error banner and the decode error. *)
Lemma check_status_non_json get code reason err :
  get ("https://" +:+ Neptune.NEPTUNE_HOST +:+ ":" +:+ int_str Neptune.PORT +:+ "/status") =
    Neptune.Answered code reason (Err err) ->
  (code < 400 \/ 600 <= code)%Z ->
  Neptune.check_status get = [Neptune.status_banner; Neptune.error_banner; err].
Proof.
  intros Hg Hc. unfold Neptune.check_status. rewrite Hg. unfold Neptune.raise_for_status.
  destruct (Z.leb_spec 400 code), (Z.ltb_spec code 500), (Z.leb_spec 500 code),
    (Z.ltb_spec code 600); simpl; try lia; reflexivity.
Qed.

(** ** Theorems *)

(** C36: [drivers.py] checks no range: an integer of at most 4300 digits
    in [QDRANT_PORT], with white space around it or not, becomes the
    Qdrant port whatever its value (a negative port, or one above
    65535, included), and a port the environment sets wins over the one
    of the [.env] file. *)
Theorem drivers_port_unchecked dotenv env ws z ws' :
  spaces (String.list_ascii_of_string ws) -> spaces (String.list_ascii_of_string ws') ->
  env !! "QDRANT_PORT" = Some (ws +:+ int_str z +:+ ws') ->
  (String.length (int_str (Z.abs z)) <= PyInt.int_max_str_digits)%nat ->
  exists c, Drivers.drivers_module dotenv env = Ok (env ∪ dotenv, c) /\
            Drivers.qdrant_port c = z.
Proof.
  intros Hws Hws' Henv Hl. unfold Drivers.drivers_module, Drivers.load_dotenv, Drivers.getenv.
  rewrite (lookup_union_Some_l _ _ _ _ Henv), (py_int_padded _ _ _ Hws Hws').
  apply Nat.leb_le in Hl. rewrite Hl. eexists. split; reflexivity.
Qed.

(** ** Witnesses *)

(** Port 70000, set with a trailing newline in the environment, wins over
    the [.env] file's 6333. *)
Lemma drivers_port_unchecked_witness :
  exists c,
    Drivers.drivers_module {[ "QDRANT_PORT" := "6333" ]}
      {[ "QDRANT_PORT" := " " +:+ int_str 70000 +:+ nl ]} =
    Ok ({[ "QDRANT_PORT" := " " +:+ int_str 70000 +:+ nl ]} ∪ {[ "QDRANT_PORT" := "6333" ]}, c) /\
    Drivers.qdrant_port c = 70000%Z.
Proof.
  apply (drivers_port_unchecked _ _ " " 70000%Z nl).
  - unfold spaces. simpl. repeat constructor.
  - unfold spaces. simpl. repeat constructor.
  - vm_compute. reflexivity.
  - apply Nat.leb_le. vm_compute. reflexivity.
Defined.
